(** * Emby exporters for Prometheus: a shallow embedding and its properties

    The repository holds four near-duplicate polling exporters
    (emby_exporter_fixed.py, emby_exporter_debug.py, emby_livetv_exporter.py,
    emby_livetv_ultimate.py).  Each polls the Emby HTTP API, and republishes
    what it finds through prometheus_client gauges and counters.

    Modelling conventions.
    - Python floats (gauge values, [time.time()]) are idealised as the
      rationals [Qc]; Python ints that come from JSON are [Z].
    - A JSON object of the Emby API is a record with one optional field per
      key the exporters read ([d.get(k, dflt)] is [default dflt (k d)]);
      JSON null and values of an unexpected JSON type are outside the model.
    - The process state (metric registry, exporter attributes, the clock and
      the log of requests sent) is threaded through a state-and-exception
      monad [M]: a Python exception keeps every mutation made before it.
    - The Emby server and the clock are the environment [Env]: the k-th
      reading of the clock and the answer to the n-th request. *)

From Stdlib Require Import ZArith QArith Qcanon String Ascii List Lia.
From stdpp Require Import base option list gmap strings numbers pretty.

Local Open Scope string_scope.
Local Open Scope Z_scope.

(** ** Python exceptions and the state-and-exception monad *)

Inductive exn :=
| ValueError
| TypeError
| AttributeError
| IndexError
| UnboundLocalError
| RequestException.

Inductive outcome (A : Type) :=
| Return (a : A)
| Raise (e : exn).
Arguments Return {A} a.
Arguments Raise {A} e.

Definition M (W A : Type) : Type := W -> outcome A * W.

Definition ret {W A} (a : A) : M W A := fun w => (Return a, w).

Definition raise {W A} (e : exn) : M W A := fun w => (Raise e, w).

Definition bind {W A B} (m : M W A) (k : A -> M W B) : M W B :=
  fun w => match m w with
           | (Return a, w') => k a w'
           | (Raise e, w') => (Raise e, w')
           end.

Declare Scope py_scope.
Delimit Scope py_scope with py.
Notation "x <- c ;; k" := (bind c (fun x => k))
  (at level 100, c at next level, right associativity) : py_scope.
Notation "c ;;; k" := (bind c (fun _ => k))
  (at level 100, right associativity) : py_scope.
Local Open Scope py_scope.

(** [try: body except Exception: handler] *)
Definition try_except {W A} (body : M W A) (handler : exn -> M W A) : M W A :=
  fun w => match body w with
           | (Return a, w') => (Return a, w')
           | (Raise e, w') => handler e w'
           end.

(** [for x in l: body x] *)
Fixpoint for_each {W A} (l : list A) (body : A -> M W unit) : M W unit :=
  match l with
  | [] => ret tt
  | x :: l' => body x ;;; for_each l' body
  end.

(** A loop whose body rebinds local variables: the locals are threaded. *)
Fixpoint for_fold {W A L} (l : list A) (body : A -> L -> M W L) (locals : L)
  : M W L :=
  match l with
  | [] => ret locals
  | x :: l' => locals' <- body x locals ;; for_fold l' body locals'
  end.

Definition when {W} (b : bool) (m : M W unit) : M W unit :=
  if b then m else ret tt.

(** ** Python truthiness ([if x:], [not x]) *)

Class Truthy (A : Type) := truthy : A -> bool.

#[global] Instance truthy_bool : Truthy bool := fun b => b.
#[global] Instance truthy_Z : Truthy Z := fun z => negb (Z.eqb z 0).
#[global] Instance truthy_string : Truthy string :=
  fun s => match s with EmptyString => false | _ => true end.
#[global] Instance truthy_list {A} : Truthy (list A) :=
  fun l => match l with [] => false | _ => true end.
(** [None] is falsy; a present value has its own truth value. *)
#[global] Instance truthy_option {A} `{Truthy A} : Truthy (option A) :=
  fun o => match o with None => false | Some a => truthy a end.

(** [key in d] for an optional record field. *)
Definition has_key {A} (field : option A) : bool :=
  match field with Some _ => true | None => false end.

(** ** Python string helpers (ASCII) *)

Definition upper_ascii (c : ascii) : ascii :=
  let n := nat_of_ascii c in
  if (Nat.leb 97 n && Nat.leb n 122)%bool then ascii_of_nat (n - 32) else c.

Fixpoint upper (s : string) : string :=
  match s with
  | EmptyString => EmptyString
  | String c s' => String (upper_ascii c) (upper s')
  end.

(** [needle in hay] *)
Fixpoint contains (needle hay : string) : bool :=
  (String.prefix needle hay ||
   match hay with
   | EmptyString => false
   | String _ hay' => contains needle hay'
   end)%bool.

(** [s.split(sep)] for a one-character separator: the pieces, in order. *)
Fixpoint split_on (sep : ascii) (s : string) : list string :=
  match s with
  | EmptyString => [EmptyString]
  | String c s' =>
      if Ascii.eqb c sep then EmptyString :: split_on sep s'
      else match split_on sep s' with
           | [] => [String c EmptyString]
           | piece :: rest => String c piece :: rest
           end
  end.

Definition str_of_bool (b : bool) : string := if b then "True" else "False".

(** ** prometheus_client: the registry *)

(** A series is a metric name with its label values, in declaration order. *)
Abbreviation series := (string * list string)%type.

(** Query parameters of a GET.  The dates the exporter sends are all computed
    from one [datetime.now()]; they are kept symbolic. *)
Inductive date_expr :=
| Now                          (* now *)
| NowPlusHour                  (* now + timedelta(hours=1) *)
| TodayStart                   (* now.replace(hour=0, minute=0, second=0, microsecond=0) *)
| TodayEnd                     (* now.replace(hour=23, minute=59, second=59, ...) *)
| FutureDate (days : Z)        (* today_start + timedelta(days=days) *)
| FutureDatePlusHour (days : Z).

Inductive param :=
| PBool (b : bool)
| PInt (z : Z)
| PDate (d : date_expr).

Definition params : Type := list (string * param).

Record World (S : Type) := mkWorld {
  gauges : gmap series Qc;                      (* Gauge children: last value set *)
  counters : gmap series Qc;                    (* Counter children: running total *)
  infos : gmap string (list (string * string)); (* Info metrics *)
  samples : gmap series (list Qc);              (* Summary/Histogram observations *)
  ticks : nat;                                  (* clock readings taken so far *)
  sent : list (string * params);                (* GET requests issued, oldest first *)
  self : S                                      (* the exporter object's attributes *)
}.
Arguments mkWorld {S}.
Arguments gauges {S}.
Arguments counters {S}.
Arguments infos {S}.
Arguments samples {S}.
Arguments ticks {S}.
Arguments sent {S}.
Arguments self {S}.

Definition with_gauges {S : Type} (g : gmap series Qc) (w : World S) : World S :=
  mkWorld g (counters w) (infos w) (samples w) (ticks w) (sent w) (self w).
Definition with_counters {S : Type} (c : gmap series Qc) (w : World S) : World S :=
  mkWorld (gauges w) c (infos w) (samples w) (ticks w) (sent w) (self w).
Definition with_infos {S : Type} (i : gmap string (list (string * string)))
  (w : World S) : World S :=
  mkWorld (gauges w) (counters w) i (samples w) (ticks w) (sent w) (self w).
Definition with_samples {S : Type} (o : gmap series (list Qc)) (w : World S) : World S :=
  mkWorld (gauges w) (counters w) (infos w) o (ticks w) (sent w) (self w).
Definition with_ticks {S : Type} (t : nat) (w : World S) : World S :=
  mkWorld (gauges w) (counters w) (infos w) (samples w) t (sent w) (self w).
Definition with_sent {S : Type} (r : list (string * params)) (w : World S)
  : World S :=
  mkWorld (gauges w) (counters w) (infos w) (samples w) (ticks w) r (self w).
Definition with_self {S : Type} (s : S) (w : World S) : World S :=
  mkWorld (gauges w) (counters w) (infos w) (samples w) (ticks w) (sent w) s.

Definition get_self {S : Type} : M (World S) S := fun w => (Return (self w), w).
Definition modify_self {S : Type} (f : S -> S) : M (World S) unit :=
  fun w => (Return tt, with_self (f (self w)) w).

(** [g.labels(...).set(v)] *)
Definition gauge_set {S : Type} (name : string) (labels : list string) (v : Qc)
  : M (World S) unit :=
  fun w => (Return tt, with_gauges (<[(name, labels) := v]> (gauges w)) w).

(** The value a counter child shows: 0 until it is first incremented. *)
Definition counter_value {S : Type} (w : World S) (name : string) (labels : list string)
  : Qc :=
  default (Qc_of_Z 0) (counters w !! (name, labels)).

(** [c.labels(...).inc(amount)]; prometheus_client raises ValueError on a
    negative amount. *)
Definition counter_inc {S : Type} (name : string) (labels : list string) (amount : Qc)
  : M (World S) unit :=
  fun w =>
    if decide (amount < 0)%Qc then (Raise ValueError, w)
    else (Return tt,
          with_counters
            (<[(name, labels) := (counter_value w name labels + amount)%Qc]>
               (counters w)) w).

(** [i.info({...})] *)
Definition info_set {S : Type} (name : string) (d : list (string * string))
  : M (World S) unit :=
  fun w => (Return tt, with_infos (<[name := d]> (infos w)) w).

(** [h.labels(...).observe(v)] *)
Definition observe {S : Type} (name : string) (labels : list string) (v : Qc)
  : M (World S) unit :=
  fun w => (Return tt,
            with_samples
              (<[(name, labels) := (default [] (samples w !! (name, labels)) ++ [v])%list]>
                 (samples w)) w).

(** ** The Emby API's JSON documents *)

Record SystemInfo := {
  info_Version : option string;
  info_ServerName : option string;
  info_OperatingSystem : option string;
  info_HasLiveTv : option bool;
  info_Id : option string
}.

Record Program := {
  program_Name : option string;
  program_Genres : option (list string);
  program_StartDate : option string;
  program_EndDate : option string
}.

Record UserData := { IsFavorite : option bool }.

Record Channel := {
  channel_Id : option string;
  channel_Name : option string;
  channel_ChannelNumber : option string;
  channel_Number : option string;
  channel_IsHD : option bool;
  channel_IsDisabled : option bool;
  channel_UserData : option UserData;
  channel_Type : option string
}.

Record NowPlayingItem := {
  np_Id : option string;
  np_Name : option string;
  np_Type : option string;
  np_MediaType : option string;
  np_ChannelNumber : option string;
  np_CurrentProgram : option Program
}.

Record PlayState := {
  PlayMethod : option string;
  IsPaused : option bool;
  PositionTicks : option Z
}.

Record TranscodingInfo := {
  Bitrate : option Z;
  Height : option Z;
  Framerate : option Qc
}.

Record Session := {
  session_Id : option string;
  session_UserName : option string;
  session_Client : option string;
  session_DeviceName : option string;
  session_NowPlayingItem : option NowPlayingItem;
  session_PlayState : option PlayState;
  session_TranscodingInfo : option TranscodingInfo;
  session_Bandwidth : option Z
}.

Record Tuner := {
  tuner_Id : option string;
  tuner_Name : option string;
  tuner_Type : option string;
  tuner_ChannelId : option string;
  tuner_Status : option string;
  tuner_ChannelName : option string
}.

Record Timer := { timer_SeriesTimerId : option string }.

Record Recording := { recording_Size : option Z }.

(** [{"Items": [...], "TotalRecordCount": n}] *)
Record QueryResult (A : Type) := {
  Items : option (list A);
  TotalRecordCount : option Z
}.
Arguments Items {A}.
Arguments TotalRecordCount {A}.

(** What /LiveTv/Tuners may answer: a JSON array, or an object. *)
Inductive TunersPayload :=
| TunerList (l : list Tuner)
| TunerObject (q : QueryResult Tuner).

(** A dict is truthy when it has a key.  The records carry exactly the keys
    the exporters read, so a record with no field present stands for [{}]. *)
#[global] Instance truthy_SystemInfo : Truthy SystemInfo := fun i =>
  (has_key (info_Version i) || has_key (info_ServerName i) ||
   has_key (info_OperatingSystem i) || has_key (info_HasLiveTv i) ||
   has_key (info_Id i))%bool.
#[global] Instance truthy_Program : Truthy Program := fun p =>
  (has_key (program_Name p) || has_key (program_Genres p) ||
   has_key (program_StartDate p) || has_key (program_EndDate p))%bool.
#[global] Instance truthy_NowPlayingItem : Truthy NowPlayingItem := fun i =>
  (has_key (np_Id i) || has_key (np_Name i) || has_key (np_Type i) ||
   has_key (np_MediaType i) || has_key (np_ChannelNumber i) ||
   has_key (np_CurrentProgram i))%bool.
#[global] Instance truthy_QueryResult {A} : Truthy (QueryResult A) := fun q =>
  (has_key (Items q) || has_key (TotalRecordCount q))%bool.
#[global] Instance truthy_TunersPayload : Truthy TunersPayload := fun t =>
  match t with
  | TunerList l => truthy l
  | TunerObject q => truthy q
  end.

(** ** datetime *)

(** A [datetime] object: its position on the time line in seconds (UTC for an
    aware value, wall clock for a naive one) and its [tzinfo]. *)
Record datetime := {
  timestamp : Qc;
  utcoffset : option Z
}.

(** [(b - a).total_seconds()]: Python refuses to subtract a naive datetime
    from an aware one. *)
Definition total_seconds_between (b a : datetime) : outcome Qc :=
  match utcoffset b, utcoffset a with
  | Some _, Some _ | None, None => Return (timestamp b - timestamp a)%Qc
  | _, _ => Raise TypeError
  end.

(** ** The environment: the clock, the Emby server, the standard library *)

Record response (A : Type) := {
  status_code : Z;
  json : A          (* [response.json()] *)
}.
Arguments status_code {A}.
Arguments json {A}.

(** The answer to a GET, given how many requests were sent before it and its
    query parameters; [None] is a transport failure or a timeout. *)
Definition route (A : Type) : Type := nat -> params -> option (response A).

Record Env := {
  time_time : nat -> Qc;            (* [time.time()] at the k-th clock reading *)
  now_hour : nat -> nat;            (* [datetime.now().hour] at the k-th reading *)
  fromisoformat : string -> outcome datetime;  (* [datetime.fromisoformat] *)
  system_info : route SystemInfo;               (* /System/Info *)
  sessions : route (list Session);              (* /Sessions *)
  livetv_channels : route (QueryResult Channel);     (* /LiveTv/Channels *)
  livetv_tuners : route TunersPayload;               (* /LiveTv/Tuners *)
  livetv_recordings : route (QueryResult Recording); (* /LiveTv/Recordings *)
  livetv_timers : route (QueryResult Timer);         (* /LiveTv/Timers *)
  livetv_programs : route (QueryResult Program)      (* /LiveTv/Programs *)
}.

(** [time.time()] *)
Definition clock_read {S : Type} (E : Env) : M (World S) Qc :=
  fun w => (Return (time_time E (ticks w)), with_ticks (ticks w + 1)%nat w).

(** [datetime.now().hour] *)
Definition clock_hour {S : Type} (E : Env) : M (World S) nat :=
  fun w => (Return (now_hour E (ticks w)), with_ticks (ticks w + 1)%nat w).

(** [self.session.get(url, params=params, timeout=10)]: raises a
    RequestException when no response arrives. *)
Definition session_get {S A : Type} (endpoint : string) (ps : params)
  (r : route A) : M (World S) (response A) :=
  fun w =>
    let w' := with_sent (sent w ++ [(endpoint, ps)])%list w in
    match r (length (sent w)) ps with
    | Some resp => (Return resp, w')
    | None => (Raise RequestException, w')
    end.

(** [response.raise_for_status()]: HTTPError, a RequestException, for a 4xx or
    5xx status. *)
Definition raise_for_status {W A : Type} (resp : response A) : M W unit :=
  if ((400 <=? status_code resp) && (status_code resp <? 600))%bool
  then raise RequestException
  else ret tt.

(** [try: body except <only these>: handler]; other exceptions propagate. *)
Definition try_catch {W A} (catches : exn -> bool) (body : M W A)
  (handler : exn -> M W A) : M W A :=
  fun w => match body w with
           | (Return a, w') => (Return a, w')
           | (Raise e, w') => if catches e then handler e w' else (Raise e, w')
           end.

Definition is_RequestException (e : exn) : bool :=
  match e with RequestException => true | _ => false end.
Definition is_ValueError (e : exn) : bool :=
  match e with ValueError => true | _ => false end.

(** ** parse_emby_datetime *)

Definition is_digit (c : ascii) : bool :=
  let n := nat_of_ascii c in (Nat.leb 48 n && Nat.leb n 57)%bool.

(** One position of a fixed-width regular expression. *)
Inductive atom :=
| Digit                       (* \d *)
| Lit (c : ascii)             (* a literal character *)
| OneOf (c1 c2 : ascii).      (* [c1c2] *)

Definition atom_matches (a : atom) (c : ascii) : bool :=
  match a with
  | Digit => is_digit c
  | Lit c' => Ascii.eqb c c'
  | OneOf c1 c2 => (Ascii.eqb c c1 || Ascii.eqb c c2)%bool
  end.

(** Match a sequence of atoms at the start of [s]: the text matched and the
    rest. *)
Fixpoint match_atoms (p : list atom) (s : string) : option (string * string) :=
  match p with
  | [] => Some (EmptyString, s)
  | a :: p' =>
      match s with
      | EmptyString => None
      | String c s' =>
          if atom_matches a c then
            match match_atoms p' s' with
            | Some (m, rest) => Some (String c m, rest)
            | None => None
            end
          else None
      end
  end.

(** \d* (greedy) *)
Fixpoint skip_digits (s : string) : string :=
  match s with
  | String c s' => if is_digit c then skip_digits s' else s
  | EmptyString => s
  end.

(** \d{4}-\d{2}-\d{2}T\d{2}:\d{2}:\d{2} *)
Definition re_base_time : list atom :=
  [Digit; Digit; Digit; Digit; Lit "-"; Digit; Digit; Lit "-"; Digit; Digit;
   Lit "T"; Digit; Digit; Lit ":"; Digit; Digit; Lit ":"; Digit; Digit].

(** \d{6} *)
Definition re_microseconds : list atom :=
  [Digit; Digit; Digit; Digit; Digit; Digit].

(** [+-]\d{2}:\d{2} *)
Definition re_offset : list atom :=
  [OneOf "+" "-"; Digit; Digit; Lit ":"; Digit; Digit].

(** ([+-]\d{2}:\d{2}|Z)? *)
Definition match_timezone (s : string) : option string :=
  match match_atoms re_offset s with
  | Some (m, _) => Some m
  | None =>
      match s with
      | String "Z" _ => Some "Z"
      | _ => None
      end
  end.

(** [re.match(pattern, date_string)] for
    (\d{4}-\d{2}-\d{2}T\d{2}:\d{2}:\d{2})\.(\d{6})\d*([+-]\d{2}:\d{2}|Z)?
    returning groups 1, 2 and 3.  The match is anchored at the start only;
    the optional group cannot start with a digit, so the greedy \d* never has
    to give a digit back. *)
Definition re_match (date_string : string)
  : option (string * string * option string) :=
  match match_atoms re_base_time date_string with
  | Some (base_time, r1) =>
      match match_atoms [Lit "."] r1 with
      | Some (_, r2) =>
          match match_atoms re_microseconds r2 with
          | Some (microseconds, r3) =>
              Some (base_time, microseconds, match_timezone (skip_digits r3))
          | None => None
          end
      | None => None
      end
  | None => None
  end.

(** [s.endswith('Z')] *)
Fixpoint endswith_Z (s : string) : bool :=
  match s with
  | EmptyString => false
  | String c EmptyString => Ascii.eqb c "Z"
  | String _ s' => endswith_Z s'
  end.

(** [s.replace('Z', '+00:00')] *)
Fixpoint replace_Z (s : string) : string :=
  match s with
  | EmptyString => EmptyString
  | String c s' =>
      if Ascii.eqb c "Z" then "+00:00" ++ replace_Z s'
      else String c (replace_Z s')
  end.

(** [c in s] for a character. *)
Fixpoint has_char (c : ascii) (s : string) : bool :=
  match s with
  | EmptyString => false
  | String c' s' => (Ascii.eqb c' c || has_char c s')%bool
  end.

(** [l[i]] *)
Definition index {W A} (l : list A) (i : nat) : M W A :=
  match l !! i with
  | Some x => ret x
  | None => raise IndexError
  end.

Definition lift {W A} (o : outcome A) : M W A := fun w => (o, w).

Section ParseDatetime.
Variable E : Env.
Context {W : Type}.

(** The two standard attempts shared by every variant. *)
Definition standard_parse (date_string : string) : M W (option datetime) :=
  if endswith_Z date_string then
    d <- lift (fromisoformat E (replace_Z date_string)) ;; ret (Some d)
  else
    d <- lift (fromisoformat E date_string) ;; ret (Some d).

(** The regular-expression branch: keep six fractional digits. *)
Definition truncated_parse (date_string : string)
  (otherwise : M W (option datetime)) : M W (option datetime) :=
  match re_match date_string with
  | Some (base_time, microseconds, group3) =>
      let timezone := default "" group3 in
      let timezone := if String.eqb timezone "Z" then "+00:00" else timezone in
      let fixed_date := base_time ++ "." ++ microseconds ++ timezone in
      d <- lift (fromisoformat E fixed_date) ;; ret (Some d)
  | None => otherwise
  end.

(** emby_livetv_ultimate.py (and emby_livetv_exporter.py) *)
Definition parse_emby_datetime (date_string : option string)
  : M W (option datetime) :=
  if negb (truthy date_string) then ret None
  else
    let date_string := default "" date_string in
    try_catch is_ValueError
      (standard_parse date_string)
      (fun _ =>
         try_except
           (truncated_parse date_string (ret None))
           (fun _ => ret None)).

(** emby_exporter_fixed.py: one more fallback, dropping the fraction. *)
Definition parse_emby_datetime_fixed (date_string : option string)
  : M W (option datetime) :=
  if negb (truthy date_string) then ret None
  else
    let date_string := default "" date_string in
    try_catch is_ValueError
      (standard_parse date_string)
      (fun _ =>
         try_except
           (truncated_parse date_string
              (if has_char "." date_string then
                 date_part <- index (split_on "." date_string) 0 ;;
                 tz_part <-
                   (if has_char "+" date_string then
                      tz <- index (split_on "+" date_string) 1 ;;
                      ret ("+" ++ tz)
                    else if has_char "Z" date_string then ret "+00:00"
                    else ret "") ;;
                 d <- lift (fromisoformat E (date_part ++ tz_part)) ;;
                 ret (Some d)
               else ret None))
           (fun _ => ret None)).
End ParseDatetime.

(** ** Local dictionaries

    A [defaultdict] that the code iterates over keeps insertion order: an
    association list. *)

(** [d[k] += 1] on a defaultdict whose missing entries read as [zero]. *)
Fixpoint dict_incr {V : Type} (succ : V -> V) (zero : V) (k : string)
  (d : list (string * V)) : list (string * V) :=
  match d with
  | [] => [(k, succ zero)]
  | (k', v) :: d' =>
      if String.eqb k' k then (k', succ v) :: d'
      else (k', v) :: dict_incr succ zero k d'
  end.

Definition incr_int : string -> list (string * Z) -> list (string * Z) :=
  dict_incr Z.succ 0.

Definition incr_float : string -> list (string * Qc) -> list (string * Qc) :=
  dict_incr (fun v => (v + 1)%Qc) (Qc_of_Z 0).

(** [obj.attr] / [obj.method()] on a value that may be [None]. *)
Definition deref {W A} (o : option A) : M W A :=
  match o with
  | Some a => ret a
  | None => raise AttributeError
  end.

(** Reading a local variable that is assigned on some paths only. *)
Definition read_local {W A} (o : option A) : M W A :=
  match o with
  | Some a => ret a
  | None => raise UnboundLocalError
  end.

Definition Qc_max (a b : Qc) : Qc := if decide (a < b)%Qc then b else a.

(** [len(s)] as a gauge value. *)
Definition of_nat (n : nat) : Qc := Qc_of_Z (Z.of_nat n).

(** * The general exporters: what emby_exporter_fixed.py and
      emby_exporter_debug.py read besides /Sessions *)

(** /System/Info, with the keys these two exporters read. *)
Record GeneralInfo := {
  ginfo_Version : option string;
  ginfo_ServerName : option string;
  ginfo_OperatingSystem : option string;
  ginfo_SystemArchitecture : option string;
  ginfo_CachePath : option string;
  ginfo_WebSocketPortNumber : option Z
}.

#[global] Instance truthy_GeneralInfo : Truthy GeneralInfo := fun i =>
  (has_key (ginfo_Version i) || has_key (ginfo_ServerName i) ||
   has_key (ginfo_OperatingSystem i) || has_key (ginfo_SystemArchitecture i) ||
   has_key (ginfo_CachePath i) || has_key (ginfo_WebSocketPortNumber i))%bool.

(** An entry of /Users. *)
Record User := {
  user_Id : option string;
  user_Name : option string;
  user_LastActivityDate : option string
}.

(** /Users/{id}/PlayedItems/Stats *)
Record PlayStats := {
  PlayCount : option Z;
  PlaybackDurationTicks : option Z
}.

#[global] Instance truthy_PlayStats : Truthy PlayStats := fun s =>
  (has_key (PlayCount s) || has_key (PlaybackDurationTicks s))%bool.

(** An entry of the [Items] of /Devices. *)
Record Device := {
  device_DateLastActivity : option string;
  device_AppName : option string
}.

(** /Devices answers with an object; the exporter checks that it does. *)
Inductive DevicesPayload :=
| DevicesObject (q : QueryResult Device)
| DevicesList (l : list Device).

#[global] Instance truthy_DevicesPayload : Truthy DevicesPayload := fun d =>
  match d with
  | DevicesObject q => truthy q
  | DevicesList l => truthy l
  end.

(** The environment of the general exporters: that of the Live TV exporters,
    the local wall clock, and the routes they alone ask for. *)
Record GeneralEnv := {
  base_env :> Env;
  now_local : nat -> Qc;                     (* [datetime.now()] at the k-th reading *)
  general_info : route GeneralInfo;          (* /System/Info *)
  users : route (list User);                 (* /Users *)
  played_items_stats : string -> route PlayStats;  (* by endpoint *)
  devices : route DevicesPayload             (* /Devices *)
}.

(** [datetime.now(tz)]: the current instant in the zone [tz], or, without a
    zone, the naive local time. *)
Definition datetime_now {S : Type} (G : GeneralEnv) (tz : option Z)
  : M (World S) datetime :=
  fun w =>
    (Return
       match tz with
       | Some offset => {| timestamp := time_time G (ticks w);
                           utcoffset := Some offset |}
       | None => {| timestamp := now_local G (ticks w); utcoffset := None |}
       end,
     with_ticks (ticks w + 1)%nat w).

(** Rounding down to an integer. *)
Definition floor (q : Qc) : Z := Qnum q / Z.pos (Qden q).

(** [(b - a).days]: a timedelta keeps its seconds between 0 and 86399, so its
    days are the whole days rounded down, also below zero. *)
Definition days_between (b a : datetime) : outcome Z :=
  match total_seconds_between b a with
  | Return seconds => Return (floor (seconds / Qc_of_Z 86400)%Qc)
  | Raise e => Raise e
  end.

(** * emby_livetv_ultimate.py *)

Module Ultimate.

(** Metric names, under the Python variable that holds each metric. *)
Definition server_info := "emby_server".
Definition server_up := "emby_up".
Definition livetv_enabled := "emby_livetv_enabled".
Definition api_response_time := "emby_api_response_time_seconds".
Definition channels_total := "emby_livetv_channels_total".
Definition channels_by_type := "emby_livetv_channels_by_type".
Definition channels_hd := "emby_livetv_channels_hd".
Definition channels_available := "emby_livetv_channels_available".
Definition channel_status := "emby_livetv_channel_status".
Definition channel_favorites := "emby_livetv_channel_favorites".
Definition streams_active := "emby_livetv_streams_active".
Definition streams_by_channel := "emby_livetv_streams_by_channel".
Definition streams_by_quality := "emby_livetv_streams_by_quality".
Definition streams_by_method := "emby_livetv_streams_by_method".
Definition stream_bitrate := "emby_livetv_stream_bitrate_kbps".
Definition stream_bandwidth_total := "emby_livetv_bandwidth_total_mbps".
Definition users_watching := "emby_livetv_users_watching".
Definition user_watch_time := "emby_livetv_user_watch_time_seconds_total".
Definition user_channel_switches := "emby_livetv_channel_switches_total".
Definition concurrent_streams_per_user := "emby_livetv_concurrent_streams".
Definition popular_channels := "emby_livetv_channel_popularity".
Definition tuners_total := "emby_livetv_tuners_total".
Definition tuners_available := "emby_livetv_tuners_available".
Definition tuners_in_use := "emby_livetv_tuners_in_use".
Definition tuner_utilization := "emby_livetv_tuner_utilization_percent".
Definition tuner_status := "emby_livetv_tuner_status".
Definition recordings_active := "emby_livetv_recordings_active".
Definition recordings_scheduled := "emby_livetv_recordings_scheduled".
Definition recording_storage_gb := "emby_livetv_recording_storage_gb".
Definition recording_series := "emby_livetv_recording_series".
Definition epg_days_available := "emby_livetv_epg_days".
Definition epg_programs_today := "emby_livetv_epg_programs_today".
Definition epg_programs_by_genre := "emby_livetv_programs_by_genre".
Definition current_programs := "emby_livetv_current_programs".
Definition upcoming_programs := "emby_livetv_upcoming_programs".
Definition program_duration_avg := "emby_livetv_program_duration_avg_minutes".
Definition stream_resolution := "emby_livetv_stream_resolution".
Definition stream_framerate := "emby_livetv_stream_framerate".
Definition transcoding_active := "emby_livetv_transcoding_active".
Definition buffer_health := "emby_livetv_buffer_health_percent".
Definition stream_errors := "emby_livetv_stream_errors_total".
Definition peak_concurrent_streams := "emby_livetv_peak_concurrent_streams".
Definition hourly_active_users := "emby_livetv_hourly_active_users".
Definition prime_time_usage := "emby_livetv_prime_time_usage".

(** The attributes of [EmbyLiveTVUltimateExporter] that the collectors use. *)
Record Exporter := mkExporter {
  channel_watch_start : gmap string (string * string * Qc);
    (* session_id -> (user, channel, start_time) *)
  peak_streams_24h : Z;
  hourly_users : gmap nat (gset string);      (* hour -> set of users *)
  channel_popularity_scores : list (string * Qc);
  last_channel_switch : gmap string (string * Qc)
    (* user -> (last_channel, timestamp) *)
}.

(** [__init__] *)
Definition init : Exporter := mkExporter ∅ 0 ∅ [] ∅.

Definition set_channel_watch_start (f : gmap string (string * string * Qc) ->
                                        gmap string (string * string * Qc))
  (x : Exporter) : Exporter :=
  mkExporter (f (channel_watch_start x)) (peak_streams_24h x) (hourly_users x)
    (channel_popularity_scores x) (last_channel_switch x).
Definition set_peak_streams_24h (p : Z) (x : Exporter) : Exporter :=
  mkExporter (channel_watch_start x) p (hourly_users x)
    (channel_popularity_scores x) (last_channel_switch x).
Definition set_hourly_users (f : gmap nat (gset string) -> gmap nat (gset string))
  (x : Exporter) : Exporter :=
  mkExporter (channel_watch_start x) (peak_streams_24h x) (f (hourly_users x))
    (channel_popularity_scores x) (last_channel_switch x).
Definition set_channel_popularity_scores
  (f : list (string * Qc) -> list (string * Qc)) (x : Exporter) : Exporter :=
  mkExporter (channel_watch_start x) (peak_streams_24h x) (hourly_users x)
    (f (channel_popularity_scores x)) (last_channel_switch x).
Definition set_last_channel_switch
  (f : gmap string (string * Qc) -> gmap string (string * Qc))
  (x : Exporter) : Exporter :=
  mkExporter (channel_watch_start x) (peak_streams_24h x) (hourly_users x)
    (channel_popularity_scores x) (f (last_channel_switch x)).

Definition state : Type := World Exporter.

(** A fresh process: nothing set, nothing sent. *)
Definition boot : state := mkWorld ∅ ∅ ∅ ∅ 0%nat [] init.

Section Collectors.
Variable E : Env.

Definition _make_request {A : Type} (endpoint : string) (ps : params)
  (r : route A) : M state (option A) :=
  start_time <- clock_read E ;;
  try_catch is_RequestException
    (resp <- session_get endpoint ps r ;;
     now <- clock_read E ;;
     let duration := (now - start_time)%Qc in
     observe api_response_time [endpoint] duration ;;;
     if status_code resp =? 404 then ret None
     else
       raise_for_status resp ;;;
       ret (Some (json resp)))
    (fun _ =>
       counter_inc stream_errors ["api_error"] 1 ;;;
       ret None).

Definition collect_server_info : M state unit :=
  info <- _make_request "/System/Info" [] (system_info E) ;;
  if truthy info then
    info <- deref info ;;
    info_set server_info
      [("version", default "unknown" (info_Version info));
       ("server_name", default "unknown" (info_ServerName info));
       ("operating_system", default "unknown" (info_OperatingSystem info));
       ("has_livetv", str_of_bool (default false (info_HasLiveTv info)));
       ("id", default "unknown" (info_Id info))] ;;;
    gauge_set server_up [] (Qc_of_Z 1) ;;;
    gauge_set livetv_enabled []
      (if default false (info_HasLiveTv info) then Qc_of_Z 1 else Qc_of_Z 0)
  else
    gauge_set server_up [] (Qc_of_Z 0) ;;;
    gauge_set livetv_enabled [] (Qc_of_Z 0).

Definition collect_channels : M state unit :=
  channels <- _make_request "/LiveTv/Channels" [] (livetv_channels E) ;;
  if (negb (truthy channels) ||
      negb (from_option (fun c => has_key (Items c)) false channels))%bool
  then gauge_set channels_total [] (Qc_of_Z 0)
  else
    channels <- deref channels ;;
    let channel_items := default [] (Items channels) in
    let total := default 0 (TotalRecordCount channels) in
    gauge_set channels_total [] (Qc_of_Z total) ;;;
    (* hd_count, available_count, favorite_count, channel_types *)
    counts <-
      for_fold channel_items
        (fun channel '(hd_count, available_count, favorite_count, channel_types) =>
           let channel_id := default "unknown" (channel_Id channel) in
           let channel_name := default "Unknown" (channel_Name channel) in
           let channel_number :=
             default (default "N/A" (channel_Number channel))
               (channel_ChannelNumber channel) in
           let hd_count :=
             if (contains "HD" (upper channel_name) ||
                 default false (channel_IsHD channel))%bool
             then hd_count + 1 else hd_count in
           let is_available :=
             (truthy (channel_Id channel) &&
              negb (default false (channel_IsDisabled channel)))%bool in
           let available_count :=
             if is_available then available_count + 1 else available_count in
           gauge_set channel_status [channel_name; channel_number; channel_id]
             (if is_available then Qc_of_Z 1 else Qc_of_Z 0) ;;;
           let favorite_count :=
             if default false
                  (from_option IsFavorite None (channel_UserData channel))
             then favorite_count + 1 else favorite_count in
           let channel_type := default "Unknown" (channel_Type channel) in
           ret (hd_count, available_count, favorite_count,
                incr_int channel_type channel_types))
        (0, 0, 0, []) ;;
    let '(hd_count, available_count, favorite_count, channel_types) := counts in
    gauge_set channels_hd [] (Qc_of_Z hd_count) ;;;
    gauge_set channels_available [] (Qc_of_Z available_count) ;;;
    gauge_set channel_favorites [] (Qc_of_Z favorite_count) ;;;
    for_each channel_types
      (fun '(ch_type, count) =>
         gauge_set channels_by_type [ch_type] (Qc_of_Z count)).

(** The local variables of [collect_sessions] that its loop rebinds. *)
Record Locals := mkLocals {
  livetv_stream_count : Z;
  users_watching_set : gset string;
  channel_viewers : list (string * Z);
  quality_counts : list (string * Z);
  method_counts : list (string * Z);
  total_bandwidth_mbps : Qc;
  transcoding_count : Z;
  user_streams : list (string * Z)
}.

Definition no_sessions_yet : Locals :=
  mkLocals 0 ∅ [] [] [] (Qc_of_Z 0) 0 [].

(** # Track channel switches *)
Definition track_channel_switches (user channel_name : string)
  : M state unit :=
  me <- get_self ;;
  match last_channel_switch me !! user with
  | Some (last_channel, _) =>
      when (negb (String.eqb last_channel channel_name))
        (counter_inc user_channel_switches [user] 1)
  | None => ret tt
  end ;;;
  now <- clock_read E ;;
  modify_self (set_last_channel_switch (<[user := (channel_name, now)]>)).

(** # Track watch time *)
Definition track_watch_time (session_id user channel_name : string)
  : M state unit :=
  me <- get_self ;;
  match channel_watch_start me !! session_id with
  | None =>
      now <- clock_read E ;;
      modify_self
        (set_channel_watch_start (<[session_id := (user, channel_name, now)]>))
  | Some (old_user, old_channel, start_time) =>
      when (String.eqb old_channel channel_name)
        (now <- clock_read E ;;
         let watch_duration := (now - start_time)%Qc in
         counter_inc user_watch_time [user; channel_name] watch_duration)
  end.

(** # Get current program info *)
Definition publish_current_program (channel_name : string)
  (now_playing : NowPlayingItem) : M state unit :=
  match np_CurrentProgram now_playing with
  | Some current_program =>
      when (truthy current_program)
        (info_set current_programs
           [("channel", channel_name);
            ("program", default "Unknown" (program_Name current_program));
            ("genre",
             if truthy (program_Genres current_program)
             then default "Unknown"
                    (head (default [] (program_Genres current_program)))
             else "Unknown");
            ("start", default "" (program_StartDate current_program));
            ("end", default "" (program_EndDate current_program))])
  | None => ret tt
  end.

(** [height] to its quality bucket. *)
Definition quality_of (height : Z) : string :=
  if 2160 <=? height then "4K"
  else if 1080 <=? height then "1080p"
  else if 720 <=? height then "720p"
  else if 480 <=? height then "480p"
  else "SD".

(** # Get quality metrics from TranscodingInfo; returns the updated
    [total_bandwidth_mbps] and [quality_counts]. *)
Definition publish_transcoding_info (session : Session)
  (user channel_name session_id : string)
  (total_bandwidth_mbps : Qc) (quality_counts : list (string * Z))
  : M state (Qc * list (string * Z)) :=
  match session_TranscodingInfo session with
  | Some trans_info =>
      let bitrate := default 0 (Bitrate trans_info) in
      total_bandwidth_mbps <-
        (if 0 <? bitrate then
           let bitrate_kbps := (Qc_of_Z bitrate / Qc_of_Z 1000)%Qc in
           gauge_set stream_bitrate [user; channel_name; session_id]
             bitrate_kbps ;;;
           ret (total_bandwidth_mbps + Qc_of_Z bitrate / Qc_of_Z 1000000)%Qc
         else ret total_bandwidth_mbps) ;;
      let height := default 0 (Height trans_info) in
      quality_counts <-
        (if 0 <? height then
           gauge_set stream_resolution [user; channel_name; session_id]
             (Qc_of_Z height) ;;;
           ret (incr_int (quality_of height) quality_counts)
         else ret quality_counts) ;;
      let framerate := default 0%Qc (Framerate trans_info) in
      when (bool_decide (0 < framerate)%Qc)
        (gauge_set stream_framerate [user; channel_name; session_id]
           framerate) ;;;
      ret (total_bandwidth_mbps, quality_counts)
  | None => ret (total_bandwidth_mbps, quality_counts)
  end.

(** The body of [for session in sessions]. *)
Definition session_body (current_hour : nat) (session : Session)
  (L : Locals) : M state Locals :=
  match session_NowPlayingItem session with
  | Some now_playing =>
      (* Check if this is Live TV *)
      if (truthy now_playing &&
          bool_decide (np_Type now_playing = Some "TvChannel"))%bool
      then
        let livetv_stream_count := livetv_stream_count L + 1 in
        let session_id := default "unknown" (session_Id session) in
        let user := default "unknown" (session_UserName session) in
        let channel_name := default "Unknown Channel" (np_Name now_playing) in
        let channel_number := default "N/A" (np_ChannelNumber now_playing) in
        let users_watching_set := {[user]} ∪ users_watching_set L in
        modify_self
          (set_hourly_users
             (fun h => <[current_hour :=
                           {[user]} ∪ default ∅ (h !! current_hour)]> h)) ;;;
        let channel_viewers :=
          incr_int (channel_name ++ "|" ++ channel_number)
            (channel_viewers L) in
        let user_streams := incr_int user (user_streams L) in
        (* Update channel popularity *)
        modify_self
          (set_channel_popularity_scores (incr_float channel_name)) ;;;
        track_channel_switches user channel_name ;;;
        track_watch_time session_id user channel_name ;;;
        publish_current_program channel_name now_playing ;;;
        (* Stream quality and method metrics *)
        let play_method :=
          default "Unknown"
            (from_option PlayMethod None (session_PlayState session)) in
        let method_counts := incr_int play_method (method_counts L) in
        let transcoding_count :=
          if String.eqb play_method "Transcode"
          then transcoding_count L + 1 else transcoding_count L in
        bw_q <- publish_transcoding_info session user channel_name session_id
                  (total_bandwidth_mbps L) (quality_counts L) ;;
        (* Buffer health *)
        when (negb (default false
                      (from_option IsPaused None (session_PlayState session))))
          (gauge_set buffer_health [user; session_id] (Qc_of_Z 95)) ;;;
        ret (mkLocals livetv_stream_count users_watching_set channel_viewers
               (snd bw_q) method_counts (fst bw_q) transcoding_count
               user_streams)
      else ret L
  | None => ret L
  end.

(** [channel_name, channel_number = channel_key.split('|')] *)
Definition unpack_channel_key (channel_key : string)
  : M state (string * string) :=
  match split_on "|" channel_key with
  | [channel_name; channel_number] => ret (channel_name, channel_number)
  | _ => raise ValueError
  end.

(** What follows the loop: # Set all metrics *)
Definition publish_sessions (L : Locals) : M state unit :=
  gauge_set streams_active [] (Qc_of_Z (livetv_stream_count L)) ;;;
  gauge_set users_watching [] (of_nat (size (users_watching_set L))) ;;;
  gauge_set stream_bandwidth_total [] (total_bandwidth_mbps L) ;;;
  gauge_set transcoding_active [] (Qc_of_Z (transcoding_count L)) ;;;
  (* Update peak concurrent streams *)
  me <- get_self ;;
  when (peak_streams_24h me <? livetv_stream_count L)
    (modify_self (set_peak_streams_24h (livetv_stream_count L))) ;;;
  me <- get_self ;;
  gauge_set peak_concurrent_streams [] (Qc_of_Z (peak_streams_24h me)) ;;;
  for_each (channel_viewers L)
    (fun '(channel_key, count) =>
       name_number <- unpack_channel_key channel_key ;;
       gauge_set streams_by_channel [fst name_number; snd name_number]
         (Qc_of_Z count)) ;;;
  for_each (quality_counts L)
    (fun '(quality, count) =>
       gauge_set streams_by_quality [quality] (Qc_of_Z count)) ;;;
  for_each (method_counts L)
    (fun '(method, count) =>
       gauge_set streams_by_method [method] (Qc_of_Z count)) ;;;
  for_each (user_streams L)
    (fun '(user, count) =>
       gauge_set concurrent_streams_per_user [user] (Qc_of_Z count)) ;;;
  (* Calculate and set channel popularity *)
  me <- get_self ;;
  let max_popularity :=
    match channel_popularity_scores me with
    | [] => 1%Qc
    | (_, score) :: rest => foldr Qc_max score (snd <$> rest)
    end in
  for_each (channel_popularity_scores me)
    (fun '(channel, score) =>
       let normalized_score := (score / max_popularity * Qc_of_Z 100)%Qc in
       gauge_set popular_channels [channel; "N/A"] normalized_score) ;;;
  (* Set hourly active users *)
  for_each (seq 0 24)
    (fun hour =>
       gauge_set hourly_active_users [pretty hour]
         (of_nat (size (default ∅ (hourly_users me !! hour))))) ;;;
  (* Calculate prime time usage (6 PM - 11 PM) *)
  let prime_time_users : gset string :=
    ⋃ ((fun hour => default ∅ (hourly_users me !! hour)) <$> seq 18 5) in
  when (negb (bool_decide (users_watching_set L = ∅)))
    (gauge_set prime_time_usage []
       (of_nat (size prime_time_users) /
        of_nat (size (users_watching_set L)) * Qc_of_Z 100)%Qc).

Definition collect_sessions : M state unit :=
  sessions <- _make_request "/Sessions" [] (sessions E) ;;
  if negb (truthy sessions) then ret tt
  else
    sessions <- deref sessions ;;
    current_hour <- clock_hour E ;;
    L <- for_fold sessions (session_body current_hour) no_sessions_yet ;;
    publish_sessions L.

(** The body of [for tuner in tuners]; the locals are
    [(in_use_count, available_count)]. *)
Definition tuner_is_in_use (tuner : Tuner) : bool :=
  (truthy (tuner_ChannelId tuner) ||
   bool_decide (tuner_Status tuner = Some "LiveTv"))%bool.

Definition tuner_body (tuner : Tuner) (counts : Z * Z) : M state (Z * Z) :=
  let '(in_use_count, available_count) := counts in
  let tuner_id := default "unknown" (tuner_Id tuner) in
  let tuner_name := default "Unknown Tuner" (tuner_Name tuner) in
  let tuner_type := default "Unknown" (tuner_Type tuner) in
  let is_in_use := tuner_is_in_use tuner in
  let channel_name :=
    if is_in_use then default "Unknown" (tuner_ChannelName tuner)
    else "None" in
  gauge_set tuner_status [tuner_id; tuner_name; tuner_type; channel_name]
    (if is_in_use then Qc_of_Z 1 else Qc_of_Z 0) ;;;
  ret (if is_in_use then (in_use_count + 1, available_count)
       else (in_use_count, available_count + 1)).

(** [isinstance(tuners, list)] *)
Definition isinstance_list (tuners : TunersPayload) : bool :=
  match tuners with TunerList _ => true | TunerObject _ => false end.

Definition as_list (tuners : TunersPayload) : list Tuner :=
  match tuners with TunerList l => l | TunerObject _ => [] end.

Definition collect_tuners : M state unit :=
  tuners <- _make_request "/LiveTv/Tuners" [] (livetv_tuners E) ;;
  if (negb (truthy tuners) ||
      negb (from_option isinstance_list false tuners))%bool
  then
    gauge_set tuners_total [] (Qc_of_Z 0) ;;;
    gauge_set tuners_available [] (Qc_of_Z 0) ;;;
    gauge_set tuners_in_use [] (Qc_of_Z 0) ;;;
    gauge_set tuner_utilization [] (Qc_of_Z 0)
  else
    tuners <- deref tuners ;;
    let tuners := as_list tuners in
    let total_tuners := Z.of_nat (length tuners) in
    counts <- for_fold tuners tuner_body (0, 0) ;;
    let '(in_use_count, available_count) := counts in
    gauge_set tuners_total [] (Qc_of_Z total_tuners) ;;;
    gauge_set tuners_available [] (Qc_of_Z available_count) ;;;
    gauge_set tuners_in_use [] (Qc_of_Z in_use_count) ;;;
    (* Calculate utilization percentage *)
    utilization <-
      (if 0 <? total_tuners then
         let utilization :=
           (Qc_of_Z in_use_count / Qc_of_Z total_tuners * Qc_of_Z 100)%Qc in
         gauge_set tuner_utilization [] utilization ;;;
         ret (Some utilization)
       else
         gauge_set tuner_utilization [] (Qc_of_Z 0) ;;;
         ret None) ;;
    (* the closing log line formats [utilization] *)
    read_local utilization ;;;
    ret tt.

(** [x and 'Items' in x] *)
Definition has_items {A} (x : option (QueryResult A)) : bool :=
  match x with
  | Some q => (truthy q && has_key (Items q))%bool
  | None => false
  end.

Definition collect_recordings : M state unit :=
  (* Active recordings *)
  active <- _make_request "/LiveTv/Recordings" [("IsInProgress", PBool true)]
              (livetv_recordings E) ;;
  when (has_items active)
    (active <- deref active ;;
     gauge_set recordings_active []
       (Qc_of_Z (default 0 (TotalRecordCount active)))) ;;;
  (* Scheduled recordings/timers *)
  timers <- _make_request "/LiveTv/Timers" [] (livetv_timers E) ;;
  scheduled_count <-
    (if has_items timers then
       timers <- deref timers ;;
       let scheduled_count := default 0 (TotalRecordCount timers) in
       gauge_set recordings_scheduled [] (Qc_of_Z scheduled_count) ;;;
       let series_count :=
         length (filter (fun timer => truthy (timer_SeriesTimerId timer) = true)
                   (default [] (Items timers))) in
       gauge_set recording_series [] (of_nat series_count) ;;;
       ret (Some scheduled_count)
     else ret None) ;;
  (* All recordings (for storage calculation) *)
  all_recordings <- _make_request "/LiveTv/Recordings" []
                      (livetv_recordings E) ;;
  when (has_items all_recordings)
    (all_recordings <- deref all_recordings ;;
     let total_size_bytes :=
       foldr Z.add 0
         ((fun item => default 0 (recording_Size item)) <$>
            default [] (Items all_recordings)) in
     let total_size_gb :=
       (Qc_of_Z total_size_bytes / Qc_of_Z (1024 * 1024 * 1024))%Qc in
     gauge_set recording_storage_gb [] total_size_gb ;;;
     (* the log line formats [active.get('TotalRecordCount', 0)] and
        [scheduled_count] *)
     deref active ;;;
     read_local scheduled_count ;;;
     ret tt).

(** The body of [for program in today_programs.get('Items', [])]; the
    locals are [(genre_counts, total_duration, program_count)]. *)
Definition program_body (program : Program)
  (acc : list (string * Z) * Qc * Z) : M state (list (string * Z) * Qc * Z) :=
  let '(genre_counts, total_duration, program_count) := acc in
  let genres := default ["Unknown"] (program_Genres program) in
  let genre_counts := foldl (fun d genre => incr_int genre d) genre_counts genres in
  start <- parse_emby_datetime E (program_StartDate program) ;;
  end_ <- parse_emby_datetime E (program_EndDate program) ;;
  match start, end_ with
  | Some start, Some end_ =>
      seconds <- lift (total_seconds_between end_ start) ;;
      let duration := (seconds / Qc_of_Z 60)%Qc in
      ret (genre_counts, (total_duration + duration)%Qc, program_count + 1)
  | _, _ => ret (genre_counts, total_duration, program_count)
  end.

(** The query of the [days]-th probe. *)
Definition probe_params (days : Z) : params :=
  [("MinStartDate", PDate (FutureDate days));
   ("MaxStartDate", PDate (FutureDatePlusHour days));
   ("Limit", PInt 1)].

(** [not future_programs or future_programs.get('TotalRecordCount', 0) == 0] *)
Definition no_programs (future_programs : option (QueryResult Program)) : bool :=
  (negb (truthy future_programs) ||
   (default 0 (from_option TotalRecordCount None future_programs) =? 0))%bool.

(** [for days in range(1, max_days + 1): ... break / else: ...], as a
    recursion on the days left to probe. *)
Fixpoint probe_days (max_days : Z) (remaining : nat) (days : Z) : M state unit :=
  match remaining with
  | O => gauge_set epg_days_available [] (Qc_of_Z max_days)
  | S remaining' =>
      future_programs <- _make_request "/LiveTv/Programs" (probe_params days)
                           (livetv_programs E) ;;
      if no_programs future_programs
      then gauge_set epg_days_available [] (Qc_of_Z (days - 1))
      else probe_days max_days remaining' (days + 1)
  end.

Definition collect_epg : M state unit :=
  clock_hour E ;;;                            (* now = datetime.now() *)
  (* Get today's programs *)
  today_programs <- _make_request "/LiveTv/Programs"
                      [("MinStartDate", PDate TodayStart);
                       ("MaxStartDate", PDate TodayEnd);
                       ("Limit", PInt 1000)]
                      (livetv_programs E) ;;
  when (has_items today_programs)
    (today_programs <- deref today_programs ;;
     gauge_set epg_programs_today []
       (Qc_of_Z (default 0 (TotalRecordCount today_programs))) ;;;
     acc <- for_fold (default [] (Items today_programs)) program_body
              ([], 0%Qc, 0) ;;
     let '(genre_counts, total_duration, program_count) := acc in
     for_each genre_counts
       (fun '(genre, count) =>
          gauge_set epg_programs_by_genre [genre] (Qc_of_Z count)) ;;;
     when (0 <? program_count)
       (gauge_set program_duration_avg []
          (total_duration / Qc_of_Z program_count)%Qc)) ;;;
  (* Get upcoming programs (next hour) *)
  upcoming <- _make_request "/LiveTv/Programs"
                [("MinStartDate", PDate Now);
                 ("MaxStartDate", PDate NowPlusHour);
                 ("Limit", PInt 100)]
                (livetv_programs E) ;;
  when (truthy upcoming)
    (upcoming <- deref upcoming ;;
     gauge_set upcoming_programs []
       (Qc_of_Z (default 0 (TotalRecordCount upcoming)))) ;;;
  (* Calculate EPG days available *)
  let max_days := 14 in
  probe_days max_days (Z.to_nat max_days) 1 ;;;
  (* the closing log line formats [today_programs.get(...)] and
     [upcoming.get(...)] *)
  deref today_programs ;;;
  deref upcoming ;;;
  ret tt.

Definition collect_all_metrics : M state unit :=
  try_except
    (collect_server_info ;;;
     collect_channels ;;;
     collect_sessions ;;;
     collect_tuners ;;;
     collect_recordings ;;;
     collect_epg)
    (fun _ =>
       gauge_set server_up [] (Qc_of_Z 0) ;;;
       counter_inc stream_errors ["collection_error"] 1).

(** [main]: one collection at once, then one per wake-up; [cycles] is how
    many collections are run in all. *)
Fixpoint run (cycles : nat) : M state unit :=
  match cycles with
  | O => ret tt
  | S cycles' => collect_all_metrics ;;; run cycles'
  end.
End Collectors.
End Ultimate.

(** * emby_livetv_exporter.py *)

Module LiveTV.
Definition api_request_duration := "emby_api_request_duration_seconds".
Definition api_request_errors := "emby_api_request_errors_total".

Definition state : Type := World unit.

Section Collectors.
Variable E : Env.

Definition _make_request {A : Type} (endpoint : string) (ps : params)
  (r : route A) : M state (option A) :=
  start_time <- clock_read E ;;
  try_catch is_RequestException
    (resp <- session_get endpoint ps r ;;
     now <- clock_read E ;;
     let duration := (now - start_time)%Qc in
     observe api_request_duration [endpoint] duration ;;;
     if status_code resp =? 404 then ret None
     else
       raise_for_status resp ;;;
       ret (Some (json resp)))
    (fun _ =>
       counter_inc api_request_errors [endpoint] 1 ;;;
       ret None).
End Collectors.
End LiveTV.

(** * emby_exporter_fixed.py *)

Module Fixed.
Definition active_sessions := "emby_active_sessions".
Definition active_streams := "emby_active_streams".
Definition active_transcodes := "emby_active_transcodes".
Definition session_bandwidth := "emby_session_bandwidth_bytes".
Definition total_bandwidth := "emby_total_bandwidth_bytes".
Definition api_request_duration := "emby_api_request_duration_seconds".
Definition api_request_errors := "emby_api_request_errors_total".

Definition state : Type := World unit.

Definition boot : state := mkWorld ∅ ∅ ∅ ∅ 0%nat [] tt.

Section Collectors.
Variable E : Env.

Definition _make_request {A : Type} (endpoint : string) (ps : params)
  (r : route A) : M state (option A) :=
  start_time <- clock_read E ;;
  try_catch is_RequestException
    (resp <- session_get endpoint ps r ;;
     raise_for_status resp ;;;
     (* Record successful request duration *)
     now <- clock_read E ;;
     let duration := (now - start_time)%Qc in
     observe api_request_duration [endpoint] duration ;;;
     ret (Some (json resp)))
    (fun _ =>
       counter_inc api_request_errors [endpoint] 1 ;;;
       ret None).

(** The body of [for session in sessions]; the locals are
    [(streaming_count, transcoding_count, total_bandwidth_bytes)]. *)
Definition session_body (session : Session) (acc : Z * Z * Z)
  : M state (Z * Z * Z) :=
  let '(streaming_count, transcoding_count, total_bandwidth_bytes) := acc in
  if truthy (session_NowPlayingItem session) then
    let streaming_count := streaming_count + 1 in
    (* Bandwidth per session *)
    match session_PlayState session with
    | Some play_state =>
        let bandwidth := default 0 (session_Bandwidth session) in
        (* Check for transcoding *)
        let play_method := default "Unknown" (PlayMethod play_state) in
        let transcoding_count :=
          if String.eqb play_method "Transcode"
          then transcoding_count + 1 else transcoding_count in
        (* Add bandwidth *)
        let total_bandwidth_bytes := total_bandwidth_bytes + bandwidth in
        gauge_set session_bandwidth
          [default "unknown" (session_Id session);
           default "unknown" (session_UserName session);
           default "unknown" (session_Client session)]
          (Qc_of_Z bandwidth) ;;;
        ret (streaming_count, transcoding_count, total_bandwidth_bytes)
    | None => ret (streaming_count, transcoding_count, total_bandwidth_bytes)
    end
  else ret acc.

Definition collect_sessions : M state unit :=
  sessions <- _make_request "/Sessions" [] (sessions E) ;;
  if negb (truthy sessions) then ret tt
  else
    sessions <- deref sessions ;;
    let active_count := Z.of_nat (length sessions) in
    acc <- for_fold sessions session_body (0, 0, 0) ;;
    let '(streaming_count, transcoding_count, total_bandwidth_bytes) := acc in
    gauge_set active_sessions [] (Qc_of_Z active_count) ;;;
    gauge_set active_streams [] (Qc_of_Z streaming_count) ;;;
    gauge_set active_transcodes [] (Qc_of_Z transcoding_count) ;;;
    gauge_set total_bandwidth [] (Qc_of_Z total_bandwidth_bytes).
End Collectors.
Definition server_info := "emby_server".
Definition server_up := "emby_up".
Definition total_users := "emby_users_total".
Definition active_users := "emby_users_active".
Definition user_play_count := "emby_user_play_count".
Definition user_play_time := "emby_user_play_time_minutes".
Definition process_threads := "emby_process_threads".
Definition device_count := "emby_devices_total".
Definition device_active := "emby_devices_active".

(** [self.cache]: the data fetched under a key, and when. *)
Definition Cache (A : Type) : Type := gmap string (A * Qc).

(** [self.cache_ttl] *)
Definition cache_ttl : Z := 60.

Section GeneralCollectors.
Variable G : GeneralEnv.

(** [_get_cached(key, fetch_func, ttl)], for an exporter whose cache holds
    data of the type [A]; no method of the class calls it. *)
Definition _get_cached {A : Type} (key : string)
  (fetch_func : M (World (Cache A)) (option A)) (ttl : option Z)
  : M (World (Cache A)) (option A) :=
  let ttl := if truthy ttl then default 0 ttl else cache_ttl in
  now <- clock_read G ;;
  cache <- get_self ;;
  let fetch :=
    data <- fetch_func ;;
    match data with
    | Some fetched => modify_self (insert key (fetched, now)) ;;; ret data
    | None => ret data
    end in
  match cache !! key with
  | Some (data, timestamp) =>
      if bool_decide (now - timestamp < Qc_of_Z ttl)%Qc then ret (Some data)
      else fetch
  | None => fetch
  end.

Definition collect_server_info : M state unit :=
  info <- _make_request G "/System/Info" [] (general_info G) ;;
  if truthy info then
    info <- deref info ;;
    info_set server_info
      [("version", default "unknown" (ginfo_Version info));
       ("server_name", default "unknown" (ginfo_ServerName info));
       ("operating_system", default "unknown" (ginfo_OperatingSystem info));
       ("architecture", default "unknown" (ginfo_SystemArchitecture info))] ;;;
    gauge_set server_up [] (Qc_of_Z 1) ;;;
    (* Process metrics if available *)
    when (has_key (ginfo_CachePath info))
      (gauge_set process_threads []
         (Qc_of_Z (default 0 (ginfo_WebSocketPortNumber info))))
  else
    gauge_set server_up [] (Qc_of_Z 0).

(** The body of [for user in users]; the local is [active_count]. *)
Definition user_body (user : User) (active_count : Z) : M state Z :=
  let user_id := user_Id user in
  let username := default "unknown" (user_Name user) in
  (* Check if user was active in last 24 hours *)
  active_count <-
    (if truthy (user_LastActivityDate user) then
       last_activity <- parse_emby_datetime_fixed G (user_LastActivityDate user) ;;
       match last_activity with
       | Some last_activity =>
           try_except
             ((* Make timezone-aware comparison *)
              now <- datetime_now G (utcoffset last_activity) ;;
              days <- lift (days_between now last_activity) ;;
              if days <? 1 then ret (active_count + 1) else ret active_count)
             (fun _ => ret active_count)
       | None => ret active_count
       end
     else ret active_count) ;;
  (* Get user play stats (with error handling) *)
  try_except
    (let endpoint :=
       "/Users/" ++ default "None" user_id ++ "/PlayedItems/Stats" in
     stats <- _make_request G endpoint [] (played_items_stats G endpoint) ;;
     when (truthy stats)
       (stats <- deref stats ;;
        gauge_set user_play_count [username]
          (Qc_of_Z (default 0 (PlayCount stats))) ;;;
        let play_time_ticks := default 0 (PlaybackDurationTicks stats) in
        let play_time_minutes :=
          if truthy play_time_ticks
          then (Qc_of_Z play_time_ticks / Qc_of_Z 600000000)%Qc
          else Qc_of_Z 0 in
        gauge_set user_play_time [username] play_time_minutes))
    (fun _ => ret tt) ;;;
  ret active_count.

Definition collect_users : M state unit :=
  users <- _make_request G "/Users" [] (users G) ;;
  if negb (truthy users) then ret tt
  else
    users <- deref users ;;
    gauge_set total_users [] (of_nat (length users)) ;;;
    (* Collect activity for each user *)
    active_count <- for_fold users user_body 0 ;;
    gauge_set active_users [] (Qc_of_Z active_count).

(** The body of [for device in device_items]; the local is
    [device_types]. *)
Definition device_body (device : Device) (device_types : list (string * Z))
  : M state (list (string * Z)) :=
  if truthy (device_DateLastActivity device) then
    last_activity <-
      parse_emby_datetime_fixed G (device_DateLastActivity device) ;;
    match last_activity with
    | Some last_activity =>
        try_except
          (now <- datetime_now G (utcoffset last_activity) ;;
           days <- lift (days_between now last_activity) ;;
           if days <? 7 then               (* Active in last week *)
             let device_type := default "unknown" (device_AppName device) in
             ret (incr_int device_type device_types)
           else ret device_types)
          (fun _ => ret device_types)
    | None => ret device_types
    end
  else ret device_types.

Definition collect_devices : M state unit :=
  devices <- _make_request G "/Devices" [] (devices G) ;;
  match devices with
  | Some (DevicesObject q) =>
      if negb (truthy q) then ret tt
      else
        let device_items := default [] (Items q) in
        gauge_set device_count [] (of_nat (length device_items)) ;;;
        (* Count active devices by type *)
        device_types <- for_fold device_items device_body [] ;;
        for_each device_types
          (fun '(device_type, count) =>
             gauge_set device_active [device_type] (Qc_of_Z count))
  | _ => ret tt
  end.
End GeneralCollectors.

End Fixed.

(** * emby_exporter_debug.py *)

Module Debug.
Definition active_sessions := "emby_active_sessions".
Definition active_streams := "emby_active_streams".
Definition active_transcodes := "emby_active_transcodes".
Definition session_bandwidth := "emby_session_bandwidth_bytes".
Definition total_bandwidth := "emby_total_bandwidth_bytes".
Definition debug_api_calls := "emby_debug_api_calls_total".
Definition debug_sessions_found := "emby_debug_sessions_found".
Definition debug_streams_found := "emby_debug_streams_found".
Definition api_request_duration := "emby_api_request_duration_seconds".
Definition api_request_errors := "emby_api_request_errors_total".

Definition state : Type := World unit.

Definition boot : state := mkWorld ∅ ∅ ∅ ∅ 0%nat [] tt.

Section Collectors.
Variable E : Env.

Definition _make_request {A : Type} (endpoint : string) (ps : params)
  (r : route A) : M state (option A) :=
  start_time <- clock_read E ;;
  try_catch is_RequestException
    (resp <- session_get endpoint ps r ;;
     now <- clock_read E ;;
     let duration := (now - start_time)%Qc in
     (* Record metrics *)
     observe api_request_duration [endpoint] duration ;;;
     counter_inc debug_api_calls [endpoint; pretty (status_code resp)] 1 ;;;
     raise_for_status resp ;;;
     ret (Some (json resp)))
    (fun _ =>
       counter_inc api_request_errors [endpoint] 1 ;;;
       counter_inc debug_api_calls [endpoint; "error"] 1 ;;;
       ret None).

(** [bandwidth], from the fields tried in turn. *)
Definition bandwidth_of (session : Session) : Z :=
  match session_Bandwidth session with
  | Some bandwidth => bandwidth                   (* 'Bandwidth' in session *)
  | None =>
      match session_TranscodingInfo session with
      | Some trans_info => default 0 (Bitrate trans_info)
      | None => 0
      end
  end.

(** The labels of the per-session series, for the session at index [i]. *)
Definition session_labels (i : nat) (session : Session)
  (now_playing : NowPlayingItem) : list string :=
  [default ("unknown_" ++ pretty i) (session_Id session);
   default "unknown" (session_UserName session);
   default "unknown" (session_Client session);
   default "Unknown" (np_MediaType now_playing);
   default "Unknown"
     (from_option PlayMethod None (session_PlayState session))].

(** The body of [for i, session in enumerate(sessions)]; the locals are
    [(i, streaming_count, transcoding_count, total_bandwidth_bytes)]. *)
Definition session_body (session : Session) (acc : nat * Z * Z * Z)
  : M state (nat * Z * Z * Z) :=
  let '(i, streaming_count, transcoding_count, total_bandwidth_bytes) := acc in
  match session_NowPlayingItem session with
  | Some now_playing =>
      if truthy now_playing then
        let streaming_count := streaming_count + 1 in
        let play_method :=
          default "Unknown"
            (from_option PlayMethod None (session_PlayState session)) in
        (* Check for transcoding *)
        let transcoding_count :=
          if String.eqb play_method "Transcode"
          then transcoding_count + 1 else transcoding_count in
        (* Get bandwidth information *)
        let bandwidth := bandwidth_of session in
        if 0 <? bandwidth then
          gauge_set session_bandwidth (session_labels i session now_playing)
            (Qc_of_Z bandwidth) ;;;
          ret (S i, streaming_count, transcoding_count,
               total_bandwidth_bytes + bandwidth)
        else
          (* Still set the metric but with 0 bandwidth *)
          gauge_set session_bandwidth (session_labels i session now_playing)
            (Qc_of_Z 0) ;;;
          ret (S i, streaming_count, transcoding_count, total_bandwidth_bytes)
      else ret (S i, streaming_count, transcoding_count, total_bandwidth_bytes)
  | None => ret (S i, streaming_count, transcoding_count, total_bandwidth_bytes)
  end.

Definition collect_sessions : M state unit :=
  sessions <- _make_request "/Sessions" [] (sessions E) ;;
  match sessions with
  | None =>
      gauge_set debug_sessions_found [] (Qc_of_Z 0) ;;;
      gauge_set debug_streams_found [] (Qc_of_Z 0)
  | Some sessions =>
      let active_count := Z.of_nat (length sessions) in
      gauge_set debug_sessions_found [] (Qc_of_Z active_count) ;;;
      acc <- for_fold sessions session_body (O, 0, 0, 0) ;;
      let '(_, streaming_count, transcoding_count, total_bandwidth_bytes) :=
        acc in
      (* Set all metrics *)
      gauge_set active_sessions [] (Qc_of_Z active_count) ;;;
      gauge_set active_streams [] (Qc_of_Z streaming_count) ;;;
      gauge_set active_transcodes [] (Qc_of_Z transcoding_count) ;;;
      gauge_set total_bandwidth [] (Qc_of_Z total_bandwidth_bytes) ;;;
      gauge_set debug_streams_found [] (Qc_of_Z streaming_count)
  end.
End Collectors.
Definition server_info := "emby_server".
Definition server_up := "emby_up".
Definition debug_last_scrape := "emby_debug_last_scrape_timestamp".
Definition total_users := "emby_users_total".
Definition active_users := "emby_users_active".

Section GeneralCollectors.
Variable G : GeneralEnv.

Definition collect_server_info : M state unit :=
  info <- _make_request G "/System/Info" [] (general_info G) ;;
  if truthy info then
    info <- deref info ;;
    info_set server_info
      [("version", default "unknown" (ginfo_Version info));
       ("server_name", default "unknown" (ginfo_ServerName info));
       ("operating_system", default "unknown" (ginfo_OperatingSystem info));
       ("architecture", default "unknown" (ginfo_SystemArchitecture info))] ;;;
    gauge_set server_up [] (Qc_of_Z 1)
  else
    gauge_set server_up [] (Qc_of_Z 0).

(** The body of [for user in users]; the local is [active_count]. *)
Definition user_body (user : User) (active_count : Z) : M state Z :=
  (* Check last activity *)
  if truthy (user_LastActivityDate user) then
    try_except
      (let date := default "" (user_LastActivityDate user) in
       last_activity <- lift (fromisoformat G (replace_Z date)) ;;
       now <- datetime_now G (utcoffset last_activity) ;;
       days <- lift (days_between now last_activity) ;;
       if days <? 1 then ret (active_count + 1) else ret active_count)
      (fun _ => ret active_count)
  else ret active_count.

Definition collect_users : M state unit :=
  users <- _make_request G "/Users" [] (users G) ;;
  if negb (truthy users) then ret tt
  else
    users <- deref users ;;
    gauge_set total_users [] (of_nat (length users)) ;;;
    active_count <- for_fold users user_body 0 ;;
    gauge_set active_users [] (Qc_of_Z active_count).

Definition collect_all_metrics : M state unit :=
  datetime_now G None ;;;           (* the log line: datetime.now().isoformat() *)
  try_except
    ((* Update debug timestamp *)
     now <- clock_read G ;;
     gauge_set debug_last_scrape [] now ;;;
     (* Collect all metrics *)
     collect_server_info ;;;
     collect_sessions G ;;;
     collect_users)
    (fun _ => gauge_set server_up [] (Qc_of_Z 0)).

(** [main]: one collection at once, then one per wake-up; [cycles] is how
    many collections are run in all. *)
Fixpoint run (cycles : nat) : M state unit :=
  match cycles with
  | O => ret tt
  | S cycles' => collect_all_metrics ;;; run cycles'
  end.
End GeneralCollectors.

End Debug.

(** * Sample environments *)

(** A server that answers nothing, and a clock that advances by one second at
    every reading. *)
Definition offline : Env := {|
  time_time := fun k => of_nat k;
  now_hour := fun _ => 20%nat;
  fromisoformat := fun _ => Raise ValueError;
  system_info := fun _ _ => None;
  sessions := fun _ _ => None;
  livetv_channels := fun _ _ => None;
  livetv_tuners := fun _ _ => None;
  livetv_recordings := fun _ _ => None;
  livetv_timers := fun _ _ => None;
  livetv_programs := fun _ _ => None
|}.

Definition serving_sessions (r : route (list Session)) (E : Env) : Env := {|
  time_time := time_time E;
  now_hour := now_hour E;
  fromisoformat := fromisoformat E;
  system_info := system_info E;
  sessions := r;
  livetv_channels := livetv_channels E;
  livetv_tuners := livetv_tuners E;
  livetv_recordings := livetv_recordings E;
  livetv_timers := livetv_timers E;
  livetv_programs := livetv_programs E
|}.

Definition serving_tuners (r : route TunersPayload) (E : Env) : Env := {|
  time_time := time_time E;
  now_hour := now_hour E;
  fromisoformat := fromisoformat E;
  system_info := system_info E;
  sessions := sessions E;
  livetv_channels := livetv_channels E;
  livetv_tuners := r;
  livetv_recordings := livetv_recordings E;
  livetv_timers := livetv_timers E;
  livetv_programs := livetv_programs E
|}.

Definition serving_recordings (r : route (QueryResult Recording)) (E : Env)
  : Env := {|
  time_time := time_time E;
  now_hour := now_hour E;
  fromisoformat := fromisoformat E;
  system_info := system_info E;
  sessions := sessions E;
  livetv_channels := livetv_channels E;
  livetv_tuners := livetv_tuners E;
  livetv_recordings := r;
  livetv_timers := livetv_timers E;
  livetv_programs := livetv_programs E
|}.


Definition with_fromisoformat (f : string -> outcome datetime) (E : Env)
  : Env := {|
  time_time := time_time E;
  now_hour := now_hour E;
  fromisoformat := f;
  system_info := system_info E;
  sessions := sessions E;
  livetv_channels := livetv_channels E;
  livetv_tuners := livetv_tuners E;
  livetv_recordings := livetv_recordings E;
  livetv_timers := livetv_timers E;
  livetv_programs := livetv_programs E
|}.

(** 2025-07-20 01:16:29.570648 UTC *)
Definition july_20 : datetime := {|
  timestamp := Q2Qc (1752974189570648 # 1000000);
  utcoffset := Some 0
|}.

(** A library parser in the style of Python 3.10: it knows one timestamp with
    six fractional digits, and rejects every other string. *)
Definition strict_parser : Env :=
  with_fromisoformat
    (fun s =>
       if String.eqb s "2025-07-20T01:16:29.570648+00:00" then Return july_20
       else Raise ValueError)
    offline.

Definition ok {A : Type} (body : A) : option (response A) :=
  Some {| status_code := 200; json := body |}.

Definition not_found {A : Type} (body : A) : option (response A) :=
  Some {| status_code := 404; json := body |}.

(** Three tuners: one tuned to a channel, one idle, one reported live. *)
Definition three_tuners : list Tuner :=
  [ {| tuner_Id := Some "t1"; tuner_Name := Some "HDHomeRun 1";
       tuner_Type := Some "hdhomerun"; tuner_ChannelId := Some "c7";
       tuner_Status := None; tuner_ChannelName := Some "News24" |};
    {| tuner_Id := Some "t2"; tuner_Name := Some "HDHomeRun 2";
       tuner_Type := Some "hdhomerun"; tuner_ChannelId := None;
       tuner_Status := Some "Idle"; tuner_ChannelName := None |};
    {| tuner_Id := Some "t3"; tuner_Name := None;
       tuner_Type := None; tuner_ChannelId := Some "";
       tuner_Status := Some "LiveTv"; tuner_ChannelName := None |} ].

Definition tuners_online : Env :=
  serving_tuners (fun _ _ => ok (TunerList three_tuners)) offline.

Definition programs_found (n : Z) : QueryResult Program :=
  {| Items := Some [ {| program_Name := Some "Evening News";
                        program_Genres := Some ["News"];
                        program_StartDate := None;
                        program_EndDate := None |} ];
     TotalRecordCount := Some n |}.

(** A guide that holds programs for today and the next three days. *)
Definition three_day_guide : route (QueryResult Program) :=
  fun _ ps =>
    match ps with
    | ("MinStartDate", PDate (FutureDate days)) :: _ =>
        if days <=? 3 then ok (programs_found 1)
        else ok {| Items := Some []; TotalRecordCount := Some 0 |}
    | _ => ok (programs_found 40)
    end.


(** A healthy server with one stored recording, whose guide reaches three
    days ahead. *)
Definition healthy : Env := {|
  time_time := fun k => of_nat k;
  now_hour := fun _ => 20%nat;
  fromisoformat := fun _ => Raise ValueError;
  system_info := fun _ _ =>
    ok {| info_Version := Some "4.8.0.0"; info_ServerName := Some "emby";
          info_OperatingSystem := Some "Linux"; info_HasLiveTv := Some true;
          info_Id := Some "e1" |};
  sessions := fun _ _ => ok [];
  livetv_channels := fun _ _ =>
    ok {| Items := Some []; TotalRecordCount := Some 0 |};
  livetv_tuners := fun _ _ => ok (TunerList three_tuners);
  livetv_recordings := fun _ _ =>
    ok {| Items := Some [ {| recording_Size := Some 1073741824 |} ];
          TotalRecordCount := Some 1 |};
  livetv_timers := fun _ _ =>
    ok {| Items := Some []; TotalRecordCount := Some 0 |};
  livetv_programs := three_day_guide
|}.

(** The same server, except that the request for the recordings in progress
    times out. *)
Definition in_progress_times_out : Env :=
  serving_recordings
    (fun n ps =>
       match ps with
       | [] => livetv_recordings healthy n ps
       | _ :: _ => None
       end)
    healthy.

(** alice watches the live channel News24 at 1080p; the server re-muxes the
    stream at 5 Mbit/s and reports no session-level bandwidth. *)
Definition alice_on_news : Session := {|
  session_Id := Some "s1";
  session_UserName := Some "alice";
  session_Client := Some "Emby Web";
  session_DeviceName := Some "Firefox";
  session_NowPlayingItem :=
    Some {| np_Id := Some "c7"; np_Name := Some "News24";
            np_Type := Some "TvChannel"; np_MediaType := Some "Video";
            np_ChannelNumber := Some "7"; np_CurrentProgram := None |};
  session_PlayState :=
    Some {| PlayMethod := Some "Transcode"; IsPaused := Some false;
            PositionTicks := None |};
  session_TranscodingInfo :=
    Some {| Bitrate := Some 5000000; Height := Some 1080; Framerate := None |};
  session_Bandwidth := None
|}.

(** bob plays a film directly; the session reports its bandwidth. *)
Definition bob_on_film : Session := {|
  session_Id := Some "s2";
  session_UserName := Some "bob";
  session_Client := Some "Emby Theater";
  session_DeviceName := Some "HTPC";
  session_NowPlayingItem :=
    Some {| np_Id := Some "m1"; np_Name := Some "Metropolis";
            np_Type := Some "Movie"; np_MediaType := Some "Video";
            np_ChannelNumber := None; np_CurrentProgram := None |};
  session_PlayState :=
    Some {| PlayMethod := Some "DirectPlay"; IsPaused := Some false;
            PositionTicks := Some 600000000 |};
  session_TranscodingInfo := None;
  session_Bandwidth := Some 8000000
|}.

(** Both are watching when the first request arrives; everybody has left by
    the second. *)
Definition last_viewer_leaves : Env :=
  serving_sessions
    (fun n _ => if Nat.eqb n 0 then ok [alice_on_news; bob_on_film] else ok [])
    offline.

(** A Live TV session: [user] watches [channel_name] in session
    [session_id]. *)
Definition live (session_id user channel_name : string) : Session := {|
  session_Id := Some session_id;
  session_UserName := Some user;
  session_Client := Some "Emby Web";
  session_DeviceName := Some "TV";
  session_NowPlayingItem :=
    Some {| np_Id := None; np_Name := Some channel_name;
            np_Type := Some "TvChannel"; np_MediaType := None;
            np_ChannelNumber := None; np_CurrentProgram := None |};
  session_PlayState := None;
  session_TranscodingInfo := None;
  session_Bandwidth := None
|}.

(** dora is streaming a film; her session reports a bandwidth but carries no
    PlayState. *)
Definition dora_without_playstate : Session := {|
  session_Id := Some "s4";
  session_UserName := Some "dora";
  session_Client := Some "Emby Web";
  session_DeviceName := Some "Laptop";
  session_NowPlayingItem :=
    Some {| np_Id := Some "m2"; np_Name := Some "Nosferatu";
            np_Type := Some "Movie"; np_MediaType := Some "Video";
            np_ChannelNumber := None; np_CurrentProgram := None |};
  session_PlayState := None;
  session_TranscodingInfo := None;
  session_Bandwidth := Some 3000000
|}.

(** Three viewers at once. *)
Definition three_viewers : Env :=
  serving_sessions
    (fun _ _ => ok [alice_on_news; bob_on_film; dora_without_playstate])
    offline.

(** alice stays on News24, cycle after cycle. *)
Definition alice_stays : Env :=
  serving_sessions (fun _ _ => ok [live "s1" "alice" "News24"]) offline.


(** carol watches News24 in the kitchen and Sports1 in the den, cycle after
    cycle. *)
Definition carol_two_screens : Env :=
  serving_sessions
    (fun _ _ => ok [live "kitchen" "carol" "News24"; live "den" "carol" "Sports1"])
    offline.

(** The same, except that the kitchen changes to Sports1 after the first
    cycle. *)
Definition carol_zaps : Env :=
  serving_sessions
    (fun n _ =>
       if Nat.eqb n 0
       then ok [live "kitchen" "carol" "News24"; live "den" "carol" "Sports1"]
       else ok [live "kitchen" "carol" "Sports1"; live "den" "carol" "Sports1"])
    offline.

(** A server whose /Sessions endpoint does not exist. *)
Definition sessions_missing : Env :=
  serving_sessions (fun _ _ => not_found []) offline.

(** The state of the ultimate exporter after its first look at carol's two
    screens. *)
Definition carol_after_first_cycle : Ultimate.state :=
  snd (Ultimate.collect_sessions carol_two_screens Ultimate.boot).

(** The same for alice and her one screen. *)
Definition alice_after_first_cycle : Ultimate.state :=
  snd (Ultimate.collect_sessions alice_stays Ultimate.boot).

(** A server that answers /LiveTv/Tuners with a JSON object that wraps the
    list, where the exporter expects the list itself. *)
Definition tuners_as_object : Env :=
  serving_tuners
    (fun _ _ => ok (TunerObject {| Items := Some three_tuners;
                                   TotalRecordCount := Some 3 |}))
    offline.

Definition serving_channels (r : route (QueryResult Channel)) (E : Env)
  : Env := {|
  time_time := time_time E;
  now_hour := now_hour E;
  fromisoformat := fromisoformat E;
  system_info := system_info E;
  sessions := sessions E;
  livetv_channels := r;
  livetv_tuners := livetv_tuners E;
  livetv_recordings := livetv_recordings E;
  livetv_timers := livetv_timers E;
  livetv_programs := livetv_programs E
|}.

(** A page of three channels out of the 120 the server has: an HD news
    channel marked favorite, a disabled radio station, and a channel that
    says nothing about itself but its name. *)
Definition three_channels : list Channel :=
  [ {| channel_Id := Some "c7"; channel_Name := Some "News24 hd";
       channel_ChannelNumber := Some "7"; channel_Number := None;
       channel_IsHD := None; channel_IsDisabled := Some false;
       channel_UserData := Some {| IsFavorite := Some true |};
       channel_Type := Some "TvChannel" |};
    {| channel_Id := Some "r1"; channel_Name := Some "Radio One";
       channel_ChannelNumber := None; channel_Number := Some "901";
       channel_IsHD := Some false; channel_IsDisabled := Some true;
       channel_UserData := None;
       channel_Type := Some "Radio" |};
    {| channel_Id := None; channel_Name := Some "Sports1";
       channel_ChannelNumber := None; channel_Number := None;
       channel_IsHD := Some true; channel_IsDisabled := None;
       channel_UserData := Some {| IsFavorite := None |};
       channel_Type := None |} ].

Definition channels_online : Env :=
  serving_channels
    (fun _ _ => ok {| Items := Some three_channels;
                      TotalRecordCount := Some 120 |})
    offline.

(** erin watches a channel whose name holds a vertical bar. *)
Definition erin_on_film_drama : Env :=
  serving_sessions (fun _ _ => ok [live "s5" "erin" "Film|Drama"]) offline.

(** 2025-07-20 01:16:29, with no UTC offset. *)
Definition july_20_naive : datetime := {|
  timestamp := Q2Qc (1752974189 # 1);
  utcoffset := None
|}.

(** A library parser that knows this one timestamp, written without fraction
    and without offset, and rejects every other string (before Python 3.11
    the library takes a fraction of three or six digits only). *)
Definition whole_seconds_parser : Env :=
  with_fromisoformat
    (fun s =>
       if String.eqb s "2025-07-20T01:16:29" then Return july_20_naive
       else Raise ValueError)
    offline.

(** The healthy server while erin watches that channel. *)
Definition healthy_with_erin : Env :=
  serving_sessions (fun _ _ => ok [live "s5" "erin" "Film|Drama"]) healthy.

(** 2025-07-01 00:00:00 UTC *)
Definition july_1 : datetime := {|
  timestamp := Q2Qc (1751328000 # 1);
  utcoffset := Some 0
|}.

(** A library parser in the style of Python 3.10: it knows two timestamps,
    written with six fractional digits or with none, and rejects every other
    string, the ones with seven fractional digits among them. *)
Definition library_310 (s : string) : outcome datetime :=
  if String.eqb s "2025-07-20T01:16:29.570648+00:00" then Return july_20
  else if String.eqb s "2025-07-01T00:00:00+00:00" then Return july_1
  else Raise ValueError.

(** ann was last active on July 20 at 01:16:29 UTC, and so was ben, whose
    timestamp the server writes with seven fractional digits; cat has never
    been active; dan was last active on July 1. *)
Definition ann : User := {|
  user_Id := Some "u1"; user_Name := Some "ann";
  user_LastActivityDate := Some "2025-07-20T01:16:29.570648+00:00"
|}.

Definition ben : User := {|
  user_Id := Some "u2"; user_Name := Some "ben";
  user_LastActivityDate := Some "2025-07-20T01:16:29.5706488Z"
|}.

Definition cat : User := {|
  user_Id := None; user_Name := Some "cat";
  user_LastActivityDate := None
|}.

Definition dan : User := {|
  user_Id := Some "u4"; user_Name := None;
  user_LastActivityDate := Some "2025-07-01T00:00:00Z"
|}.

(** A television used on July 20 and a tablet last used on July 1, both with
    the same app, and a browser that reports no date. *)
Definition three_devices : list Device :=
  [ {| device_DateLastActivity := Some "2025-07-20T01:16:29.5706488Z";
       device_AppName := Some "Emby for Android" |};
    {| device_DateLastActivity := Some "2025-07-01T00:00:00Z";
       device_AppName := Some "Emby for Android" |};
    {| device_DateLastActivity := None;
       device_AppName := Some "Emby Web" |} ].

(** Their server on July 20 at 02:16:29 UTC, one hour after ann and ben were
    last active.  The clock advances by one second at every reading; the
    local time is two hours ahead of UTC.  Play statistics exist for ann
    alone. *)
Definition household : GeneralEnv := {|
  base_env := {|
    time_time := fun k => Qc_of_Z (1752977789 + Z.of_nat k);
    now_hour := fun _ => 4%nat;
    fromisoformat := library_310;
    system_info := fun _ _ => None;
    sessions := fun _ _ => ok [alice_on_news; bob_on_film];
    livetv_channels := fun _ _ => None;
    livetv_tuners := fun _ _ => None;
    livetv_recordings := fun _ _ => None;
    livetv_timers := fun _ _ => None;
    livetv_programs := fun _ _ => None
  |};
  now_local := fun k => Qc_of_Z (1752984989 + Z.of_nat k);
  general_info := fun _ _ =>
    ok {| ginfo_Version := Some "4.8.0.0"; ginfo_ServerName := Some "emby";
          ginfo_OperatingSystem := Some "Linux";
          ginfo_SystemArchitecture := Some "X64";
          ginfo_CachePath := Some "/var/lib/emby/cache";
          ginfo_WebSocketPortNumber := Some 8096 |};
  users := fun _ _ => ok [ann; ben; cat; dan];
  played_items_stats := fun endpoint _ _ =>
    if String.eqb endpoint "/Users/u1/PlayedItems/Stats"
    then ok {| PlayCount := Some 12;
               PlaybackDurationTicks := Some 36000000000 |}
    else not_found {| PlayCount := None; PlaybackDurationTicks := None |};
  devices := fun _ _ =>
    ok (DevicesObject {| Items := Some three_devices;
                         TotalRecordCount := Some 3 |})
|}.

(** An exporter that has cached nothing yet, a fetch that takes one clock
    reading to count the users, and one that fails. *)
Definition nothing_cached : World (Fixed.Cache Z) :=
  mkWorld ∅ ∅ ∅ ∅ 0%nat [] ∅.

Definition count_users : M (World (Fixed.Cache Z)) (option Z) :=
  bind (clock_read household) (fun _ => ret (Some 4)).

Definition failing_fetch : M (World (Fixed.Cache Z)) (option Z) :=
  raise ValueError.

(** * Vocabulary of the statements *)

(** ** Requests *)

(** What a response hands to the caller of [_make_request]: nothing for a
    missing response, a 404 or any other 4xx/5xx status. *)
Definition delivered {A : Type} (o : option (response A)) : option A :=
  match o with
  | Some resp =>
      if ((status_code resp =? 404) ||
          ((400 <=? status_code resp) && (status_code resp <? 600)))%bool
      then None else Some (json resp)
  | None => None
  end.

(** What a request may change: the clock, the log of requests, the latency
    samples and the API error counter. *)
Record request_step {S : Type} (endpoint : string) (ps : params)
  (error_counter : series) (w w' : World S) : Prop := {
  step_gauges : gauges w' = gauges w;
  step_infos : infos w' = infos w;
  step_self : self w' = self w;
  step_sent : sent w' = (sent w ++ [(endpoint, ps)])%list;
  step_ticks : (ticks w < ticks w')%nat;
  step_counters : forall k, k <> error_counter -> counters w' !! k = counters w !! k
}.

(** ** Tuners and the guide probe *)

(** The tuners of a list that are in use, and those that are not. *)
Definition count_in_use (tuners : list Tuner) : nat :=
  length (List.filter Ultimate.tuner_is_in_use tuners).

Definition count_free (tuners : list Tuner) : nat :=
  length (List.filter (fun t => negb (Ultimate.tuner_is_in_use t)) tuners).




(** A request to the guide endpoint. *)
Definition is_programs_request (req : string * params) : bool :=
  String.eqb (fst req) "/LiveTv/Programs".

(** ** Timestamps *)

(** [s] is matched by [p] from its first to its last character. *)
Definition fully_matches (p : list atom) (s : string) : Prop :=
  match_atoms p s = Some (s, "").

(** [s] is made of decimal digits. *)
Fixpoint all_digits (s : string) : bool :=
  match s with
  | EmptyString => true
  | String c s' => (is_digit c && all_digits s')%bool
  end.

(** The offset the parser hands to the library: Z becomes +00:00. *)
Definition normalized (offset : string) : string :=
  if String.eqb offset "Z" then "+00:00" else offset.

(** The library contract the parser relies on: on a string,
    [datetime.fromisoformat] either returns or raises ValueError. *)
Definition raises_only_ValueError (E : Env) : Prop :=
  forall s e, fromisoformat E s = Raise e -> e = ValueError.

(** ** What a computation leaves alone, finishes, or keeps true *)

(** [m] never changes the observation [f] of the state, whether it returns
    or raises. *)
Definition preserves {W A X : Type} (f : W -> X) (m : M W A) : Prop :=
  forall w, f (snd (m w)) = f w.

(** [m] returns normally from every state and leaves the observation [f]
    as it was. *)
Definition returns_keeping {W A X : Type} (f : W -> X) (m : M W A) : Prop :=
  forall w, exists a w', m w = (Return a, w') /\ f w' = f w.

(** [m] keeps the invariant [P] of the state, whether it returns or
    raises. *)
Definition maintains {W A : Type} (P : W -> Prop) (m : M W A) : Prop :=
  forall w, P w -> P (snd (m w)).

(** ** Live TV sessions and what the trackers do with them

    The functions below describe the effect of [collect_sessions] on the
    tracked part of the state without the monad; [session_body_tracks] and
    [collect_sessions_tracks] prove that the code computes them. *)

(** What the trackers read and write: the counters, the number of clock
    readings taken and the two tracking dictionaries. *)
Definition tracking : Type :=
  gmap series Qc * nat * gmap string (string * string * Qc) *
  gmap string (string * Qc).

Definition tracked (w : Ultimate.state) : tracking :=
  (counters w, ticks w,
   Ultimate.channel_watch_start (self w), Ultimate.last_channel_switch (self w)).

(** The components of the tracked state. *)
Definition tk_counters (T : tracking) : gmap series Qc := T.1.1.1.

Definition tk_ticks (T : tracking) : nat := T.1.1.2.

Definition tk_anchors (T : tracking) : gmap string (string * string * Qc) := T.1.2.

Definition tk_last (T : tracking) : gmap string (string * Qc) := T.2.

(** A session that counts as Live TV: its id, user and channel name. *)
Definition live_session (s : Session) : option (string * string * string) :=
  match session_NowPlayingItem s with
  | Some np =>
      if (truthy np && bool_decide (np_Type np = Some "TvChannel"))%bool
      then Some (default "unknown" (session_Id s),
                 default "unknown" (session_UserName s),
                 default "Unknown Channel" (np_Name np))
      else None
  | None => None
  end.

(** [s] is a Live TV session of [user]. *)
Definition watched_by (user : string) (s : Session) : Prop :=
  exists session_id channel_name,
    live_session s = Some (session_id, user, channel_name).


(** The channel last recorded for [user] differs from [channel_name]. *)
Definition switched (last_channel_switch : gmap string (string * Qc))
  (user channel_name : string) : bool :=
  match last_channel_switch !! user with
  | Some (last_channel, _) => negb (String.eqb last_channel channel_name)
  | None => false
  end.

(** The reading of a counter child in a map of counters. *)
Definition reading (cs : gmap series Qc) (name : string) (labels : list string)
  : Qc :=
  default (Qc_of_Z 0) (cs !! (name, labels)).

(** The effect of one session of the list on the tracked state, when no
    counter refuses its increment: a Live TV session takes one clock reading
    for the switch tracker and, unless it is found on another channel than
    its anchor, one for the watch-time tracker. *)
Definition track_session (E : Env) (s : Session) (T : tracking) : tracking :=
  match live_session s with
  | None => T
  | Some (session_id, user, channel_name) =>
      let '(cs, t, watch_start, last_switch) := T in
      let cs1 :=
        if switched last_switch user channel_name
        then <[(Ultimate.user_channel_switches, [user]) :=
                 (reading cs Ultimate.user_channel_switches [user] + 1)%Qc]> cs
        else cs in
      let last_switch' := <[user := (channel_name, time_time E t)]> last_switch in
      match watch_start !! session_id with
      | None =>
          (cs1, (t + 2)%nat,
           <[session_id := (user, channel_name, time_time E (t + 1))]> watch_start,
           last_switch')
      | Some (_, old_channel, start_time) =>
          if String.eqb old_channel channel_name then
            (<[(Ultimate.user_watch_time, [user; channel_name]) :=
                 (reading cs1 Ultimate.user_watch_time [user; channel_name]
                  + (time_time E (t + 1) - start_time))%Qc]> cs1,
             (t + 2)%nat, watch_start, last_switch')
          else (cs1, (t + 1)%nat, watch_start, last_switch')
      end
  end.

(** The effect of the whole list, first session first. *)
Definition track_sessions (E : Env) (l : list Session) (T : tracking) : tracking :=
  foldl (fun T s => track_session E s T) T l.

(** Later clock readings are not smaller. *)
Definition clock_monotone (E : Env) : Prop :=
  forall i j : nat, (i <= j)%nat -> (time_time E i <= time_time E j)%Qc.

(** No watch anchor lies after the current clock reading. *)
Definition anchors_in_past (E : Env) (T : tracking) : Prop :=
  let '(_, t, watch_start, _) := T in
  map_Forall (fun _ a => (a.2 <= time_time E t)%Qc) watch_start.

(** The invariant of the exporter's state. *)
Definition anchored (E : Env) (w : Ultimate.state) : Prop :=
  anchors_in_past E (tracked w).

(** What the invariant on the anchors depends on. *)
Definition clock_and_anchors (w : Ultimate.state)
  : nat * gmap string (string * string * Qc) :=
  (ticks w, Ultimate.channel_watch_start (self w)).

(** ** Gauges written in a loop, and bandwidth *)

(** The gauge children after a sequence of [set] calls, oldest first. *)
Definition apply_writes (g : gmap series Qc) (ws : list (series * Qc))
  : gmap series Qc :=
  foldl (fun g kv => <[kv.1 := kv.2]> g) g ws.

(** The gauges a Live TV session sets from its TranscodingInfo, in order. *)
Definition transcoding_writes (s : Session)
  (user channel_name session_id : string) : list (series * Qc) :=
  match session_TranscodingInfo s with
  | Some trans_info =>
      ((if 0 <? default 0 (Bitrate trans_info)
        then [((Ultimate.stream_bitrate, [user; channel_name; session_id]),
               (Qc_of_Z (default 0%Z (Bitrate trans_info)) / Qc_of_Z 1000)%Qc)]
        else []) ++
       (if 0 <? default 0 (Height trans_info)
        then [((Ultimate.stream_resolution, [user; channel_name; session_id]),
               Qc_of_Z (default 0 (Height trans_info)))]
        else []) ++
       (if bool_decide (0 < default 0%Qc (Framerate trans_info))%Qc
        then [((Ultimate.stream_framerate, [user; channel_name; session_id]),
               default 0%Qc (Framerate trans_info))]
        else []))%list
  | None => []
  end.

(** What it adds to the bandwidth total, in Mbit/s. *)
Definition transcoding_mbps (s : Session) : Qc :=
  match session_TranscodingInfo s with
  | Some trans_info =>
      if 0 <? default 0 (Bitrate trans_info)
      then (Qc_of_Z (default 0%Z (Bitrate trans_info)) / Qc_of_Z 1000000)%Qc
      else 0%Qc
  | None => 0%Qc
  end.

(** All the gauges one session of the list sets, in order. *)
Definition session_writes (s : Session) : list (series * Qc) :=
  match live_session s with
  | Some (session_id, user, channel_name) =>
      (transcoding_writes s user channel_name session_id ++
       (if negb (default false
                   (from_option IsPaused None (session_PlayState s)))
        then [((Ultimate.buffer_health, [user; session_id]), Qc_of_Z 95)]
        else []))%list
  | None => []
  end.

(** What one session of the list adds to the bandwidth total. *)
Definition session_mbps (s : Session) : Qc :=
  match live_session s with
  | Some _ => transcoding_mbps s
  | None => 0%Qc
  end.

(** The gauges the loop sets over the whole list, and what it adds to the
    bandwidth total. *)
Fixpoint all_session_writes (l : list Session) : list (series * Qc) :=
  match l with
  | [] => []
  | s :: l' => (session_writes s ++ all_session_writes l')%list
  end.

Fixpoint mbps_total (l : list Session) : Qc :=
  match l with
  | [] => 0%Qc
  | s :: l' => (session_mbps s + mbps_total l')%Qc
  end.


(** The bandwidth information of a session, in the order of preference:
    the session-level field, else the transcoding bitrate. *)
Definition bandwidth_information (s : Session) : option Z :=
  match session_Bandwidth s with
  | Some bandwidth => Some bandwidth
  | None =>
      match session_TranscodingInfo s with
      | Some trans_info => Bitrate trans_info
      | None => None
      end
  end.

(** The value of the per-session series: the bandwidth when there is a
    positive one, zero otherwise. *)
Definition published_bandwidth (s : Session) : Z :=
  match bandwidth_information s with
  | Some bandwidth => if 0 <? bandwidth then bandwidth else 0
  | None => 0
  end.

(** A session is streaming when it has a now-playing item. *)
Definition is_streaming (s : Session) : bool :=
  truthy (session_NowPlayingItem s).

(** The sum of the per-session values over the streaming sessions. *)
Fixpoint total_published (l : list Session) : Z :=
  match l with
  | [] => 0
  | s :: l' =>
      (if is_streaming s then published_bandwidth s else 0) + total_published l'
  end.



(** The series of a session in the fixed exporter: only a streaming session
    that carries a PlayState gets one. *)
Definition fixed_series (s : Session) : option series :=
  if is_streaming s then
    match session_PlayState s with
    | Some _ =>
        Some (Fixed.session_bandwidth,
              [default "unknown" (session_Id s);
               default "unknown" (session_UserName s);
               default "unknown" (session_Client s)])
    | None => None
    end
  else None.

(** Its value: the session-level field alone. *)
Definition fixed_bandwidth (s : Session) : Z := default 0 (session_Bandwidth s).

(** The sum of these values over the sessions that get a series. *)
Fixpoint fixed_total (l : list Session) : Z :=
  match l with
  | [] => 0
  | s :: l' =>
      (match fixed_series s with
       | Some _ => fixed_bandwidth s
       | None => 0
       end) + fixed_total l'
  end.


(** ** Running a computation against a postcondition *)

(** [Q] holds of the outcome of [m] and of the state it leaves. *)
Definition wp {W A : Type} (m : M W A) (Q : outcome A -> W -> Prop) (w : W)
  : Prop :=
  Q (fst (m w)) (snd (m w)).

(** The outcome is a normal return, of a value and a state that satisfy
    [P]. *)
Definition returned {W A : Type} (P : A -> W -> Prop) (r : outcome A) (w : W)
  : Prop :=
  match r with
  | Return a => P a w
  | Raise _ => False
  end.

(** ** The fallback of the fixed parser *)

(** None of the characters [cs] occurs in [s]. *)
Definition free_of (cs : list ascii) (s : string) : bool :=
  forallb (fun c => negb (has_char c s)) cs.

(** A timestamp with a fraction and a UTC offset:
    [base_time.fraction+hh:mm] or [base_time.fraction-hh:mm]. *)
Definition with_offset (base_time fraction : string) (negative : bool)
  (offset : string) : string :=
  base_time ++ "." ++ fraction ++
  String (if negative then "-" else "+")%char offset.

(** What a parser returns for the outcome of its last library call. *)
Definition parsed_or_None (o : outcome datetime) : option datetime :=
  match o with
  | Return d => Some d
  | Raise _ => None
  end.

(** ** Recordings *)

(** [sum(item.get('Size', 0) for item in ...)] *)
Definition total_size_bytes (recordings : list Recording) : Z :=
  foldr Z.add 0 ((fun item => default 0 (recording_Size item)) <$> recordings).

(** [sum(1 for timer in ... if timer.get('SeriesTimerId'))] *)
Definition series_timers (timers : list Timer) : nat :=
  length (filter (fun timer => truthy (timer_SeriesTimerId timer) = true) timers).

(** ** Counting *)

(** How many items of [l] satisfy [p]. *)
Definition count_where {A : Type} (p : A -> bool) (l : list A) : Z :=
  Z.of_nat (length (List.filter p l)).

(** [d.get(k)] on a dictionary kept as an association list. *)
Fixpoint dict_get {V : Type} (k : string) (d : list (string * V)) : option V :=
  match d with
  | [] => None
  | (k', v) :: d' => if String.eqb k' k then Some v else dict_get k d'
  end.

(** The conditions [collect_channels] counts. *)
Definition is_hd (channel : Channel) : bool :=
  (contains "HD" (upper (default "Unknown" (channel_Name channel))) ||
   default false (channel_IsHD channel))%bool.

Definition is_available (channel : Channel) : bool :=
  (truthy (channel_Id channel) &&
   negb (default false (channel_IsDisabled channel)))%bool.

Definition is_favorite (channel : Channel) : bool :=
  default false (from_option IsFavorite None (channel_UserData channel)).

Definition type_of_channel (channel : Channel) : string :=
  default "Unknown" (channel_Type channel).

(** ** What [collect_sessions] counts *)

Definition is_live_tv (s : Session) : bool :=
  match live_session s with Some _ => true | None => false end.

(** The user of a Live TV session. *)
Definition live_user (s : Session) : option string :=
  match live_session s with
  | Some (_, user, _) => Some user
  | None => None
  end.

(** The key of a Live TV session in [channel_viewers]:
    [f"{channel_name}|{channel_number}"]. *)
Definition live_key (s : Session) : option string :=
  match session_NowPlayingItem s with
  | Some np =>
      if (truthy np && bool_decide (np_Type np = Some "TvChannel"))%bool
      then Some (default "Unknown Channel" (np_Name np) ++ "|" ++
                 default "N/A" (np_ChannelNumber np))
      else None
  | None => None
  end.

(** A Live TV session that is being transcoded. *)
Definition is_transcoded (s : Session) : bool :=
  (is_live_tv s &&
   String.eqb
     (default "Unknown" (from_option PlayMethod None (session_PlayState s)))
     "Transcode")%bool.

(** The users that watch Live TV in a list of sessions. *)
Definition viewers (l : list Session) : gset string :=
  list_to_set (omap live_user l).

(** The channel name or the channel number of a Live TV session holds the
    separator of the key. *)
Definition key_is_ambiguous (s : Session) : bool :=
  match session_NowPlayingItem s with
  | Some np =>
      (truthy np && bool_decide (np_Type np = Some "TvChannel") &&
       (has_char "|" (default "Unknown Channel" (np_Name np)) ||
        has_char "|" (default "N/A" (np_ChannelNumber np))))%bool
  | None => false
  end.

(** What one session does to the counts of the loop, and what a list of
    sessions does. *)
Definition counts_step (s : Session) (L L' : Ultimate.Locals) : Prop :=
  Ultimate.livetv_stream_count L' =
    Ultimate.livetv_stream_count L + (if is_live_tv s then 1 else 0) /\
  Ultimate.users_watching_set L' =
    from_option (fun user => {[user]} ∪ Ultimate.users_watching_set L)
      (Ultimate.users_watching_set L) (live_user s) /\
  Ultimate.transcoding_count L' =
    Ultimate.transcoding_count L + (if is_transcoded s then 1 else 0) /\
  Ultimate.channel_viewers L' =
    from_option (fun k => incr_int k (Ultimate.channel_viewers L))
      (Ultimate.channel_viewers L) (live_key s).

Definition counts_of (l : list Session) (L L' : Ultimate.Locals) : Prop :=
  Ultimate.livetv_stream_count L' =
    Ultimate.livetv_stream_count L + count_where is_live_tv l /\
  Ultimate.users_watching_set L' = Ultimate.users_watching_set L ∪ viewers l /\
  Ultimate.transcoding_count L' =
    Ultimate.transcoding_count L + count_where is_transcoded l /\
  Ultimate.channel_viewers L' =
    foldl (fun d k => incr_int k d) (Ultimate.channel_viewers L)
      (omap live_key l).

(** [channel_key.split('|')] gives exactly two pieces. *)
Definition key_unpacks (channel_key : string) : bool :=
  match split_on "|" channel_key with
  | [_; _] => true
  | _ => false
  end.

(** Every channel that has a popularity score has a positive one, so that
    [max(self.channel_popularity_scores.values())] is not zero.  It holds of
    [boot], where no channel has a score, and every increment is by one. *)
Definition scores_positive (me : Ultimate.Exporter) : Prop :=
  Forall (fun entry => (0 < entry.2)%Qc) (Ultimate.channel_popularity_scores me).

(** ** What the fixed and the debug exporter count *)

(** A streaming session whose play method is "Transcode"; a session without
    a PlayState has the method "Unknown". *)
Definition is_transcoding (s : Session) : bool :=
  (is_streaming s &&
   String.eqb
     (default "Unknown" (from_option PlayMethod None (session_PlayState s)))
     "Transcode")%bool.

(** ** The verdict of a cycle *)

(** The [collection_error] child of the error counter, if it exists. *)
Definition collection_errors (w : Ultimate.state) : option Qc :=
  counters w !! (Ultimate.stream_errors, ["collection_error"]).

(** An outcome is a normal return. *)
Definition is_Return {A : Type} (r : outcome A) : bool :=
  match r with
  | Return _ => true
  | Raise _ => false
  end.

(** ** The general exporters *)

(** What a request of the fixed or the debug exporter changes: the log of
    requests, the clock by [readings], latency samples and counters; the
    gauges and the info metrics stay. *)
Record general_step (endpoint : string) (ps : params) (readings : nat)
  (w w' : World unit) : Prop := {
  gstep_gauges : gauges w' = gauges w;
  gstep_infos : infos w' = infos w;
  gstep_sent : sent w' = (sent w ++ [(endpoint, ps)])%list;
  gstep_ticks : ticks w' = (ticks w + readings)%nat
}.

(** [(now - last).days < limit], for the [now] of the [k]-th clock reading,
    taken in the zone of [last]. *)
Definition within_days (G : GeneralEnv) (limit : Z) (k : nat) (last : datetime)
  : bool :=
  let now :=
    match utcoffset last with
    | Some _ => time_time G k
    | None => now_local G k
    end in
  floor ((now - timestamp last) / Qc_of_Z 86400)%Qc <? limit.

(** The last activity of a user as the debug exporter reads it: one call of
    the library, after writing [+00:00] for every [Z]. *)
Definition debug_last_activity (G : GeneralEnv) (user : User)
  : option datetime :=
  if truthy (user_LastActivityDate user)
  then parsed_or_None
         (fromisoformat G (replace_Z (default "" (user_LastActivityDate user))))
  else None.

(** The user counts as active when the clock is read for the [k]-th time. *)
Definition debug_is_active (G : GeneralEnv) (k : nat) (user : User) : bool :=
  match debug_last_activity G user with
  | Some last => within_days G 1 k last
  | None => false
  end.

(** What the parser of the fixed exporter makes of a date, when the library
    keeps its contract. *)
Definition fixed_parsed (E : Env) (date : option string) : option datetime :=
  match fst (parse_emby_datetime_fixed (W := unit) E date tt) with
  | Return parsed => parsed
  | Raise _ => None
  end.

(** The user counts as active in the fixed exporter when the clock is read
    for the [k]-th time. *)
Definition fixed_is_active (G : GeneralEnv) (k : nat) (user : User) : bool :=
  match fixed_parsed G (user_LastActivityDate user) with
  | Some last => within_days G 1 k last
  | None => false
  end.

(** The request for the play statistics of a user. *)
Definition stats_request (user : User) : string * params :=
  ("/Users/" ++ default "None" (user_Id user) ++ "/PlayedItems/Stats", []).

(** [play_time_ticks / 600000000 if play_time_ticks else 0] *)
Definition play_time_minutes (stats : PlayStats) : Qc :=
  let play_time_ticks := default 0 (PlaybackDurationTicks stats) in
  if truthy play_time_ticks
  then (Qc_of_Z play_time_ticks / Qc_of_Z 600000000)%Qc
  else Qc_of_Z 0.

(** The gauges the fixed exporter sets for a user from the answer to the
    request for the user's play statistics. *)
Definition stats_writes (user : User) (stats : option PlayStats)
  : list (series * Qc) :=
  match stats with
  | Some stats =>
      if truthy stats then
        [((Fixed.user_play_count, [default "unknown" (user_Name user)]),
          Qc_of_Z (default 0 (PlayCount stats)));
         ((Fixed.user_play_time, [default "unknown" (user_Name user)]),
          play_time_minutes stats)]
      else []
  | None => []
  end.

(** The answer to the request for the play statistics of [user], when [n]
    requests were sent before it. *)
Definition stats_answer (G : GeneralEnv) (n : nat) (user : User)
  : option PlayStats :=
  delivered (played_items_stats G (stats_request user).1 n []).

(** The gauges set for a list of users, the first of which is asked about
    after [n] requests. *)
Fixpoint users_writes (G : GeneralEnv) (n : nat) (l : list User)
  : list (series * Qc) :=
  match l with
  | [] => []
  | user :: l' =>
      (stats_writes user (stats_answer G n user) ++ users_writes G (S n) l')%list
  end.

(** A device counts as active when the clock is read for the [k]-th time:
    it was last used less than seven whole days before. *)
Definition device_is_active (G : GeneralEnv) (k : nat) (device : Device)
  : bool :=
  match fixed_parsed G (device_DateLastActivity device) with
  | Some last => within_days G 7 k last
  | None => false
  end.

(** The label of a device: the name of its app. *)
Definition device_type (device : Device) : string :=
  default "unknown" (device_AppName device).

(** * Properties *)

(** ** The request helper and HTTP 404 *)

Section MakeRequest.
Variable E : Env.
Context {A : Type}.
Variables (endpoint : string) (ps : params) (r : route A).

Lemma ultimate_404 (w : Ultimate.state) (resp : response A) :
  r (length (sent w)) ps = Some resp ->
  status_code resp = 404 ->
  exists w',
    Ultimate._make_request E endpoint ps r w = (Return None, w') /\
    counters w' = counters w.
Proof.
  intros Hr H404.
  unfold Ultimate._make_request, bind, try_catch, clock_read, session_get.
  cbn. rewrite Hr. cbn. rewrite H404. cbn.
  eexists. split; reflexivity.
Qed.

Lemma livetv_404 (w : LiveTV.state) (resp : response A) :
  r (length (sent w)) ps = Some resp ->
  status_code resp = 404 ->
  exists w',
    LiveTV._make_request E endpoint ps r w = (Return None, w') /\
    counters w' = counters w.
Proof.
  intros Hr H404.
  unfold LiveTV._make_request, bind, try_catch, clock_read, session_get.
  cbn. rewrite Hr. cbn. rewrite H404. cbn.
  eexists. split; reflexivity.
Qed.

Lemma one_is_not_negative : ~ (1 < 0)%Qc.
Proof. intros H. vm_compute in H. discriminate. Qed.

Lemma counter_inc_1 {S : Type} (name : string) (labels : list string)
  (w : World S) :
  counter_inc name labels 1 w =
  (Return tt,
   with_counters
     (<[(name, labels) := (counter_value w name labels + 1)%Qc]> (counters w)) w).
Proof.
  unfold counter_inc. destruct (decide (1 < 0)%Qc) as [H|_]; [|reflexivity].
  destruct (one_is_not_negative H).
Qed.

Lemma fixed_404 (w : Fixed.state) (resp : response A) :
  r (length (sent w)) ps = Some resp ->
  status_code resp = 404 ->
  exists w',
    Fixed._make_request E endpoint ps r w = (Return None, w') /\
    counter_value w' Fixed.api_request_errors [endpoint] =
    (counter_value w Fixed.api_request_errors [endpoint] + 1)%Qc.
Proof.
  intros Hr H404.
  unfold Fixed._make_request, bind, try_catch, clock_read, session_get,
    raise_for_status.
  cbn. rewrite Hr. cbn. rewrite H404. cbn.
  rewrite counter_inc_1. cbn.
  eexists. split; [reflexivity|].
  unfold counter_value at 1. cbn. by rewrite lookup_insert_eq.
Qed.

Lemma debug_404 (w : Debug.state) (resp : response A) :
  r (length (sent w)) ps = Some resp ->
  status_code resp = 404 ->
  exists w',
    Debug._make_request E endpoint ps r w = (Return None, w') /\
    counter_value w' Debug.api_request_errors [endpoint] =
    (counter_value w Debug.api_request_errors [endpoint] + 1)%Qc.
Proof.
  intros Hr H404.
  unfold Debug._make_request, bind, try_catch, clock_read, session_get,
    raise_for_status.
  cbn. rewrite Hr. cbn. rewrite counter_inc_1. cbn. rewrite H404. cbn.
  rewrite counter_inc_1. cbn. rewrite counter_inc_1. cbn.
  eexists. split; [reflexivity|].
  unfold counter_value at 1. cbn.
  rewrite lookup_insert_ne by discriminate.
  rewrite lookup_insert_eq. cbn.
  unfold counter_value. cbn.
  rewrite lookup_insert_ne by discriminate. reflexivity.
Qed.
End MakeRequest.

(** C3 (as amended).  An HTTP 404 makes [_make_request] return [None] in all
    four exporters.  The two Live TV exporters return before
    [raise_for_status] and leave every counter as it was; the two general
    exporters (fixed, debug) let [raise_for_status] raise and count the 404
    in [api_request_errors] for the endpoint, like any other HTTP error. *)
Theorem not_found_is_absent (E : Env) (A : Type) (endpoint : string)
  (ps : params) (r : route A) (resp : response A)
  (wu : Ultimate.state) (wl : LiveTV.state) (wf : Fixed.state) (wd : Debug.state) :
  status_code resp = 404 ->
  (r (length (sent wu)) ps = Some resp ->
   exists w', Ultimate._make_request E endpoint ps r wu = (Return None, w') /\
              counters w' = counters wu) /\
  (r (length (sent wl)) ps = Some resp ->
   exists w', LiveTV._make_request E endpoint ps r wl = (Return None, w') /\
              counters w' = counters wl) /\
  (r (length (sent wf)) ps = Some resp ->
   exists w', Fixed._make_request E endpoint ps r wf = (Return None, w') /\
              counter_value w' Fixed.api_request_errors [endpoint] =
              (counter_value wf Fixed.api_request_errors [endpoint] + 1)%Qc) /\
  (r (length (sent wd)) ps = Some resp ->
   exists w', Debug._make_request E endpoint ps r wd = (Return None, w') /\
              counter_value w' Debug.api_request_errors [endpoint] =
              (counter_value wd Debug.api_request_errors [endpoint] + 1)%Qc).
Proof.
  intros H404. repeat split; intros Hr.
  - eapply ultimate_404; eauto.
  - eapply livetv_404; eauto.
  - eapply fixed_404; eauto.
  - eapply debug_404; eauto.
Qed.

Lemma not_found_is_absent_witness :
  (exists w', Ultimate._make_request sessions_missing "/Sessions" []
                (sessions sessions_missing) Ultimate.boot = (Return None, w') /\
              counters w' = counters Ultimate.boot) /\
  (exists w', Fixed._make_request sessions_missing "/Sessions" []
                (sessions sessions_missing) Fixed.boot = (Return None, w') /\
              counter_value w' Fixed.api_request_errors ["/Sessions"] =
              (counter_value Fixed.boot Fixed.api_request_errors ["/Sessions"] + 1)%Qc).
Proof.
  pose proof (not_found_is_absent sessions_missing (list Session) "/Sessions" []
                (sessions sessions_missing) {| status_code := 404; json := [] |}
                Ultimate.boot (mkWorld ∅ ∅ ∅ ∅ 0%nat [] tt) Fixed.boot Debug.boot
                eq_refl) as (Hu & _ & Hf & _).
  split; [apply Hu | apply Hf]; reflexivity.
Defined.

(** C3 as stated fails on emby_exporter_fixed.py: after a 404 the error
    counter of the endpoint has moved from 0 to 1. *)
Lemma fixed_counts_404_as_error :
  let w' := snd (Fixed._make_request sessions_missing "/Sessions" []
                   (sessions sessions_missing) Fixed.boot) in
  fst (Fixed._make_request sessions_missing "/Sessions" []
         (sessions sessions_missing) Fixed.boot) = Return None /\
  counter_value Fixed.boot Fixed.api_request_errors ["/Sessions"] = Qc_of_Z 0 /\
  counter_value w' Fixed.api_request_errors ["/Sessions"] = Qc_of_Z 1.
Proof.
  cbv zeta. repeat split.
  all: apply (bool_decide_unpack _); vm_compute; exact I.
Qed.

(** ** How a request runs *)

Section RequestRuns.
Variable E : Env.
Context {A : Type}.
Variables (endpoint : string) (ps : params) (r : route A).

Lemma ultimate_make_request_runs (w : Ultimate.state) :
  exists w',
    Ultimate._make_request E endpoint ps r w =
      (Return (delivered (r (length (sent w)) ps)), w') /\
    request_step endpoint ps (Ultimate.stream_errors, ["api_error"]) w w'.
Proof.
  unfold Ultimate._make_request, bind, try_catch, clock_read, session_get,
    raise_for_status, delivered.
  cbn. destruct (r (length (sent w)) ps) as [resp|]; cbn.
  - destruct (status_code resp =? 404); cbn.
    + eexists; split; [reflexivity|]. split; cbn; auto; lia.
    + destruct ((400 <=? status_code resp) && (status_code resp <? 600))%bool; cbn.
      * rewrite counter_inc_1. cbn.
        eexists; split; [reflexivity|]. split; cbn; auto; try lia.
        intros k Hk. by rewrite lookup_insert_ne.
      * eexists; split; [reflexivity|]. split; cbn; auto; lia.
  - rewrite counter_inc_1. cbn.
    eexists; split; [reflexivity|]. split; cbn; auto; try lia.
    intros k Hk. by rewrite lookup_insert_ne.
Qed.
End RequestRuns.

(** ** Tuners *)

Lemma in_use_or_free (tuners : list Tuner) :
  (count_in_use tuners + count_free tuners = length tuners)%nat.
Proof.
  unfold count_in_use, count_free.
  induction tuners as [|t tuners IH]; [reflexivity|].
  cbn. destruct (Ultimate.tuner_is_in_use t); cbn; lia.
Qed.

Lemma tuner_loop_counts (tuners : list Tuner) :
  forall (in_use available : Z) (w : Ultimate.state),
  exists w',
    for_fold tuners Ultimate.tuner_body (in_use, available) w =
    (Return (in_use + Z.of_nat (count_in_use tuners),
             available + Z.of_nat (count_free tuners)), w').
Proof.
  unfold count_in_use, count_free.
  induction tuners as [|t tuners IH]; intros in_use available w.
  - cbn. rewrite !Z.add_0_r. by eexists.
  - cbn [for_fold]. unfold bind at 1, Ultimate.tuner_body at 1.
    unfold bind at 1, gauge_set at 1. cbn [ret List.filter].
    destruct (Ultimate.tuner_is_in_use t); cbn [negb length].
    + edestruct IH as [w' Hw']. rewrite Hw'.
      eexists. f_equal. f_equal. f_equal; lia.
    + edestruct IH as [w' Hw']. rewrite Hw'.
      eexists. f_equal. f_equal. f_equal; lia.
Qed.

Lemma of_nat_add (n m : nat) : (of_nat n + of_nat m)%Qc = of_nat (n + m).
Proof. unfold of_nat. by rewrite <- Z2Qc_inj_add, Nat2Z.inj_add. Qed.

(** C9.  When /LiveTv/Tuners delivers a non-empty list, [collect_tuners]
    returns normally; every tuner is counted once, as in use or as
    available, so the two gauges add up to [tuners_total], and the
    utilization gauge is in_use / total * 100. *)
Theorem tuner_gauges_partition (E : Env) (w : Ultimate.state)
  (tuners : list Tuner) :
  delivered (livetv_tuners E (length (sent w)) []) = Some (TunerList tuners) ->
  tuners <> [] ->
  exists w',
    Ultimate.collect_tuners E w = (Return tt, w') /\
    gauges w' !! (Ultimate.tuners_in_use, []) = Some (of_nat (count_in_use tuners)) /\
    gauges w' !! (Ultimate.tuners_available, []) = Some (of_nat (count_free tuners)) /\
    gauges w' !! (Ultimate.tuners_total, []) = Some (of_nat (length tuners)) /\
    (of_nat (count_in_use tuners) + of_nat (count_free tuners))%Qc =
      of_nat (length tuners) /\
    gauges w' !! (Ultimate.tuner_utilization, []) =
      Some (of_nat (count_in_use tuners) / of_nat (length tuners) * Qc_of_Z 100)%Qc.
Proof.
  intros Hresp Hne.
  unfold Ultimate.collect_tuners.
  destruct (ultimate_make_request_runs E "/LiveTv/Tuners" [] (livetv_tuners E) w)
    as (w1 & Hreq & _).
  unfold bind at 1. rewrite Hreq, Hresp.
  destruct tuners as [|t tuners]; [done|].
  cbn [truthy truthy_option truthy_TunersPayload truthy_list negb orb
       from_option Ultimate.isinstance_list].
  unfold bind at 1. cbn [deref ret Ultimate.as_list].
  destruct (tuner_loop_counts (t :: tuners) 0 0 w1) as (w2 & Hloop).
  unfold bind at 1. rewrite Hloop. rewrite !Z.add_0_l.
  assert (Hpos : (0 <? Z.of_nat (length (t :: tuners))) = true)
    by (apply Z.ltb_lt; cbn [length]; lia).
  rewrite Hpos.
  eexists. split; [reflexivity|].
  cbn -[length count_in_use count_free].
  repeat split.
  - rewrite !lookup_insert_ne by discriminate. by rewrite lookup_insert_eq.
  - rewrite !lookup_insert_ne by discriminate. by rewrite lookup_insert_eq.
  - rewrite !lookup_insert_ne by discriminate. by rewrite lookup_insert_eq.
  - by rewrite of_nat_add, in_use_or_free.
  - by rewrite lookup_insert_eq.
Qed.

(** ** The EPG days-available probe *)




Lemma tuner_gauges_partition_witness :
  exists w',
    Ultimate.collect_tuners tuners_online Ultimate.boot = (Return tt, w') /\
    gauges w' !! (Ultimate.tuners_in_use, []) = Some (of_nat (count_in_use three_tuners)) /\
    gauges w' !! (Ultimate.tuners_available, []) = Some (of_nat (count_free three_tuners)) /\
    gauges w' !! (Ultimate.tuners_total, []) = Some (of_nat (length three_tuners)) /\
    (of_nat (count_in_use three_tuners) + of_nat (count_free three_tuners))%Qc =
      of_nat (length three_tuners) /\
    gauges w' !! (Ultimate.tuner_utilization, []) =
      Some (of_nat (count_in_use three_tuners) / of_nat (length three_tuners) * Qc_of_Z 100)%Qc.
Proof.
  apply (tuner_gauges_partition tuners_online Ultimate.boot three_tuners).
  - reflexivity.
  - discriminate.
Defined.

Example three_tuners_counted :
  count_in_use three_tuners = 2%nat /\ count_free three_tuners = 1%nat.
Proof. split; reflexivity. Qed.

(** ** One failed request and the rest of the cycle *)

(** C1 (the code departs from it).  On a healthy server the cycle reaches the
    EPG section: six guide requests, and [epg_days_available] is 3.  When
    only the request for the recordings in progress times out,
    [collect_recordings] sets the storage gauge and then raises on its log
    line ([active] is [None]); [collect_all_metrics] catches the exception,
    so no guide request is ever sent, the EPG gauges stay unset and
    [server_up] is put to 0 although the server answered. *)
Lemma failed_recordings_request_skips_epg :
  let good := snd (Ultimate.collect_all_metrics healthy Ultimate.boot) in
  let bad := snd (Ultimate.collect_all_metrics in_progress_times_out Ultimate.boot) in
  length (List.filter is_programs_request (sent good)) = 6%nat /\
  gauges good !! (Ultimate.epg_days_available, []) = Some (Qc_of_Z 3) /\
  gauges good !! (Ultimate.server_up, []) = Some (Qc_of_Z 1) /\
  fst (Ultimate.collect_recordings in_progress_times_out
         (snd ((Ultimate.collect_server_info in_progress_times_out ;;;
                Ultimate.collect_channels in_progress_times_out ;;;
                Ultimate.collect_sessions in_progress_times_out ;;;
                Ultimate.collect_tuners in_progress_times_out) Ultimate.boot)))
    = Raise AttributeError /\
  List.filter is_programs_request (sent bad) = [] /\
  gauges bad !! (Ultimate.recording_storage_gb, []) = Some (Qc_of_Z 1) /\
  gauges bad !! (Ultimate.epg_days_available, []) = None /\
  gauges bad !! (Ultimate.epg_programs_today, []) = None /\
  gauges bad !! (Ultimate.upcoming_programs, []) = None /\
  gauges bad !! (Ultimate.server_up, []) = Some (Qc_of_Z 0).
Proof.
  cbv zeta.
  split; [vm_compute; reflexivity|].
  split; [apply (bool_decide_unpack _); vm_compute; exact I|].
  split; [apply (bool_decide_unpack _); vm_compute; exact I|].
  split; [vm_compute; reflexivity|].
  split; [vm_compute; reflexivity|].
  split; [apply (bool_decide_unpack _); vm_compute; exact I|].
  split; [vm_compute; reflexivity|].
  split; [vm_compute; reflexivity|].
  split; [vm_compute; reflexivity|].
  apply (bool_decide_unpack _); vm_compute; exact I.
Qed.

(** ** A cycle that finds no session *)

(** C4 (the code departs from it).  The first cycle sees two streaming
    sessions, one of them transcoding; the second receives the empty list.
    [if not sessions: return] takes the empty list for a failed request, so
    the fixed and the ultimate exporter leave their gauges at the values of
    the first cycle.  The debug exporter, which tests [sessions is None],
    puts them to 0. *)
Lemma empty_session_list_leaves_gauges_stale :
  let f1 := snd (Fixed.collect_sessions last_viewer_leaves Fixed.boot) in
  let f2 := snd (Fixed.collect_sessions last_viewer_leaves f1) in
  let u1 := snd (Ultimate.collect_sessions last_viewer_leaves Ultimate.boot) in
  let u2 := snd (Ultimate.collect_sessions last_viewer_leaves u1) in
  let d1 := snd (Debug.collect_sessions last_viewer_leaves Debug.boot) in
  let d2 := snd (Debug.collect_sessions last_viewer_leaves d1) in
  delivered (sessions last_viewer_leaves (length (sent f1)) []) = Some [] /\
  (gauges f2 !! (Fixed.active_streams, []) = Some (Qc_of_Z 2) /\
   gauges f2 !! (Fixed.active_transcodes, []) = Some (Qc_of_Z 1) /\
   gauges f2 !! (Fixed.total_bandwidth, []) = Some (Qc_of_Z 8000000)) /\
  (gauges u2 !! (Ultimate.streams_active, []) = Some (Qc_of_Z 1) /\
   gauges u2 !! (Ultimate.transcoding_active, []) = Some (Qc_of_Z 1) /\
   gauges u2 !! (Ultimate.stream_bandwidth_total, []) = Some (Qc_of_Z 5)) /\
  (gauges d1 !! (Debug.active_streams, []) = Some (Qc_of_Z 2) /\
   gauges d2 !! (Debug.active_streams, []) = Some (Qc_of_Z 0) /\
   gauges d2 !! (Debug.active_transcodes, []) = Some (Qc_of_Z 0) /\
   gauges d2 !! (Debug.total_bandwidth, []) = Some (Qc_of_Z 0)).
Proof.
  cbv zeta. split; [reflexivity|].
  repeat split; apply (bool_decide_unpack _); vm_compute; exact I.
Qed.

(** ** parse_emby_datetime *)

(** Case analysis on the next call of the library parser in the goal. *)
Ltac case_fromisoformat :=
  match goal with
  | |- context [fromisoformat ?E ?x] => destruct (fromisoformat E x)
  end.

Section ParserTotal.
Variable E : Env.
Context {W : Type}.

Lemma standard_parse_outcome (date_string : string) (w : W) :
  raises_only_ValueError E ->
  (exists d, standard_parse E date_string w = (Return (Some d), w)) \/
  standard_parse E date_string w = (Raise ValueError, w).
Proof.
  intros Hlib. unfold standard_parse, bind, lift, ret.
  destruct (endswith_Z date_string).
  - destruct (fromisoformat E (replace_Z date_string)) as [d|e] eqn:Hd.
    + left. by exists d.
    + right. by rewrite (Hlib _ _ Hd).
  - destruct (fromisoformat E date_string) as [d|e] eqn:Hd.
    + left. by exists d.
    + right. by rewrite (Hlib _ _ Hd).
Qed.

(** Whatever happens under [except Exception], the caller gets a value. *)
Lemma guarded_returns (body : M W (option datetime)) (w : W) :
  snd (body w) = w ->
  exists r, try_except body (fun _ => ret None) w = (Return r, w).
Proof.
  intros Hw. unfold try_except, ret.
  destruct (body w) as [[r|e] w'] eqn:Hb; cbn in Hw; subst w'; by eexists.
Qed.

Lemma truncated_parse_stateless (date_string : string)
  (otherwise : M W (option datetime)) (w : W) :
  snd (otherwise w) = w ->
  snd (truncated_parse E date_string otherwise w) = w.
Proof.
  intros Hw. unfold truncated_parse, bind, lift, ret.
  destruct (re_match date_string) as [[[base_time microseconds] group3]|]; [|done].
  by case_fromisoformat.
Qed.

Lemma fixed_fallback_stateless (date_string : string) (w : W) :
  snd ((if has_char "." date_string then
          date_part <- index (split_on "." date_string) 0 ;;
          tz_part <-
            (if has_char "+" date_string then
               tz <- index (split_on "+" date_string) 1 ;;
               ret ("+" ++ tz)
             else if has_char "Z" date_string then ret "+00:00"
             else ret "") ;;
          d <- lift (fromisoformat E (date_part ++ tz_part)) ;;
          ret (Some d)
        else ret None) w) = w.
Proof.
  unfold bind, lift, ret, index, raise.
  destruct (has_char "." date_string); [|done].
  destruct (split_on "." date_string !! 0%nat); [|done].
  destruct (has_char "+" date_string).
  - destruct (split_on "+" date_string !! 1%nat); [|done].
    cbn. by case_fromisoformat.
  - destruct (has_char "Z" date_string); cbn; by case_fromisoformat.
Qed.
End ParserTotal.

(** C7.  Provided [datetime.fromisoformat] raises nothing but ValueError on a
    string, both variants of [parse_emby_datetime] return, for every input:
    a datetime or [None], with the state untouched.  A missing or empty
    input returns [None] at once. *)
Theorem parse_emby_datetime_never_raises (E : Env) (W : Type) (w : W)
  (date_string : option string) :
  raises_only_ValueError E ->
  (exists r, parse_emby_datetime E date_string w = (Return r, w)) /\
  (exists r, parse_emby_datetime_fixed E date_string w = (Return r, w)) /\
  parse_emby_datetime E (Some "") w = (Return None, w) /\
  parse_emby_datetime_fixed E (Some "") w = (Return None, w) /\
  parse_emby_datetime E None w = (Return None, w) /\
  parse_emby_datetime_fixed E None w = (Return None, w).
Proof.
  intros Hlib. repeat split; try reflexivity.
  - unfold parse_emby_datetime.
    destruct (truthy date_string); cbn [negb]; [|by eexists].
    unfold try_catch.
    destruct (standard_parse_outcome E (default "" date_string) w Hlib)
      as [[d ->]| ->]; [by eexists|].
    cbn [is_ValueError]. apply guarded_returns.
    by apply truncated_parse_stateless.
  - unfold parse_emby_datetime_fixed.
    destruct (truthy date_string); cbn [negb]; [|by eexists].
    unfold try_catch.
    destruct (standard_parse_outcome E (default "" date_string) w Hlib)
      as [[d ->]| ->]; [by eexists|].
    cbn [is_ValueError]. apply guarded_returns.
    apply truncated_parse_stateless, fixed_fallback_stateless.
Qed.

Lemma strict_parser_raises_only_ValueError : raises_only_ValueError strict_parser.
Proof.
  intros s e. cbn.
  destruct (String.eqb s _); congruence.
Qed.

Lemma parse_emby_datetime_never_raises_witness :
  (exists r, parse_emby_datetime strict_parser (Some "yesterday") tt = (Return r, tt)) /\
  (exists r, parse_emby_datetime_fixed strict_parser (Some "yesterday") tt = (Return r, tt)).
Proof.
  pose proof (parse_emby_datetime_never_raises strict_parser unit tt
                (Some "yesterday") strict_parser_raises_only_ValueError)
    as (H1 & H2 & _).
  split; [exact H1 | exact H2].
Defined.

(** *** The regular expression on a well-formed timestamp *)

Lemma append_cons (x : ascii) (a b : string) :
  String x a ++ b = String x (a ++ b).
Proof. reflexivity. Qed.

Lemma append_assoc (a b c : string) : (a ++ b) ++ c = a ++ (b ++ c).
Proof. induction a as [|x a IH]; [done|]. by rewrite !append_cons, IH. Qed.

Lemma match_atoms_app (p : list atom) :
  forall (s m rest tail : string),
    match_atoms p s = Some (m, rest) ->
    match_atoms p (s ++ tail) = Some (m, rest ++ tail).
Proof.
  induction p as [|a p IH]; intros s m rest tail H; cbn in H.
  - by inversion H.
  - destruct s as [|c s]; [done|]. rewrite append_cons. cbn.
    destruct (atom_matches a c); [|done].
    destruct (match_atoms p s) as [[m' rest']|] eqn:Hm; [|done].
    inversion H; subst. by rewrite (IH _ _ _ tail Hm).
Qed.

Lemma fully_matches_app (p : list atom) (s tail : string) :
  fully_matches p s -> match_atoms p (s ++ tail) = Some (s, tail).
Proof. intros H. by rewrite (match_atoms_app p s s "" tail H). Qed.

Lemma skip_digits_app (digits tail : string) :
  all_digits digits = true ->
  skip_digits tail = tail ->
  skip_digits (digits ++ tail) = tail.
Proof.
  intros Hd Ht. induction digits as [|c digits IH]; [done|].
  cbn in Hd. apply andb_true_iff in Hd as [Hc Hd].
  rewrite append_cons. cbn. rewrite Hc. by apply IH.
Qed.

Lemma match_atoms_head (p : list atom) (a : atom) (c : ascii) (s m rest : string) :
  match_atoms (a :: p) (String c s) = Some (m, rest) -> atom_matches a c = true.
Proof. cbn. by destruct (atom_matches a c). Qed.

Lemma offset_is_kept (offset : string) :
  offset = "Z" \/ fully_matches re_offset offset ->
  skip_digits offset = offset /\ match_timezone offset = Some offset.
Proof.
  intros [->|H]; [by split|].
  unfold match_timezone. rewrite H. split; [|done].
  destruct offset as [|c offset]; [done|].
  apply match_atoms_head in H. cbn in H. cbn.
  destruct (is_digit c) eqn:Hc; [|done].
  apply orb_true_iff in H as [H|H]; apply Ascii.eqb_eq in H; subst c; done.
Qed.

Lemma re_match_long_fraction (base_time six more offset : string) :
  fully_matches re_base_time base_time ->
  fully_matches re_microseconds six ->
  all_digits more = true ->
  offset = "Z" \/ fully_matches re_offset offset ->
  re_match (base_time ++ "." ++ six ++ more ++ offset) =
  Some (base_time, six, Some offset).
Proof.
  intros Hbase Hsix Hmore Hoff. unfold re_match.
  rewrite (fully_matches_app _ _ _ Hbase).
  change ("." ++ six ++ more ++ offset) with (String "." (six ++ more ++ offset)).
  cbn [match_atoms atom_matches]. rewrite Ascii.eqb_refl.
  rewrite (fully_matches_app _ _ _ Hsix).
  destruct (offset_is_kept offset Hoff) as [Hskip Htz].
  by rewrite (skip_digits_app _ _ Hmore Hskip), Htz.
Qed.

Lemma has_no_Z_app (a b : string) :
  has_char "Z" a = false ->
  replace_Z (a ++ b) = a ++ replace_Z b /\
  (b <> "" -> endswith_Z (a ++ b) = endswith_Z b).
Proof.
  induction a as [|c a IH]; intros Ha; [done|].
  cbn in Ha. apply orb_false_iff in Ha as [Hc Ha].
  destruct (IH Ha) as [IH1 IH2].
  rewrite append_cons. cbn [replace_Z endswith_Z]. rewrite Hc, IH1.
  split; [done|]. intros Hb.
  destruct (a ++ b) eqn:Hab; [|by apply IH2].
  destruct a; [|done]. by destruct b.
Qed.

Lemma digits_have_no_Z (s : string) :
  all_digits s = true -> has_char "Z" s = false.
Proof.
  induction s as [|c s IH]; [done|]. cbn. intros H.
  apply andb_true_iff in H as [Hc Hs]. rewrite (IH Hs), orb_false_r.
  destruct (Ascii.eqb_spec c "Z") as [->|]; [done|done].
Qed.

Lemma matched_has_no_Z (p : list atom) :
  Forall (fun a => atom_matches a "Z" = false) p ->
  forall s m rest, match_atoms p s = Some (m, rest) -> has_char "Z" m = false.
Proof.
  induction 1 as [|a p Ha _ IH]; intros s m rest H; cbn in H.
  - by inversion H.
  - destruct s as [|c s]; [done|].
    destruct (atom_matches a c) eqn:Hc; [|done].
    destruct (match_atoms p s) as [[m' rest']|] eqn:Hm; [|done].
    inversion H; subst. cbn. rewrite (IH _ _ _ Hm), orb_false_r.
    destruct (Ascii.eqb_spec c "Z") as [->|]; [congruence|done].
Qed.

Lemma base_time_has_no_Z (s : string) :
  fully_matches re_base_time s -> has_char "Z" s = false /\ s <> "".
Proof.
  intros H. split.
  - eapply (matched_has_no_Z re_base_time); [|exact H].
    repeat constructor.
  - by intros ->.
Qed.

Lemma six_digits_have_no_Z (s : string) :
  fully_matches re_microseconds s -> has_char "Z" s = false.
Proof.
  intros H. eapply (matched_has_no_Z re_microseconds); [|exact H].
  repeat constructor.
Qed.

Lemma offset_does_not_end_with_Z (s : string) :
  fully_matches re_offset s ->
  endswith_Z s = false /\ String.eqb s "Z" = false /\ s <> "".
Proof.
  unfold fully_matches. intros H.
  destruct s as [|c1 [|c2 [|c3 [|c4 [|c5 [|c6 [|c7 s]]]]]]]; cbn in H;
    repeat match type of H with
           | context [if ?b then _ else _] => destruct b eqn:?; try discriminate
           end; try discriminate.
  repeat split; [| |done].
  - cbn. destruct (Ascii.eqb_spec c6 "Z") as [->|]; [|done].
    match goal with
    | H : is_digit "Z" = true |- _ => by vm_compute in H
    end.
  - cbn. by destruct (Ascii.eqb c1 "Z").
Qed.

(** The string the first, standard attempt hands to the library. *)
Lemma standard_attempt (E : Env) (W : Type) (w : W)
  (base_time six more offset : string) :
  fully_matches re_base_time base_time ->
  fully_matches re_microseconds six ->
  all_digits more = true ->
  offset = "Z" \/ fully_matches re_offset offset ->
  standard_parse E (base_time ++ "." ++ six ++ more ++ offset) w =
  (d <- lift (fromisoformat E (base_time ++ "." ++ six ++ more ++ normalized offset)) ;;
   ret (Some d)) w.
Proof.
  intros Hbase Hsix Hmore Hoff. unfold standard_parse.
  destruct (base_time_has_no_Z _ Hbase) as [Hb _].
  pose proof (six_digits_have_no_Z _ Hsix) as Hs.
  pose proof (digits_have_no_Z _ Hmore) as Hm.
  assert (Hdot : has_char "Z" "." = false) by reflexivity.
  destruct Hoff as [->|Hoff].
  - destruct (has_no_Z_app base_time ("." ++ six ++ more ++ "Z") Hb) as [R1 E1].
    destruct (has_no_Z_app "." (six ++ more ++ "Z") Hdot) as [R2 E2].
    destruct (has_no_Z_app six (more ++ "Z") Hs) as [R3 E3].
    destruct (has_no_Z_app more "Z" Hm) as [R4 E4].
    rewrite E1, E2, E3, E4; try done.
    + by rewrite R1, R2, R3, R4.
    + by destruct more.
    + by destruct six.
  - destruct (offset_does_not_end_with_Z _ Hoff) as (Hend & Hneq & Hne).
    destruct (has_no_Z_app base_time ("." ++ six ++ more ++ offset) Hb) as [_ E1].
    destruct (has_no_Z_app "." (six ++ more ++ offset) Hdot) as [_ E2].
    destruct (has_no_Z_app six (more ++ offset) Hs) as [_ E3].
    destruct (has_no_Z_app more offset Hm) as [_ E4].
    rewrite E1, E2, E3, E4, Hend; try done.
    + unfold normalized. by rewrite Hneq.
    + destruct more; [done|done].
    + destruct six; [by destruct more|done].
Qed.

(** C6.  A timestamp made of a well-formed date-time, a fraction of seven or
    more digits ([six] followed by the non-empty [more]) and an offset (Z or
    +-HH:MM) parses to the datetime of the same timestamp with the fraction
    cut to its first six digits, in both variants.  The library parser is
    assumed to accept the cut timestamp, and either to reject the long
    fraction with ValueError (Python up to 3.10) or to cut it itself (Python
    3.11 and later). *)
Theorem long_fraction_is_truncated (E : Env) (W : Type) (w : W)
  (base_time six more offset : string) (d : datetime) :
  fully_matches re_base_time base_time ->
  fully_matches re_microseconds six ->
  all_digits more = true ->
  more <> "" ->
  offset = "Z" \/ fully_matches re_offset offset ->
  fromisoformat E (base_time ++ "." ++ six ++ normalized offset) = Return d ->
  fromisoformat E (base_time ++ "." ++ six ++ more ++ normalized offset)
    = Raise ValueError \/
  fromisoformat E (base_time ++ "." ++ six ++ more ++ normalized offset)
    = Return d ->
  parse_emby_datetime E (Some (base_time ++ "." ++ six ++ more ++ offset)) w
    = (Return (Some d), w) /\
  parse_emby_datetime_fixed E (Some (base_time ++ "." ++ six ++ more ++ offset)) w
    = (Return (Some d), w).
Proof.
  intros Hbase Hsix Hmore Hne Hoff Hcut Hlong.
  assert (Htruthy : truthy (Some (base_time ++ "." ++ six ++ more ++ offset)) = true).
  { destruct (base_time_has_no_Z _ Hbase) as [_ Hb]. by destruct base_time. }
  assert (Hre : forall otherwise,
             truncated_parse E (base_time ++ "." ++ six ++ more ++ offset)
               otherwise w = (Return (Some d), w)).
  { intros otherwise. unfold truncated_parse.
    rewrite (re_match_long_fraction _ _ _ _ Hbase Hsix Hmore Hoff).
    cbv beta zeta iota. cbn [default from_option id]. fold (normalized offset).
    unfold bind, lift, ret. by rewrite Hcut. }
  assert (Hstd : standard_parse E (base_time ++ "." ++ six ++ more ++ offset) w
                 = (Raise ValueError, w) \/
                 standard_parse E (base_time ++ "." ++ six ++ more ++ offset) w
                 = (Return (Some d), w)).
  { rewrite (standard_attempt E W w _ _ _ _ Hbase Hsix Hmore Hoff).
    unfold bind, lift, ret. destruct Hlong as [-> | ->]; auto. }
  unfold parse_emby_datetime, parse_emby_datetime_fixed.
  rewrite Htruthy. cbv beta zeta iota. cbn [negb default from_option id].
  unfold try_catch, try_except.
  destruct Hstd as [-> | ->]; [|done].
  cbn [is_ValueError]. by rewrite !Hre.
Qed.

Lemma long_fraction_is_truncated_witness :
  parse_emby_datetime strict_parser
    (Some "2025-07-20T01:16:29.5706488+00:00") tt = (Return (Some july_20), tt) /\
  parse_emby_datetime_fixed strict_parser
    (Some "2025-07-20T01:16:29.5706488+00:00") tt = (Return (Some july_20), tt).
Proof.
  apply (long_fraction_is_truncated strict_parser unit tt
           "2025-07-20T01:16:29" "570648" "8" "+00:00" july_20).
  - reflexivity.
  - reflexivity.
  - reflexivity.
  - discriminate.
  - right. reflexivity.
  - reflexivity.
  - left. reflexivity.
Defined.

(** Truncation, not rounding: ...29.5706488 is read as ...29.570648. *)
Example seven_digits_are_cut :
  fst (parse_emby_datetime strict_parser
         (Some "2025-07-20T01:16:29.5706488Z") tt) = Return (Some july_20).
Proof. reflexivity. Qed.

(** ** Gauges written in a loop *)

Lemma apply_writes_app (g : gmap series Qc) (ws1 ws2 : list (series * Qc)) :
  apply_writes g (ws1 ++ ws2)%list = apply_writes (apply_writes g ws1) ws2.
Proof. apply foldl_app. Qed.

Lemma apply_writes_untouched (ws : list (series * Qc)) :
  forall (g : gmap series Qc) (k : series),
    k ∉ ws.*1 -> apply_writes g ws !! k = g !! k.
Proof.
  induction ws as [|[k' v] ws IH]; intros g k Hk; [done|].
  cbn in *. apply not_elem_of_cons in Hk as [Hne Hk].
  rewrite (IH _ _ Hk). by rewrite lookup_insert_ne.
Qed.



(** ** Bandwidth *)



(** ** What a computation leaves alone *)

Section Preserves.
Context {W X : Type} (f : W -> X).

Lemma preserves_ret {A} (a : A) : preserves f (ret a).
Proof. by intros w. Qed.

Lemma preserves_raise {A} (e : exn) : preserves f (raise (A:=A) e).
Proof. by intros w. Qed.

Lemma preserves_lift {A} (o : outcome A) : preserves f (lift o).
Proof. by intros w. Qed.

Lemma preserves_bind {A B} (m : M W A) (k : A -> M W B) :
  preserves f m -> (forall a, preserves f (k a)) -> preserves f (bind m k).
Proof.
  intros Hm Hk w. unfold bind. specialize (Hm w).
  destruct (m w) as [[a|e] w1]; cbn in *; [|done].
  by rewrite (Hk a w1).
Qed.

Lemma preserves_try_catch {A} (catches : exn -> bool) (m : M W A)
  (h : exn -> M W A) :
  preserves f m -> (forall e, preserves f (h e)) ->
  preserves f (try_catch catches m h).
Proof.
  intros Hm Hh w. unfold try_catch. specialize (Hm w).
  destruct (m w) as [[a|e] w1]; cbn in *; [done|].
  destruct (catches e); [|done]. by rewrite (Hh e w1).
Qed.

Lemma preserves_try_except {A} (m : M W A) (h : exn -> M W A) :
  preserves f m -> (forall e, preserves f (h e)) ->
  preserves f (try_except m h).
Proof.
  intros Hm Hh w. unfold try_except. specialize (Hm w).
  destruct (m w) as [[a|e] w1]; cbn in *; [done|].
  by rewrite (Hh e w1).
Qed.

Lemma preserves_when (b : bool) (m : M W unit) :
  preserves f m -> preserves f (when b m).
Proof. intros Hm. destruct b; [done|apply preserves_ret]. Qed.

Lemma preserves_for_each {A} (l : list A) (body : A -> M W unit) :
  (forall x, preserves f (body x)) -> preserves f (for_each l body).
Proof.
  intros Hbody. induction l as [|x l IH]; cbn [for_each].
  - apply preserves_ret.
  - apply preserves_bind; [apply Hbody|]. by intros _.
Qed.

Lemma preserves_for_fold {A L} (l : list A) (body : A -> L -> M W L) :
  (forall x acc, preserves f (body x acc)) ->
  forall acc, preserves f (for_fold l body acc).
Proof.
  intros Hbody. induction l as [|x l IH]; intros acc; cbn [for_fold].
  - apply preserves_ret.
  - apply preserves_bind; [apply Hbody|]. apply IH.
Qed.

Lemma preserves_deref {A} (o : option A) : preserves f (deref o).
Proof. destruct o; [apply preserves_ret|apply preserves_raise]. Qed.

Lemma preserves_read_local {A} (o : option A) : preserves f (read_local o).
Proof. destruct o; [apply preserves_ret|apply preserves_raise]. Qed.

Lemma preserves_index {A} (l : list A) (i : nat) : preserves f (index l i).
Proof.
  unfold index. destruct (l !! i); [apply preserves_ret|apply preserves_raise].
Qed.
End Preserves.

Section PreservesWorld.
Context {S X : Type} (f : World S -> X).

Lemma preserves_gauge_set (name : string) (labels : list string) (v : Qc) :
  (forall g w, f (with_gauges g w) = f w) ->
  preserves f (gauge_set name labels v).
Proof. intros H w. apply H. Qed.

Lemma preserves_info_set (name : string) (d : list (string * string)) :
  (forall i w, f (with_infos i w) = f w) ->
  preserves f (info_set name d).
Proof. intros H w. apply H. Qed.

Lemma preserves_observe (name : string) (labels : list string) (v : Qc) :
  (forall o w, f (with_samples o w) = f w) ->
  preserves f (observe name labels v).
Proof. intros H w. apply H. Qed.

Lemma preserves_counter_inc (name : string) (labels : list string) (v : Qc) :
  (forall c w, f (with_counters c w) = f w) ->
  preserves f (counter_inc name labels v).
Proof.
  intros H w. unfold counter_inc. destruct (decide (v < 0)%Qc); [done|apply H].
Qed.

Lemma preserves_get_self : preserves f get_self.
Proof. by intros w. Qed.

Lemma preserves_modify_self (g : S -> S) :
  (forall w, f (with_self (g (self w)) w) = f w) ->
  preserves f (modify_self g).
Proof. intros H w. apply H. Qed.

Lemma preserves_clock_read (E : Env) :
  (forall t w, f (with_ticks t w) = f w) ->
  preserves f (clock_read E).
Proof. intros H w. apply H. Qed.

Lemma preserves_clock_hour (E : Env) :
  (forall t w, f (with_ticks t w) = f w) ->
  preserves f (clock_hour E).
Proof. intros H w. apply H. Qed.

Lemma preserves_session_get {A} (endpoint : string) (ps : params) (r : route A) :
  (forall t w, f (with_sent t w) = f w) ->
  preserves f (session_get endpoint ps r).
Proof.
  intros H w. unfold session_get.
  destruct (r (length (sent w)) ps); apply H.
Qed.

Lemma preserves_raise_for_status {A} (resp : response A) :
  preserves f (raise_for_status resp).
Proof.
  unfold raise_for_status.
  destruct (_ && _)%bool; [apply preserves_raise|apply preserves_ret].
Qed.
End PreservesWorld.

(** Setting a gauge leaves every other series alone. *)
Lemma preserves_other_gauge {S : Type} (k : series) (name : string)
  (labels : list string) (v : Qc) :
  (name, labels) <> k ->
  preserves (fun w : World S => gauges w !! k) (gauge_set name labels v).
Proof. intros H w. cbn. by rewrite lookup_insert_ne. Qed.

(** Incrementing a counter leaves every other counter alone. *)
Lemma preserves_other_counter {S : Type} (k : series) (name : string)
  (labels : list string) (v : Qc) :
  (name, labels) <> k ->
  preserves (fun w : World S => counters w !! k) (counter_inc name labels v).
Proof.
  intros H w. unfold counter_inc. destruct (decide (v < 0)%Qc); [done|].
  cbn. by rewrite lookup_insert_ne.
Qed.

(** Break a computation down to the primitives it is made of. *)
Ltac preserves_step :=
  lazymatch goal with
  | |- preserves _ (ret _) => apply preserves_ret
  | |- preserves _ (raise _) => apply preserves_raise
  | |- preserves _ (lift _) => apply preserves_lift
  | |- preserves _ (deref _) => apply preserves_deref
  | |- preserves _ (read_local _) => apply preserves_read_local
  | |- preserves _ (index _ _) => apply preserves_index
  | |- preserves _ get_self => apply preserves_get_self
  | |- preserves _ (raise_for_status _) => apply preserves_raise_for_status
  | |- preserves _ (bind _ _) => apply preserves_bind; [|intros ?]
  | |- preserves _ (when _ _) => apply preserves_when
  | |- preserves _ (for_each _ _) => apply preserves_for_each; intros ?
  | |- preserves _ (for_fold _ _ _) => apply preserves_for_fold; intros ? ?
  | |- preserves _ (try_catch _ _ _) => apply preserves_try_catch; [|intros ?]
  | |- preserves _ (try_except _ _) => apply preserves_try_except; [|intros ?]
  | |- preserves _ (gauge_set _ _ _) =>
      first [ apply preserves_gauge_set; reflexivity
            | apply preserves_other_gauge; discriminate ]
  | |- preserves _ (counter_inc _ _ _) =>
      first [ apply preserves_counter_inc; reflexivity
            | apply preserves_other_counter; discriminate ]
  | |- preserves _ (info_set _ _) => apply preserves_info_set; reflexivity
  | |- preserves _ (observe _ _ _) => apply preserves_observe; reflexivity
  | |- preserves _ (modify_self _) => apply preserves_modify_self; reflexivity
  | |- preserves _ (clock_read _) => apply preserves_clock_read; reflexivity
  | |- preserves _ (clock_hour _) => apply preserves_clock_hour; reflexivity
  | |- preserves _ (session_get _ _ _) =>
      apply preserves_session_get; reflexivity
  | |- preserves _ (match ?x with _ => _ end) => destruct x
  end.

Ltac preserves_auto := repeat preserves_step.

Lemma publish_sessions_keeps_counters (L : Ultimate.Locals) :
  preserves (fun w : Ultimate.state => counters w) (Ultimate.publish_sessions L).
Proof. unfold Ultimate.publish_sessions, Ultimate.unpack_channel_key. preserves_auto. Qed.

(** ** What a computation is sure to finish *)

Section Returns.
Context {W X : Type} (f : W -> X).

Lemma returns_ret {A} (a : A) : returns_keeping f (ret a).
Proof. intros w. by exists a, w. Qed.

Lemma returns_bind {A B} (m : M W A) (k : A -> M W B) :
  returns_keeping f m -> (forall a, returns_keeping f (k a)) ->
  returns_keeping f (bind m k).
Proof.
  intros Hm Hk w. unfold bind.
  destruct (Hm w) as (a & w1 & -> & H1).
  destruct (Hk a w1) as (b & w2 & -> & H2).
  exists b, w2. split; [done|congruence].
Qed.

Lemma returns_when (b : bool) (m : M W unit) :
  returns_keeping f m -> returns_keeping f (when b m).
Proof. intros Hm. destruct b; [done|apply returns_ret]. Qed.

Lemma returns_for_each {A} (l : list A) (body : A -> M W unit) :
  (forall x, returns_keeping f (body x)) -> returns_keeping f (for_each l body).
Proof.
  intros Hbody. induction l as [|x l IH]; cbn [for_each].
  - apply returns_ret.
  - apply returns_bind; [apply Hbody|]. by intros _.
Qed.
End Returns.

Section ReturnsWorld.
Context {S X : Type} (f : World S -> X).

Lemma returns_gauge_set (name : string) (labels : list string) (v : Qc) :
  (forall g w, f (with_gauges g w) = f w) ->
  returns_keeping f (gauge_set name labels v).
Proof. intros H w. eexists _, _. split; [reflexivity|apply H]. Qed.

Lemma returns_info_set (name : string) (d : list (string * string)) :
  (forall i w, f (with_infos i w) = f w) ->
  returns_keeping f (info_set name d).
Proof. intros H w. eexists _, _. split; [reflexivity|apply H]. Qed.

Lemma returns_get_self : returns_keeping f get_self.
Proof. intros w. by eexists _, _. Qed.

Lemma returns_modify_self (g : S -> S) :
  (forall w, f (with_self (g (self w)) w) = f w) ->
  returns_keeping f (modify_self g).
Proof. intros H w. eexists _, _. split; [reflexivity|apply H]. Qed.
End ReturnsWorld.

Ltac returns_step :=
  lazymatch goal with
  | |- returns_keeping _ (ret _) => apply returns_ret
  | |- returns_keeping _ get_self => apply returns_get_self
  | |- returns_keeping _ (bind _ _) => apply returns_bind; [|intros ?]
  | |- returns_keeping _ (when _ _) => apply returns_when
  | |- returns_keeping _ (for_each _ _) => apply returns_for_each; intros ?
  | |- returns_keeping _ (gauge_set _ _ _) =>
      apply returns_gauge_set; reflexivity
  | |- returns_keeping _ (info_set _ _) => apply returns_info_set; reflexivity
  | |- returns_keeping _ (modify_self _) =>
      apply returns_modify_self; reflexivity
  | |- returns_keeping _ (match ?x with _ => _ end) => destruct x
  end.

Ltac returns_auto := repeat returns_step.

(** ** Watch-time and channel-switch tracking *)

Section Tracking.
Variable E : Env.

Lemma track_channel_switches_runs (user channel_name : string)
  (w : Ultimate.state) :
  exists w',
    Ultimate.track_channel_switches E user channel_name w = (Return tt, w') /\
    gauges w' = gauges w /\
    ticks w' = (ticks w + 1)%nat /\
    sent w' = sent w /\
    Ultimate.channel_watch_start (self w') = Ultimate.channel_watch_start (self w) /\
    Ultimate.last_channel_switch (self w') =
      <[user := (channel_name, time_time E (ticks w))]>
        (Ultimate.last_channel_switch (self w)) /\
    counters w' =
      if switched (Ultimate.last_channel_switch (self w)) user channel_name
      then <[(Ultimate.user_channel_switches, [user]) :=
               (counter_value w Ultimate.user_channel_switches [user] + 1)%Qc]>
             (counters w)
      else counters w.
Proof.
  unfold Ultimate.track_channel_switches, switched, bind, get_self.
  destruct (Ultimate.last_channel_switch (self w) !! user) as [[last t]|].
  - destruct (String.eqb last channel_name); cbn [negb when].
    + eexists. by repeat split.
    + rewrite counter_inc_1. eexists. by repeat split.
  - eexists. by repeat split.
Qed.

Lemma track_watch_time_runs (session_id user channel_name : string)
  (w : Ultimate.state) :
  (forall a, Ultimate.channel_watch_start (self w) !! session_id = Some a ->
             (a.2 <= time_time E (ticks w))%Qc) ->
  exists w',
    Ultimate.track_watch_time E session_id user channel_name w = (Return tt, w') /\
    gauges w' = gauges w /\
    sent w' = sent w /\
    Ultimate.last_channel_switch (self w') = Ultimate.last_channel_switch (self w) /\
    match Ultimate.channel_watch_start (self w) !! session_id with
    | None =>
        ticks w' = (ticks w + 1)%nat /\
        counters w' = counters w /\
        Ultimate.channel_watch_start (self w') =
          <[session_id := (user, channel_name, time_time E (ticks w))]>
            (Ultimate.channel_watch_start (self w))
    | Some (_, old_channel, start_time) =>
        Ultimate.channel_watch_start (self w') =
          Ultimate.channel_watch_start (self w) /\
        if String.eqb old_channel channel_name then
          ticks w' = (ticks w + 1)%nat /\
          counters w' =
            <[(Ultimate.user_watch_time, [user; channel_name]) :=
                (counter_value w Ultimate.user_watch_time [user; channel_name]
                 + (time_time E (ticks w) - start_time))%Qc]> (counters w)
        else ticks w' = ticks w /\ counters w' = counters w
    end.
Proof.
  intros Hpast.
  unfold Ultimate.track_watch_time, bind, get_self.
  destruct (Ultimate.channel_watch_start (self w) !! session_id)
    as [[[old_user old_channel] start_time]|] eqn:Hanchor.
  - specialize (Hpast _ eq_refl). cbn in Hpast.
    destruct (String.eqb old_channel channel_name); cbn [when].
    + unfold clock_read at 1, counter_inc at 1. cbn.
      destruct (decide (time_time E (ticks w) - start_time < 0)%Qc) as [Hneg|_].
      * exfalso. revert Hneg. apply Qcle_not_lt.
        by apply Qcle_minus_iff in Hpast.
      * eexists. by repeat split.
    + eexists. split; [reflexivity|]. by destruct w.
  - eexists. by repeat split.
Qed.
End Tracking.

Lemma bind_returns {W A B} (m : M W A) (k : A -> M W B) (w w1 : W) (a : A) :
  m w = (Return a, w1) -> bind m k w = k a w1.
Proof. intros H. unfold bind. by rewrite H. Qed.

Lemma anchors_stay_in_past (E : Env) (s : Session) (T : tracking) :
  clock_monotone E ->
  anchors_in_past E T -> anchors_in_past E (track_session E s T).
Proof.
  intros Hmono. destruct T as [[[cs t] watch_start] last_switch].
  unfold track_session, anchors_in_past.
  destruct (live_session s) as [[[session_id user] channel_name]|]; [|done].
  intros Hpast.
  assert (Hlater : forall n, (t <= n)%nat ->
            map_Forall (fun _ a => (a.2 <= time_time E n)%Qc) watch_start).
  { intros n Hn k a Hk. eapply Qcle_trans; [apply (Hpast k a Hk)|by apply Hmono]. }
  destruct (watch_start !! session_id) as [[[old_user old_channel] start_time]|].
  - destruct (String.eqb old_channel channel_name); apply Hlater; lia.
  - apply map_Forall_insert_2; [|apply Hlater; lia].
    cbn. apply Hmono. lia.
Qed.

Lemma with_gauges_same {S : Type} (w : World S) : with_gauges (gauges w) w = w.
Proof. by destruct w. Qed.

Section SessionStep.
Variable E : Env.

Lemma publish_current_program_returns (channel_name : string)
  (now_playing : NowPlayingItem) :
  returns_keeping (fun w => (tracked w, sent w, gauges w))
    (Ultimate.publish_current_program channel_name now_playing).
Proof. unfold Ultimate.publish_current_program. returns_auto. Qed.

Lemma publish_transcoding_info_runs (s : Session)
  (user channel_name session_id : string) (bw : Qc) (q : list (string * Z))
  (w : Ultimate.state) :
  exists q',
    Ultimate.publish_transcoding_info s user channel_name session_id bw q w =
    (Return ((bw + transcoding_mbps s)%Qc, q'),
     with_gauges
       (apply_writes (gauges w)
          (transcoding_writes s user channel_name session_id)) w).
Proof.
  unfold Ultimate.publish_transcoding_info, transcoding_mbps, transcoding_writes.
  destruct (session_TranscodingInfo s) as [trans_info|].
  - unfold bind, gauge_set, when.
    destruct (0 <? default 0 (Bitrate trans_info));
      destruct (0 <? default 0 (Height trans_info));
      destruct (bool_decide (0 < default 0%Qc (Framerate trans_info))%Qc);
      cbn; rewrite ?Qcplus_0_r, ?with_gauges_same; by eexists.
  - cbn. rewrite Qcplus_0_r, with_gauges_same. by eexists.
Qed.

Lemma session_body_tracks (current_hour : nat) (s : Session)
  (L : Ultimate.Locals) (w : Ultimate.state) :
  clock_monotone E ->
  anchors_in_past E (tracked w) ->
  exists L' w',
    Ultimate.session_body E current_hour s L w = (Return L', w') /\
    tracked w' = track_session E s (tracked w) /\
    sent w' = sent w /\
    gauges w' = apply_writes (gauges w) (session_writes s) /\
    Ultimate.total_bandwidth_mbps L' =
      (Ultimate.total_bandwidth_mbps L + session_mbps s)%Qc.
Proof.
  intros Hmono Hpast.
  unfold Ultimate.session_body, track_session, live_session, session_writes,
    session_mbps, live_session.
  destruct (session_NowPlayingItem s) as [np|];
    [|exists L, w; by rewrite Qcplus_0_r].
  destruct (truthy np && bool_decide (np_Type np = Some "TvChannel"))%bool;
    [|exists L, w; by rewrite Qcplus_0_r].
  set (session_id := default "unknown" (session_Id s)).
  set (user := default "unknown" (session_UserName s)).
  set (channel_name := default "Unknown Channel" (np_Name np)).
  unfold bind at 1, modify_self at 1.
  unfold bind at 1, modify_self at 1.
  match goal with
  | |- context [bind (Ultimate.track_channel_switches _ _ _) _ ?w0] =>
      set (w2 := w0)
  end.
  assert (Hcs2 : counters w2 = counters w) by reflexivity.
  assert (Hticks2 : ticks w2 = ticks w) by reflexivity.
  assert (Hcws2 : Ultimate.channel_watch_start (self w2) =
                  Ultimate.channel_watch_start (self w)) by reflexivity.
  assert (Hlcs2 : Ultimate.last_channel_switch (self w2) =
                  Ultimate.last_channel_switch (self w)) by reflexivity.
  assert (Hs2 : sent w2 = sent w) by reflexivity.
  assert (Hg2 : gauges w2 = gauges w) by reflexivity.
  clearbody w2.
  destruct (track_channel_switches_runs E user channel_name w2)
    as (w3 & Heq3 & Hg3 & Hticks3 & Hsent3 & Hcws3 & Hlcs3 & Hcs3).
  rewrite (bind_returns _ _ _ _ _ Heq3).
  assert (Hpast3 : forall a,
            Ultimate.channel_watch_start (self w3) !! session_id = Some a ->
            (a.2 <= time_time E (ticks w3))%Qc).
  { intros a Ha. rewrite Hcws3, Hcws2 in Ha.
    eapply Qcle_trans; [apply (Hpast _ _ Ha)|]. apply Hmono. lia. }
  destruct (track_watch_time_runs E session_id user channel_name w3 Hpast3)
    as (w4 & Heq4 & Hg4 & Hsent4 & Hlcs4 & Hanchor).
  rewrite (bind_returns _ _ _ _ _ Heq4).
  destruct (publish_current_program_returns channel_name np w4)
    as (u5 & w5 & Heq5 & H5).
  rewrite (bind_returns _ _ _ _ _ Heq5).
  apply pair_equal_spec in H5 as [H5 Hg5].
  apply pair_equal_spec in H5 as [Ht5 Hs5].
  destruct (publish_transcoding_info_runs s user channel_name session_id
              (Ultimate.total_bandwidth_mbps L) (Ultimate.quality_counts L) w5)
    as (q' & Heq6).
  rewrite (bind_returns _ _ _ _ _ Heq6).
  set (paused := default false (from_option IsPaused None (session_PlayState s))).
  assert (Htracked :
    tracked w5 =
    match Ultimate.channel_watch_start (self w) !! session_id with
    | Some (_, old_channel, start_time) =>
        if String.eqb old_channel channel_name
        then
          (<[(Ultimate.user_watch_time, [user; channel_name]) :=
               (reading
                  (if switched (Ultimate.last_channel_switch (self w)) user
                        channel_name
                   then
                     <[(Ultimate.user_channel_switches, [user]) :=
                         (reading (counters w) Ultimate.user_channel_switches
                            [user] + 1)%Qc]> (counters w)
                   else counters w) Ultimate.user_watch_time
                  [user; channel_name] +
                (time_time E (ticks w + 1) - start_time))%Qc]>
             (if switched (Ultimate.last_channel_switch (self w)) user
                   channel_name
              then
                <[(Ultimate.user_channel_switches, [user]) :=
                    (reading (counters w) Ultimate.user_channel_switches [user]
                     + 1)%Qc]> (counters w)
              else counters w),
           (ticks w + 2)%nat, Ultimate.channel_watch_start (self w),
           <[user := (channel_name, time_time E (ticks w))]>
             (Ultimate.last_channel_switch (self w)))
        else
          (if switched (Ultimate.last_channel_switch (self w)) user channel_name
           then
             <[(Ultimate.user_channel_switches, [user]) :=
                 (reading (counters w) Ultimate.user_channel_switches [user]
                  + 1)%Qc]> (counters w)
           else counters w,
           (ticks w + 1)%nat, Ultimate.channel_watch_start (self w),
           <[user := (channel_name, time_time E (ticks w))]>
             (Ultimate.last_channel_switch (self w)))
    | None =>
        (if switched (Ultimate.last_channel_switch (self w)) user channel_name
         then
           <[(Ultimate.user_channel_switches, [user]) :=
               (reading (counters w) Ultimate.user_channel_switches [user]
                + 1)%Qc]> (counters w)
         else counters w,
         (ticks w + 2)%nat,
         <[session_id := (user, channel_name, time_time E (ticks w + 1))]>
           (Ultimate.channel_watch_start (self w)),
         <[user := (channel_name, time_time E (ticks w))]>
           (Ultimate.last_channel_switch (self w)))
    end).
  { rewrite Ht5. unfold tracked.
    rewrite Hlcs4, Hlcs3, Hlcs2.
    unfold counter_value in Hcs3, Hanchor.
    rewrite Hcws3, Hcws2, Hticks3, Hticks2, Hcs3, Hcs2, Hlcs2 in Hanchor.
    rewrite Hticks2. unfold reading.
    replace (ticks w + 1 + 1)%nat with (ticks w + 2)%nat in Hanchor by lia.
    destruct (Ultimate.channel_watch_start (self w) !! session_id)
      as [[[old_user old_channel] start_time]|].
    - destruct Hanchor as [-> Hrest].
      destruct (String.eqb old_channel channel_name);
        by destruct Hrest as [-> ->].
    - by destruct Hanchor as (-> & -> & ->). }
  assert (Hg : gauges w5 = gauges w) by congruence.
  assert (Hs : sent w5 = sent w) by congruence.
  unfold bind at 1, when, gauge_set.
  destruct (negb paused); (eexists _, _; split; [reflexivity|]);
    cbn; rewrite Hg, apply_writes_app;
    (repeat split; [exact Htracked|exact Hs]).
Qed.
End SessionStep.

(** ** The tracked state over a whole session list *)

Lemma anchors_later (E : Env) (T : tracking) (cs : gmap series Qc) (t : nat)
  (last : gmap string (string * Qc)) :
  clock_monotone E ->
  anchors_in_past E T ->
  (tk_ticks T <= t)%nat ->
  anchors_in_past E (cs, t, tk_anchors T, last).
Proof.
  destruct T as [[[cs0 t0] ws] ls]. cbn. intros Hmono Hpast Ht k a Hk.
  eapply Qcle_trans; [apply (Hpast k a Hk)|by apply Hmono].
Qed.

Lemma anchors_stay_in_past_all (E : Env) (l : list Session) :
  clock_monotone E ->
  forall T, anchors_in_past E T -> anchors_in_past E (track_sessions E l T).
Proof.
  intros Hmono. induction l as [|s l IH]; intros T HT; [done|].
  cbn. apply IH. by apply anchors_stay_in_past.
Qed.

Section Loop.
Variable E : Env.
Hypothesis clock_ok : clock_monotone E.

Lemma sessions_loop_tracks (current_hour : nat) (l : list Session) :
  forall (L : Ultimate.Locals) (w : Ultimate.state),
    anchors_in_past E (tracked w) ->
    exists L' w',
      for_fold l (Ultimate.session_body E current_hour) L w = (Return L', w') /\
      tracked w' = track_sessions E l (tracked w) /\
      sent w' = sent w /\
      gauges w' = apply_writes (gauges w) (all_session_writes l) /\
      Ultimate.total_bandwidth_mbps L' =
        (Ultimate.total_bandwidth_mbps L + mbps_total l)%Qc.
Proof.
  induction l as [|s l IH]; intros L w Hpast.
  - exists L, w. cbn. by rewrite Qcplus_0_r.
  - cbn [for_fold].
    destruct (session_body_tracks E current_hour s L w clock_ok Hpast)
      as (L1 & w1 & Heq1 & Ht1 & Hs1 & Hg1 & Hbw1).
    rewrite (bind_returns _ _ _ _ _ Heq1).
    destruct (IH L1 w1) as (L' & w' & Heq & Ht & Hs & Hg & Hbw).
    { rewrite Ht1. by apply anchors_stay_in_past. }
    exists L', w'. split; [done|].
    split; [by rewrite Ht, Ht1|].
    split; [congruence|].
    split.
    + rewrite Hg, Hg1. cbn [all_session_writes]. by rewrite apply_writes_app.
    + rewrite Hbw, Hbw1. cbn [mbps_total]. by rewrite Qcplus_assoc.
Qed.

Lemma publish_sessions_keeps_tracked (L : Ultimate.Locals) :
  preserves tracked (Ultimate.publish_sessions L).
Proof.
  unfold Ultimate.publish_sessions, Ultimate.unpack_channel_key.
  preserves_auto.
Qed.

Lemma ultimate_request_delivers {A : Type} (endpoint : string) (ps : params)
  (r : route A) (w : Ultimate.state) (x : A) :
  delivered (r (length (sent w)) ps) = Some x ->
  exists w',
    Ultimate._make_request E endpoint ps r w = (Return (Some x), w') /\
    gauges w' = gauges w /\
    counters w' = counters w /\
    self w' = self w /\
    ticks w' = (ticks w + 2)%nat.
Proof.
  unfold delivered, Ultimate._make_request, bind, try_catch, clock_read,
    session_get, raise_for_status.
  cbn. destruct (r (length (sent w)) ps) as [resp|]; [|done]. cbn.
  destruct (status_code resp =? 404); [done|]. cbn.
  destruct ((400 <=? status_code resp) && (status_code resp <? 600))%bool; [done|].
  cbn. intros [= ->]. eexists. repeat split. cbn. lia.
Qed.

(** One call of [collect_sessions] on a delivered, non-empty list: the
    request and the hour take three clock readings, the loop tracks every
    session, and what follows the loop leaves the tracked state alone. *)
Lemma collect_sessions_tracks (w : Ultimate.state) (l : list Session) :
  anchors_in_past E (tracked w) ->
  delivered (sessions E (length (sent w)) []) = Some l ->
  l <> [] ->
  tracked (snd (Ultimate.collect_sessions E w)) =
  track_sessions E l
    (counters w, (ticks w + 3)%nat,
     Ultimate.channel_watch_start (self w), Ultimate.last_channel_switch (self w)).
Proof.
  intros Hpast Hresp Hne. unfold Ultimate.collect_sessions.
  destruct (ultimate_request_delivers "/Sessions" [] (sessions E) w l Hresp)
    as (w1 & Heq1 & _ & Hcs1 & Hself1 & Hticks1).
  rewrite (bind_returns _ _ _ _ _ Heq1).
  destruct l as [|s l]; [done|].
  cbn [truthy truthy_option truthy_list negb].
  unfold bind at 1. cbn [deref ret].
  unfold bind at 1, clock_hour at 1.
  match goal with
  | |- context [bind (for_fold ?l0 _ ?L0) _ ?w0] =>
      destruct (sessions_loop_tracks (now_hour E (ticks w1)) l0 L0 w0)
        as (L' & w' & Heq & Ht & Hs & _ & _)
  end.
  { unfold tracked. cbn [counters ticks self with_ticks].
    rewrite Hself1.
    apply (anchors_later E (tracked w)); [done|done|]. cbn. lia. }
  rewrite (bind_returns _ _ _ _ _ Heq).
  rewrite publish_sessions_keeps_tracked, Ht.
  unfold tracked. cbn [counters ticks self with_ticks].
  rewrite Hself1, Hcs1, Hticks1.
  by replace (ticks w + 2 + 1)%nat with (ticks w + 3)%nat by lia.
Qed.
End Loop.

Section TrackingFacts.
Variable E : Env.

Ltac open_tracking T :=
  destruct T as [[[cs t] anchors] last];
  unfold track_session, tk_counters, tk_ticks, tk_anchors, tk_last, reading;
  cbn [fst snd].





(** A Live TV session of [user]: the switch counter moves by one exactly
    when the channel differs from the last one recorded for the user; the
    channel becomes the last one recorded. *)
Lemma track_session_switch (s : Session) (T : tracking)
  (session_id user channel_name : string) :
  live_session s = Some (session_id, user, channel_name) ->
  reading (tk_counters (track_session E s T)) Ultimate.user_channel_switches [user]
  = (reading (tk_counters T) Ultimate.user_channel_switches [user]
     + if switched (tk_last T) user channel_name then 1 else 0)%Qc /\
  tk_last (track_session E s T) !! user =
    Some (channel_name, time_time E (tk_ticks T)).
Proof.
  open_tracking T. intros ->.
  assert (Hcs1 :
    default (Qc_of_Z 0)
      ((if switched last user channel_name
        then <[(Ultimate.user_channel_switches, [user]) :=
                 (default (Qc_of_Z 0)
                    (cs !! (Ultimate.user_channel_switches, [user])) + 1)%Qc]> cs
        else cs) !! (Ultimate.user_channel_switches, [user]))
    = (default (Qc_of_Z 0) (cs !! (Ultimate.user_channel_switches, [user]))
       + if switched last user channel_name then 1 else 0)%Qc).
  { destruct (switched last user channel_name).
    - by rewrite lookup_insert_eq.
    - by rewrite Qcplus_0_r. }
  destruct (anchors !! session_id) as [[[old_user old_channel] start_time]|];
    [destruct (String.eqb old_channel channel_name)|]; cbn [fst snd].
  - rewrite lookup_insert_ne by discriminate. by rewrite Hcs1, lookup_insert_eq.
  - by rewrite Hcs1, lookup_insert_eq.
  - by rewrite Hcs1, lookup_insert_eq.
Qed.

(** Any other session leaves the user's switch counter and last channel
    alone. *)
Lemma track_session_switch_other (s : Session) (T : tracking) (user : string) :
  ~ watched_by user s ->
  reading (tk_counters (track_session E s T)) Ultimate.user_channel_switches [user]
  = reading (tk_counters T) Ultimate.user_channel_switches [user] /\
  tk_last (track_session E s T) !! user = tk_last T !! user.
Proof.
  open_tracking T. intros Hother.
  destruct (live_session s) as [[[session_id user'] channel_name]|] eqn:Hlive;
    [|done].
  assert (Hne : user' <> user).
  { intros ->. apply Hother. by exists session_id, channel_name. }
  assert (Hcs1 :
    (if switched last user' channel_name
     then <[(Ultimate.user_channel_switches, [user']) :=
              (default (Qc_of_Z 0)
                 (cs !! (Ultimate.user_channel_switches, [user'])) + 1)%Qc]> cs
     else cs) !! (Ultimate.user_channel_switches, [user])
    = cs !! (Ultimate.user_channel_switches, [user])).
  { destruct (switched last user' channel_name); [|done].
    rewrite lookup_insert_ne; [done|congruence]. }
  destruct (anchors !! session_id) as [[[old_user old_channel] start_time]|];
    [destruct (String.eqb old_channel channel_name)|]; cbn [fst snd].
  - rewrite lookup_insert_ne by discriminate.
    by rewrite Hcs1, lookup_insert_ne.
  - by rewrite Hcs1, lookup_insert_ne.
  - by rewrite Hcs1, lookup_insert_ne.
Qed.


End TrackingFacts.

Section TrackingLists.
Variable E : Env.

Lemma watched_by_dec (user : string) (s : Session) :
  {watched_by user s} + {~ watched_by user s}.
Proof.
  unfold watched_by.
  destruct (live_session s) as [[[session_id user'] channel_name]|].
  - destruct (decide (user' = user)) as [->|Hne].
    + left. by exists session_id, channel_name.
    + right. intros (i & c & [= _ Hu _]). done.
  - right. by intros (i & c & ?).
Qed.

Lemma track_sessions_cons (s : Session) (l : list Session) (T : tracking) :
  track_sessions E (s :: l) T = track_sessions E l (track_session E s T).
Proof. reflexivity. Qed.



Lemma switch_step_grows (T : tracking) (user channel_name : string) :
  (reading (tk_counters T) Ultimate.user_channel_switches [user]
   <= reading (tk_counters T) Ultimate.user_channel_switches [user]
      + if switched (tk_last T) user channel_name then 1 else 0)%Qc.
Proof.
  rewrite <- (Qcplus_0_r (reading _ _ _)) at 1.
  apply Qcplus_le_mono_l. by destruct (switched _ _ _).
Qed.

Lemma track_sessions_switch_grows (user : string) (l : list Session) :
  forall T,
    (reading (tk_counters T) Ultimate.user_channel_switches [user]
     <= reading (tk_counters (track_sessions E l T))
          Ultimate.user_channel_switches [user])%Qc.
Proof.
  induction l as [|s l IH]; intros T; [apply Qcle_refl|]. rewrite track_sessions_cons.
  eapply Qcle_trans; [|apply IH].
  destruct (watched_by_dec user s) as [(i & c & Hlive)|Hother].
  - destruct (track_session_switch E s T i user c Hlive) as [-> _].
    apply switch_step_grows.
  - destruct (track_session_switch_other E s T user Hother) as [-> _].
    apply Qcle_refl.
Qed.

(** Once a channel is recorded for the user, a later session of the user on
    another channel moves the counter. *)
Lemma switch_after_last (user : string) (l : list Session) :
  forall (T : tracking) (c : string) (t : Qc) (s : Session) (i c' : string),
    tk_last T !! user = Some (c, t) ->
    s ∈ l ->
    live_session s = Some (i, user, c') ->
    c' <> c ->
    (reading (tk_counters T) Ultimate.user_channel_switches [user] + 1
     <= reading (tk_counters (track_sessions E l T))
          Ultimate.user_channel_switches [user])%Qc.
Proof.
  induction l as [|h l IH]; intros T c t s i c' Hlast Hin Hlive Hne.
  - by apply elem_of_nil in Hin.
  - rewrite track_sessions_cons. destruct (watched_by_dec user h) as [(ih & ch & Hh)|Hother].
    + destruct (track_session_switch E h T ih user ch Hh) as [Hcount Hlast'].
      destruct (decide (ch = c)) as [->|Hch].
      * (* the head is on the recorded channel: look further *)
        apply elem_of_cons in Hin as [->|Hin]; [congruence|].
        assert (Hsame : switched (tk_last T) user c = false).
        { unfold switched. by rewrite Hlast, String.eqb_refl. }
        rewrite Hsame, Qcplus_0_r in Hcount. rewrite <- Hcount.
        by eapply IH.
      * (* the head itself is a switch *)
        assert (Hsw : switched (tk_last T) user ch = true).
        { unfold switched. rewrite Hlast.
          by destruct (String.eqb_spec c ch) as [->|]. }
        rewrite Hsw in Hcount. rewrite <- Hcount.
        apply track_sessions_switch_grows.
    + destruct (track_session_switch_other E h T user Hother) as [Hcount Hlast'].
      rewrite <- Hcount.
      apply elem_of_cons in Hin as [->|Hin].
      * exfalso. apply Hother. by exists i, c'.
      * eapply IH; [by rewrite Hlast', Hlast|done..].
Qed.

(** Two Live TV sessions of one user on two channels: whatever was recorded
    before, the switch counter moves in the cycle. *)
Lemma two_channels_switch (user : string) (l : list Session) :
  forall (T : tracking) (s1 s2 : Session) (i1 i2 c1 c2 : string),
    s1 ∈ l -> s2 ∈ l ->
    live_session s1 = Some (i1, user, c1) ->
    live_session s2 = Some (i2, user, c2) ->
    c1 <> c2 ->
    (reading (tk_counters T) Ultimate.user_channel_switches [user] + 1
     <= reading (tk_counters (track_sessions E l T))
          Ultimate.user_channel_switches [user])%Qc.
Proof.
  induction l as [|h l IH]; intros T s1 s2 i1 i2 c1 c2 Hin1 Hin2 H1 H2 Hne.
  - by apply elem_of_nil in Hin1.
  - rewrite track_sessions_cons. destruct (watched_by_dec user h) as [(ih & ch & Hh)|Hother].
    + destruct (track_session_switch E h T ih user ch Hh) as [Hcount Hlast'].
      eapply Qcle_trans.
      { apply Qcplus_le_mono_r. apply (switch_step_grows T user ch). }
      rewrite <- Hcount.
      destruct (decide (c1 = ch)) as [->|Hc1].
      * apply elem_of_cons in Hin2 as [->|Hin2]; [congruence|].
        eapply switch_after_last; [exact Hlast'|exact Hin2|exact H2|done].
      * apply elem_of_cons in Hin1 as [->|Hin1]; [congruence|].
        eapply switch_after_last; [exact Hlast'|exact Hin1|exact H1|done].
    + destruct (track_session_switch_other E h T user Hother) as [Hcount _].
      rewrite <- Hcount.
      apply elem_of_cons in Hin1 as [->|Hin1];
        [exfalso; apply Hother; by exists i1, c1|].
      apply elem_of_cons in Hin2 as [->|Hin2];
        [exfalso; apply Hother; by exists i2, c2|].
      exact (IH _ s1 s2 i1 i2 c1 c2 Hin1 Hin2 H1 H2 Hne).
Qed.
End TrackingLists.

Section TrackingOne.
Variable E : Env.





End TrackingOne.

(** ** The anchors of every reachable state lie in the past *)

Section Maintains.
Context {W : Type} (P : W -> Prop).

Lemma maintains_ret {A} (a : A) : maintains P (ret a).
Proof. by intros w. Qed.

Lemma maintains_bind {A B} (m : M W A) (k : A -> M W B) :
  maintains P m -> (forall a, maintains P (k a)) -> maintains P (bind m k).
Proof.
  intros Hm Hk w Hw. unfold bind. specialize (Hm w Hw).
  destruct (m w) as [[a|e] w1]; cbn in *; [|done].
  by apply Hk.
Qed.

Lemma maintains_try_catch {A} (catches : exn -> bool) (m : M W A)
  (h : exn -> M W A) :
  maintains P m -> (forall e, maintains P (h e)) ->
  maintains P (try_catch catches m h).
Proof.
  intros Hm Hh w Hw. unfold try_catch. specialize (Hm w Hw).
  destruct (m w) as [[a|e] w1]; cbn in *; [done|].
  destruct (catches e); [|done]. by apply Hh.
Qed.

Lemma maintains_try_except {A} (m : M W A) (h : exn -> M W A) :
  maintains P m -> (forall e, maintains P (h e)) ->
  maintains P (try_except m h).
Proof.
  intros Hm Hh w Hw. unfold try_except. specialize (Hm w Hw).
  destruct (m w) as [[a|e] w1]; cbn in *; [done|].
  by apply Hh.
Qed.

Lemma maintains_when (b : bool) (m : M W unit) :
  maintains P m -> maintains P (when b m).
Proof. intros Hm. destruct b; [done|apply maintains_ret]. Qed.

Lemma maintains_for_each {A} (l : list A) (body : A -> M W unit) :
  (forall x, maintains P (body x)) -> maintains P (for_each l body).
Proof.
  intros Hbody. induction l as [|x l IH]; cbn [for_each].
  - apply maintains_ret.
  - apply maintains_bind; [apply Hbody|]. by intros _.
Qed.

Lemma maintains_for_fold {A L} (l : list A) (body : A -> L -> M W L) :
  (forall x acc, maintains P (body x acc)) ->
  forall acc, maintains P (for_fold l body acc).
Proof.
  intros Hbody. induction l as [|x l IH]; intros acc; cbn [for_fold].
  - apply maintains_ret.
  - apply maintains_bind; [apply Hbody|]. apply IH.
Qed.

(** An invariant that only reads [f] is kept by whatever leaves [f] alone. *)
Lemma maintains_frame {A X} (f : W -> X) (m : M W A) :
  (forall w w', f w' = f w -> P w -> P w') ->
  preserves f m -> maintains P m.
Proof. intros Hf Hm w Hw. by apply (Hf w), Hw. Qed.
End Maintains.

Lemma parse_emby_datetime_preserves {W X : Type} (f : W -> X) (E : Env)
  (date_string : option string) :
  preserves f (parse_emby_datetime E date_string).
Proof.
  unfold parse_emby_datetime, standard_parse, truncated_parse.
  preserves_auto.
Qed.

Lemma boot_anchors_in_past (E : Env) : anchors_in_past E (tracked Ultimate.boot).
Proof. apply map_Forall_empty. Qed.

Section Anchored.
Variable E : Env.
Hypothesis clock_ok : clock_monotone E.

Lemma anchored_frame {A} (m : M Ultimate.state A) :
  preserves clock_and_anchors m -> maintains (anchored E) m.
Proof.
  apply maintains_frame. intros w w' [= Ht Ha].
  unfold anchored, tracked, anchors_in_past. by rewrite Ht, Ha.
Qed.

Lemma anchored_later (w w' : Ultimate.state) :
  (ticks w <= ticks w')%nat ->
  Ultimate.channel_watch_start (self w') = Ultimate.channel_watch_start (self w) ->
  anchored E w -> anchored E w'.
Proof.
  intros Ht Ha Hw. unfold anchored, tracked. rewrite Ha.
  by apply (anchors_later E (tracked w)).
Qed.

Lemma anchored_clock_read : maintains (anchored E) (clock_read E).
Proof. intros w. apply anchored_later; cbn; [lia|done]. Qed.

Lemma anchored_clock_hour : maintains (anchored E) (clock_hour E).
Proof. intros w. apply anchored_later; cbn; [lia|done]. Qed.

(** Break a computation down to clock readings and to pieces that touch
    neither the clock nor the anchors. *)
Ltac anchored_step :=
  lazymatch goal with
  | |- maintains _ (ret _) => apply maintains_ret
  | |- maintains _ (bind _ _) => apply maintains_bind; [|intros ?]
  | |- maintains _ (when _ _) => apply maintains_when
  | |- maintains _ (for_each _ _) => apply maintains_for_each; intros ?
  | |- maintains _ (for_fold _ _ _) => apply maintains_for_fold; intros ? ?
  | |- maintains _ (try_catch _ _ _) => apply maintains_try_catch; [|intros ?]
  | |- maintains _ (try_except _ _) => apply maintains_try_except; [|intros ?]
  | |- maintains _ (clock_read _) => apply anchored_clock_read
  | |- maintains _ (clock_hour _) => apply anchored_clock_hour
  | |- maintains _ (parse_emby_datetime _ _) =>
      apply anchored_frame, parse_emby_datetime_preserves
  | |- maintains _ (Ultimate._make_request _ _ _ _) =>
      unfold Ultimate._make_request
  | |- maintains _ (match ?x with _ => _ end) => destruct x
  | |- maintains _ _ => apply anchored_frame; preserves_auto
  end.

Ltac anchored_auto := repeat anchored_step.

Lemma collect_server_info_anchored :
  maintains (anchored E) (Ultimate.collect_server_info E).
Proof.
  unfold Ultimate.collect_server_info. anchored_auto.
Qed.

Lemma collect_channels_anchored :
  maintains (anchored E) (Ultimate.collect_channels E).
Proof.
  unfold Ultimate.collect_channels. anchored_auto.
Qed.

Lemma session_body_anchored (current_hour : nat) (s : Session)
  (L : Ultimate.Locals) :
  maintains (anchored E) (Ultimate.session_body E current_hour s L).
Proof.
  intros w Hw.
  destruct (session_body_tracks E current_hour s L w clock_ok Hw)
    as (L' & w' & -> & Ht & _).
  unfold anchored. cbn [snd]. rewrite Ht. by apply anchors_stay_in_past.
Qed.

Lemma collect_sessions_anchored :
  maintains (anchored E) (Ultimate.collect_sessions E).
Proof.
  unfold Ultimate.collect_sessions.
  apply maintains_bind; [anchored_auto|intros sessions].
  destruct (negb (truthy sessions)); [apply maintains_ret|].
  apply maintains_bind; [anchored_auto|intros l].
  apply maintains_bind; [anchored_auto|intros current_hour].
  apply maintains_bind.
  - apply maintains_for_fold. intros s L. apply session_body_anchored.
  - intros L. apply maintains_frame with (f := tracked);
      [intros w w' Hw'; unfold anchored; by rewrite Hw'|].
    apply publish_sessions_keeps_tracked.
Qed.

Lemma collect_tuners_anchored :
  maintains (anchored E) (Ultimate.collect_tuners E).
Proof.
  unfold Ultimate.collect_tuners, Ultimate.tuner_body. anchored_auto.
Qed.

Lemma collect_recordings_anchored :
  maintains (anchored E) (Ultimate.collect_recordings E).
Proof.
  unfold Ultimate.collect_recordings. anchored_auto.
Qed.

Lemma probe_days_anchored (max_days : Z) (remaining : nat) :
  forall days, maintains (anchored E) (Ultimate.probe_days E max_days remaining days).
Proof.
  induction remaining as [|remaining IH]; intros days; cbn [Ultimate.probe_days].
  - anchored_auto.
  - apply maintains_bind; [anchored_auto|intros future_programs].
    destruct (Ultimate.no_programs future_programs); [anchored_auto|apply IH].
Qed.

Lemma collect_epg_anchored :
  maintains (anchored E) (Ultimate.collect_epg E).
Proof.
  unfold Ultimate.collect_epg, Ultimate.program_body.
  repeat lazymatch goal with
  | |- maintains _ (Ultimate.probe_days _ _ _ _) => apply probe_days_anchored
  | |- _ => anchored_step
  end.
Qed.

(** One collection cycle keeps every anchor in the past. *)
Lemma collect_all_metrics_anchored :
  maintains (anchored E) (Ultimate.collect_all_metrics E).
Proof.
  unfold Ultimate.collect_all_metrics.
  apply maintains_try_except; [|intros e; anchored_auto].
  repeat lazymatch goal with
  | |- maintains _ (bind _ _) => apply maintains_bind; [|intros _]
  end;
    auto using collect_server_info_anchored, collect_channels_anchored,
      collect_sessions_anchored, collect_tuners_anchored,
      collect_recordings_anchored, collect_epg_anchored.
Qed.

Lemma run_anchored (cycles : nat) : maintains (anchored E) (Ultimate.run E cycles).
Proof.
  induction cycles as [|cycles IH]; cbn [Ultimate.run].
  - apply maintains_ret.
  - apply maintains_bind; [apply collect_all_metrics_anchored|by intros _].
Qed.

(** Whatever the server answers, after any number of cycles from the start
    no anchor lies after the clock: the increments of the watch-time counter
    are never refused. *)
Lemma reachable_anchors_in_past (cycles : nat) :
  anchors_in_past E (tracked (snd (Ultimate.run E cycles Ultimate.boot))).
Proof. apply run_anchored, boot_anchors_in_past. Qed.
End Anchored.

(** ** Two screens, one user *)

Lemma counter_value_tracked (w : Ultimate.state) (name : string)
  (labels : list string) :
  counter_value w name labels = reading (tk_counters (tracked w)) name labels.
Proof. reflexivity. Qed.

(** C10.  Let the clock never run backwards and no watch anchor lie in the
    future (as in every state reached from the start,
    [reachable_anchors_in_past]).  If /Sessions delivers a list that holds
    two Live TV sessions of one user on two different channels, then
    [collect_sessions] increments that user's channel-switch counter by at
    least 1, whatever the previous cycle saw: the last channel is recorded
    per user, so at least one of the two sessions is found on "another"
    channel.  This holds for every cycle, hence for every cycle after the
    first, with both sessions staying on their channels. *)
Theorem two_screens_count_as_switches (E : Env) (w : Ultimate.state)
  (l : list Session) (s1 s2 : Session) (i1 i2 user c1 c2 : string) :
  clock_monotone E ->
  anchors_in_past E (tracked w) ->
  delivered (sessions E (length (sent w)) []) = Some l ->
  s1 ∈ l -> s2 ∈ l ->
  live_session s1 = Some (i1, user, c1) ->
  live_session s2 = Some (i2, user, c2) ->
  c1 <> c2 ->
  (counter_value w Ultimate.user_channel_switches [user] + 1
   <= counter_value (snd (Ultimate.collect_sessions E w))
        Ultimate.user_channel_switches [user])%Qc.
Proof.
  intros Hmono Hpast Hresp Hin1 Hin2 H1 H2 Hne.
  assert (Hl : l <> []) by (intros ->; by apply elem_of_nil in Hin1).
  rewrite !counter_value_tracked.
  rewrite (collect_sessions_tracks E Hmono w l Hpast Hresp Hl).
  exact (two_channels_switch E user l _ s1 s2 i1 i2 c1 c2 Hin1 Hin2 H1 H2 Hne).
Qed.

Lemma sample_clock_monotone (E : Env) :
  time_time E = (fun k => of_nat k) -> clock_monotone E.
Proof.
  intros HE i j Hij. rewrite HE. unfold of_nat.
  apply (proj1 (Z2Qc_inj_le _ _)). lia.
Qed.

Lemma carol_anchors_in_past :
  anchors_in_past carol_two_screens (tracked carol_after_first_cycle).
Proof.
  unfold anchors_in_past, tracked.
  apply (bool_decide_unpack _). vm_compute. exact I.
Qed.

Lemma two_screens_count_as_switches_witness :
  (counter_value carol_after_first_cycle Ultimate.user_channel_switches ["carol"] + 1
   <= counter_value
        (snd (Ultimate.collect_sessions carol_two_screens carol_after_first_cycle))
        Ultimate.user_channel_switches ["carol"])%Qc.
Proof.
  apply (two_screens_count_as_switches carol_two_screens carol_after_first_cycle
           [live "kitchen" "carol" "News24"; live "den" "carol" "Sports1"]
           (live "kitchen" "carol" "News24") (live "den" "carol" "Sports1")
           "kitchen" "den" "carol" "News24" "Sports1").
  - by apply sample_clock_monotone.
  - exact carol_anchors_in_past.
  - reflexivity.
  - repeat constructor.
  - repeat constructor.
  - reflexivity.
  - reflexivity.
  - discriminate.
Defined.

(** In numbers: one increment in the first cycle, two in every later one,
    with both screens staying on their channels. *)
Example carol_never_zapped :
  let w1 := carol_after_first_cycle in
  let w2 := snd (Ultimate.collect_sessions carol_two_screens w1) in
  let w3 := snd (Ultimate.collect_sessions carol_two_screens w2) in
  counter_value w1 Ultimate.user_channel_switches ["carol"] = Qc_of_Z 1 /\
  counter_value w2 Ultimate.user_channel_switches ["carol"] = Qc_of_Z 3 /\
  counter_value w3 Ultimate.user_channel_switches ["carol"] = Qc_of_Z 5.
Proof.
  cbv zeta. repeat split; apply (bool_decide_unpack _); vm_compute; exact I.
Qed.

(** ** Watch time and channel switches of one session *)




(** Three cycles on one channel, the clock advancing by 5 per cycle: the
    second cycle adds 5, the third adds 10, both measured from the anchor
    taken at clock reading 4. *)
Example alice_three_cycles :
  let w1 := alice_after_first_cycle in
  let w2 := snd (Ultimate.collect_sessions alice_stays w1) in
  let w3 := snd (Ultimate.collect_sessions alice_stays w2) in
  Ultimate.channel_watch_start (self w3) !! "s1"
    = Some ("alice", "News24", Qc_of_Z 4) /\
  counter_value w1 Ultimate.user_watch_time ["alice"; "News24"] = Qc_of_Z 0 /\
  counter_value w2 Ultimate.user_watch_time ["alice"; "News24"] = Qc_of_Z 5 /\
  counter_value w3 Ultimate.user_watch_time ["alice"; "News24"] = Qc_of_Z 15.
Proof.
  cbv zeta. repeat split; apply (bool_decide_unpack _); vm_compute; exact I.
Qed.


(** ** Bandwidth in the debug exporter *)

Lemma debug_request_runs (E : Env) {A : Type} (endpoint : string)
  (ps : params) (r : route A) (w : Debug.state) :
  exists w',
    Debug._make_request E endpoint ps r w =
      (Return (delivered (r (length (sent w)) ps)), w') /\
    gauges w' = gauges w.
Proof.
  unfold delivered, Debug._make_request, bind, try_catch, clock_read,
    session_get, raise_for_status.
  cbn. destruct (r (length (sent w)) ps) as [resp|]; cbn.
  - rewrite counter_inc_1. cbn.
    destruct (status_code resp =? 404) eqn:H404.
    + apply Z.eqb_eq in H404. rewrite H404. cbn.
      rewrite counter_inc_1. cbn. rewrite counter_inc_1. by eexists.
    + cbn. destruct ((400 <=? status_code resp) && (status_code resp <? 600))%bool;
        cbn; [|by eexists].
      rewrite counter_inc_1. cbn. rewrite counter_inc_1. by eexists.
  - rewrite counter_inc_1. cbn. rewrite counter_inc_1. by eexists.
Qed.




(** ** Bandwidth in the fixed exporter *)


Lemma fixed_request_runs (E : Env) {A : Type} (endpoint : string)
  (ps : params) (r : route A) (w : Fixed.state) :
  exists w',
    Fixed._make_request E endpoint ps r w =
      (Return (delivered (r (length (sent w)) ps)), w') /\
    gauges w' = gauges w.
Proof.
  unfold delivered, Fixed._make_request, bind, try_catch, clock_read,
    session_get, raise_for_status.
  cbn. destruct (r (length (sent w)) ps) as [resp|]; cbn.
  - destruct (status_code resp =? 404) eqn:H404.
    + apply Z.eqb_eq in H404. rewrite H404. cbn.
      rewrite counter_inc_1. by eexists.
    + cbn. destruct ((400 <=? status_code resp) && (status_code resp <? 600))%bool;
        cbn; [|by eexists].
      rewrite counter_inc_1. by eexists.
  - rewrite counter_inc_1. by eexists.
Qed.




(** ** Bandwidth in the ultimate exporter *)









(** ** Bandwidth, exporter by exporter *)



(** The three totals for these viewers: 5 + 8 + 3 Mbit/s in bytes for the
    debug exporter, 8 + 0 (alice has no session-level field, dora no
    PlayState) for the fixed one, and alice's 5 Mbit/s of Live TV for the
    ultimate one. *)
Example three_viewers_totals :
  let l := [alice_on_news; bob_on_film; dora_without_playstate] in
  total_published l = 16000000 /\
  fixed_total l = 8000000 /\
  (Qc_of_Z 0 + mbps_total l)%Qc = Qc_of_Z 5.
Proof.
  cbv zeta. repeat split. apply Qc_is_canon. reflexivity.
Qed.


(** * Further properties of the exporters *)

(** ** Stepping through a computation *)

Section Wp.
Context {W : Type}.

Lemma wp_ret {A} (a : A) (Q : outcome A -> W -> Prop) (w : W) :
  Q (Return a) w -> wp (ret a) Q w.
Proof. done. Qed.

Lemma wp_raise {A} (e : exn) (Q : outcome A -> W -> Prop) (w : W) :
  Q (Raise e) w -> wp (raise e) Q w.
Proof. done. Qed.

Lemma wp_lift {A} (o : outcome A) (Q : outcome A -> W -> Prop) (w : W) :
  Q o w -> wp (lift o) Q w.
Proof. done. Qed.

Lemma wp_bind {A B} (m : M W A) (k : A -> M W B)
  (Q : outcome B -> W -> Prop) (w : W) :
  wp m (fun r w1 => match r with
                    | Return a => wp (k a) Q w1
                    | Raise e => Q (Raise e) w1
                    end) w ->
  wp (bind m k) Q w.
Proof. unfold wp, bind. by destruct (m w) as [[a|e] w1]. Qed.

Lemma wp_try_except {A} (m : M W A) (h : exn -> M W A)
  (Q : outcome A -> W -> Prop) (w : W) :
  wp m (fun r w1 => match r with
                    | Return a => Q (Return a) w1
                    | Raise e => wp (h e) Q w1
                    end) w ->
  wp (try_except m h) Q w.
Proof. unfold wp, try_except. by destruct (m w) as [[a|e] w1]. Qed.

Lemma wp_try_catch {A} (catches : exn -> bool) (m : M W A) (h : exn -> M W A)
  (Q : outcome A -> W -> Prop) (w : W) :
  wp m (fun r w1 => match r with
                    | Return a => Q (Return a) w1
                    | Raise e => if catches e then wp (h e) Q w1
                                 else Q (Raise e) w1
                    end) w ->
  wp (try_catch catches m h) Q w.
Proof.
  unfold wp, try_catch. destruct (m w) as [[a|e] w1]; [done|].
  cbn. by destruct (catches e).
Qed.

Lemma wp_when (b : bool) (m : M W unit) (Q : outcome unit -> W -> Prop) (w : W) :
  (if b then wp m Q w else Q (Return tt) w) -> wp (when b m) Q w.
Proof. by destruct b. Qed.

Lemma wp_deref {A} (o : option A) (Q : outcome A -> W -> Prop) (w : W) :
  match o with Some a => Q (Return a) w | None => Q (Raise AttributeError) w end ->
  wp (deref o) Q w.
Proof. by destruct o. Qed.

Lemma wp_read_local {A} (o : option A) (Q : outcome A -> W -> Prop) (w : W) :
  match o with
  | Some a => Q (Return a) w
  | None => Q (Raise UnboundLocalError) w
  end ->
  wp (read_local o) Q w.
Proof. by destruct o. Qed.

Lemma wp_consequence {A} (m : M W A) (Q Q' : outcome A -> W -> Prop) (w : W) :
  wp m Q w -> (forall r w', Q r w' -> Q' r w') -> wp m Q' w.
Proof. unfold wp. auto. Qed.

Lemma wp_preserves {A X} (f : W -> X) (m : M W A)
  (Q : outcome A -> W -> Prop) (w : W) :
  preserves f m -> (forall r w', f w' = f w -> Q r w') -> wp m Q w.
Proof. intros Hm HQ. apply HQ, Hm. Qed.

Lemma wp_returns {A} (m : M W A) (P : A -> W -> Prop) (w : W) :
  wp m (returned P) w -> exists a w', m w = (Return a, w') /\ P a w'.
Proof.
  unfold wp, returned. destruct (m w) as [[a|e] w1]; [|done].
  intros HP. by exists a, w1.
Qed.

(** A loop that never raises, with an invariant over the items done. *)
Lemma wp_for_fold {A L} (I : list A -> L -> W -> Prop)
  (body : A -> L -> M W L) (l : list A) :
  (forall done x acc w,
     I done acc w ->
     wp (body x acc) (returned (I (done ++ [x])%list)) w) ->
  forall done acc w,
    I done acc w ->
    wp (for_fold l body acc) (returned (I (done ++ l)%list)) w.
Proof.
  intros Hbody. induction l as [|x l IH]; intros done acc w HI.
  - cbn [for_fold]. apply wp_ret. cbn. by rewrite app_nil_r.
  - cbn [for_fold]. apply wp_bind.
    eapply wp_consequence; [by apply Hbody|].
    intros [acc'|e] w' Hr; [|done]. cbn in Hr.
    specialize (IH (done ++ [x])%list acc' w' Hr).
    by rewrite <- app_assoc in IH.
Qed.

Lemma wp_for_each {A} (I : list A -> W -> Prop)
  (body : A -> M W unit) (l : list A) :
  (forall done x w,
     I done w -> wp (body x) (returned (fun _ => I (done ++ [x])%list)) w) ->
  forall done w,
    I done w ->
    wp (for_each l body) (returned (fun _ => I (done ++ l)%list)) w.
Proof.
  intros Hbody. induction l as [|x l IH]; intros done w HI.
  - cbn [for_each]. apply wp_ret. cbn. by rewrite app_nil_r.
  - cbn [for_each]. apply wp_bind.
    eapply wp_consequence; [by apply Hbody|].
    intros [[]|e] w' Hr; [|done]. cbn in Hr.
    specialize (IH (done ++ [x])%list w' Hr).
    by rewrite <- app_assoc in IH.
Qed.
End Wp.

Section WpWorld.
Context {S : Type}.
Implicit Types (w : World S).

Lemma wp_gauge_set (name : string) (labels : list string) (v : Qc)
  (Q : outcome unit -> World S -> Prop) w :
  Q (Return tt) (with_gauges (<[(name, labels) := v]> (gauges w)) w) ->
  wp (gauge_set name labels v) Q w.
Proof. done. Qed.

Lemma wp_info_set (name : string) (d : list (string * string))
  (Q : outcome unit -> World S -> Prop) w :
  Q (Return tt) (with_infos (<[name := d]> (infos w)) w) ->
  wp (info_set name d) Q w.
Proof. done. Qed.

Lemma wp_counter_inc_1 (name : string) (labels : list string)
  (Q : outcome unit -> World S -> Prop) w :
  Q (Return tt)
    (with_counters
       (<[(name, labels) := (counter_value w name labels + 1)%Qc]> (counters w))
       w) ->
  wp (counter_inc name labels 1) Q w.
Proof. unfold wp. by rewrite counter_inc_1. Qed.

Lemma wp_get_self (Q : outcome S -> World S -> Prop) w :
  Q (Return (self w)) w -> wp get_self Q w.
Proof. done. Qed.

Lemma wp_modify_self (f : S -> S) (Q : outcome unit -> World S -> Prop) w :
  Q (Return tt) (with_self (f (self w)) w) -> wp (modify_self f) Q w.
Proof. done. Qed.

Lemma wp_clock_read (E : Env) (Q : outcome Qc -> World S -> Prop) w :
  Q (Return (time_time E (ticks w))) (with_ticks (ticks w + 1)%nat w) ->
  wp (clock_read E) Q w.
Proof. done. Qed.

Lemma wp_clock_hour (E : Env) (Q : outcome nat -> World S -> Prop) w :
  Q (Return (now_hour E (ticks w))) (with_ticks (ticks w + 1)%nat w) ->
  wp (clock_hour E) Q w.
Proof. done. Qed.
End WpWorld.

Lemma wp_ultimate_request (E : Env) {A : Type} (endpoint : string)
  (ps : params) (r : route A) (Q : outcome (option A) -> Ultimate.state -> Prop)
  (w : Ultimate.state) :
  (forall w1,
     request_step endpoint ps (Ultimate.stream_errors, ["api_error"]) w w1 ->
     Q (Return (delivered (r (length (sent w)) ps))) w1) ->
  wp (Ultimate._make_request E endpoint ps r) Q w.
Proof.
  intros HQ. unfold wp.
  destruct (ultimate_make_request_runs E endpoint ps r w) as (w1 & -> & Hstep).
  by apply HQ.
Qed.

(** One step of a computation, by the rule of its head. *)
Ltac wp_step :=
  lazymatch goal with
  | |- wp (bind _ _) _ _ => apply wp_bind
  | |- wp (ret _) _ _ => apply wp_ret
  | |- wp (raise _) _ _ => apply wp_raise
  | |- wp (lift _) _ _ => apply wp_lift
  | |- wp (try_except _ _) _ _ => apply wp_try_except
  | |- wp (try_catch _ _ _) _ _ => apply wp_try_catch
  | |- wp (when _ _) _ _ => apply wp_when
  | |- wp (deref _) _ _ => apply wp_deref
  | |- wp (read_local _) _ _ => apply wp_read_local
  | |- wp (gauge_set _ _ _) _ _ => apply wp_gauge_set
  | |- wp (info_set _ _) _ _ => apply wp_info_set
  | |- wp (counter_inc _ _ 1) _ _ => apply wp_counter_inc_1
  | |- wp get_self _ _ => apply wp_get_self
  | |- wp (modify_self _) _ _ => apply wp_modify_self
  | |- wp (clock_read _) _ _ => apply wp_clock_read
  | |- wp (clock_hour _) _ _ => apply wp_clock_hour
  | |- wp (Ultimate._make_request _ _ _ _) _ _ =>
      apply wp_ultimate_request;
      let w1 := fresh "w" in let H := fresh "Hstep" in intros w1 H
  end; cbv beta match.

Ltac wp_steps := repeat wp_step.
(** Reduce the projections of a state that was built by the setters. *)
Ltac project :=
  cbn [gauges counters infos samples ticks sent self
       with_gauges with_counters with_infos with_samples with_ticks with_sent
       with_self].

(** Look a key up below the insertions made since. *)
Ltac look :=
  project;
  repeat first [ rewrite lookup_insert_eq
               | rewrite lookup_insert_ne by discriminate ].

(** State a goal about [fst (m w)] and [snd (m w)] as a postcondition. *)
Ltac as_wp m w :=
  pattern (fst (m w)), (snd (m w));
  lazymatch goal with
  | |- ?Q _ _ => change (wp m Q w)
  end.

Lemma request_step_length {S : Type} (endpoint : string) (ps : params)
  (k : series) (w w1 : World S) :
  request_step endpoint ps k w w1 ->
  length (sent w1) = (length (sent w) + 1)%nat.
Proof. intros H. rewrite (step_sent _ _ _ _ _ H), length_app. reflexivity. Qed.

(** A step, with the state kept in normal form. *)
Ltac wp_next := wp_step; project.

(** ** One request of the ultimate exporter *)


(** ** A tuner answer that is not a list *)

(** X2.  When the tuner request gets no usable answer, or the answer is a JSON
    object instead of a list, or an empty list, [collect_tuners] returns
    normally with the four tuner gauges (total, available, in use,
    utilization) at 0, and writes no [tuner_status] series: those of tuners
    seen in an earlier cycle keep their values. *)
Theorem no_tuner_list_reads_zero (E : Env) (w : Ultimate.state) :
  let tuners := delivered (livetv_tuners E (length (sent w)) []) in
  tuners = None \/ (exists q, tuners = Some (TunerObject q)) \/
  tuners = Some (TunerList []) ->
  exists w',
    Ultimate.collect_tuners E w = (Return tt, w') /\
    gauges w' !! (Ultimate.tuners_total, []) = Some (Qc_of_Z 0) /\
    gauges w' !! (Ultimate.tuners_available, []) = Some (Qc_of_Z 0) /\
    gauges w' !! (Ultimate.tuners_in_use, []) = Some (Qc_of_Z 0) /\
    gauges w' !! (Ultimate.tuner_utilization, []) = Some (Qc_of_Z 0) /\
    forall labels,
      gauges w' !! (Ultimate.tuner_status, labels) =
      gauges w !! (Ultimate.tuner_status, labels).
Proof.
  intros tuners Hcase.
  cut (wp (Ultimate.collect_tuners E)
         (returned (fun _ w' =>
            gauges w' !! (Ultimate.tuners_total, []) = Some (Qc_of_Z 0) /\
            gauges w' !! (Ultimate.tuners_available, []) = Some (Qc_of_Z 0) /\
            gauges w' !! (Ultimate.tuners_in_use, []) = Some (Qc_of_Z 0) /\
            gauges w' !! (Ultimate.tuner_utilization, []) = Some (Qc_of_Z 0) /\
            forall labels,
              gauges w' !! (Ultimate.tuner_status, labels) =
              gauges w !! (Ultimate.tuner_status, labels))) w).
  { intros H. destruct (wp_returns _ _ _ H) as ([] & w' & Heq & HP). eauto. }
  unfold Ultimate.collect_tuners. wp_step. wp_step.
  fold tuners.
  assert (Hcond : (negb (truthy tuners) ||
                   negb (from_option Ultimate.isinstance_list false tuners))%bool
                  = true).
  { destruct Hcase as [->|[[q ->]| ->]]; [done| |done].
    cbn. apply orb_true_r. }
  rewrite Hcond. wp_steps. cbn [returned].
  pose proof (step_gauges _ _ _ _ _ Hstep) as Hg.
  repeat split; try intros labels; look; by rewrite ?Hg.
Qed.

Lemma no_tuner_list_reads_zero_witness :
  exists w',
    Ultimate.collect_tuners tuners_as_object Ultimate.boot = (Return tt, w') /\
    gauges w' !! (Ultimate.tuners_total, []) = Some (Qc_of_Z 0) /\
    gauges w' !! (Ultimate.tuners_available, []) = Some (Qc_of_Z 0) /\
    gauges w' !! (Ultimate.tuners_in_use, []) = Some (Qc_of_Z 0) /\
    gauges w' !! (Ultimate.tuner_utilization, []) = Some (Qc_of_Z 0) /\
    forall labels,
      gauges w' !! (Ultimate.tuner_status, labels) =
      gauges Ultimate.boot !! (Ultimate.tuner_status, labels).
Proof.
  apply (no_tuner_list_reads_zero tuners_as_object Ultimate.boot).
  right. left. eexists. reflexivity.
Defined.

(** ** The recordings section *)

(** X3.  [collect_recordings] always sends its three requests, whatever the
    first two deliver.  Each answer that has an [Items] key sets its gauges:
    the recordings in progress, the timers with the number of those that
    carry a series id, and the storage in GiB, which is the sum of the [Size]
    fields (0 where missing) divided by 1024^3.  When the list of all
    recordings has no [Items] the function returns.  When it has, the final
    log line is reached: it raises [AttributeError] if the request for the
    recordings in progress delivered nothing, [UnboundLocalError] if that one
    delivered something but the timers have no [Items], and returns
    otherwise. *)
Theorem recordings_outcomes (E : Env) (w : Ultimate.state) :
  let n := length (sent w) in
  let active :=
    delivered (livetv_recordings E n [("IsInProgress", PBool true)]) in
  let timers := delivered (livetv_timers E (n + 1)%nat []) in
  let all_recordings := delivered (livetv_recordings E (n + 2)%nat []) in
  let result := Ultimate.collect_recordings E w in
  length (sent (snd result)) = (n + 3)%nat /\
  (forall q, active = Some q -> Ultimate.has_items active = true ->
     gauges (snd result) !! (Ultimate.recordings_active, []) =
       Some (Qc_of_Z (default 0 (TotalRecordCount q)))) /\
  (forall q, timers = Some q -> Ultimate.has_items timers = true ->
     gauges (snd result) !! (Ultimate.recordings_scheduled, []) =
       Some (Qc_of_Z (default 0 (TotalRecordCount q))) /\
     gauges (snd result) !! (Ultimate.recording_series, []) =
       Some (of_nat (series_timers (default [] (Items q))))) /\
  (Ultimate.has_items all_recordings = false -> fst result = Return tt) /\
  (forall q, all_recordings = Some q ->
     Ultimate.has_items all_recordings = true ->
     gauges (snd result) !! (Ultimate.recording_storage_gb, []) =
       Some (Qc_of_Z (total_size_bytes (default [] (Items q)))
             / Qc_of_Z (1024 * 1024 * 1024))%Qc /\
     fst result =
       match active with
       | None => Raise AttributeError
       | Some _ =>
           if Ultimate.has_items timers then Return tt
           else Raise UnboundLocalError
       end).
Proof.
  cbv zeta.
  as_wp (Ultimate.collect_recordings E) w.
  unfold Ultimate.collect_recordings.
  wp_step. wp_step.
  pose proof (request_step_length _ _ _ _ _ Hstep) as Hn1.
  set (active := delivered _).
  assert (Hw1 : wp (when (Ultimate.has_items active)
                (active0 <- deref active;;
                 gauge_set Ultimate.recordings_active []
                   (Qc_of_Z (default 0 (TotalRecordCount active0)))))
             (returned (fun (_ : unit) (w1 : Ultimate.state) =>
                sent w1 = sent w0 /\
                forall q, active = Some q -> Ultimate.has_items active = true ->
                  gauges w1 !! (Ultimate.recordings_active, []) =
                  Some (Qc_of_Z (default 0 (TotalRecordCount q))))) w0).
  { destruct active as [qa|]; [|by wp_steps].
    wp_step. destruct (Ultimate.has_items (Some qa)); [|by wp_steps].
    wp_steps. cbn [returned]. split; [done|]. intros q [= <-] _. by look. }
  wp_step. eapply wp_consequence; [exact Hw1|]. clear Hw1.
  intros [[]|e] w1 Hr; cbn [returned] in Hr; [|done].
  destruct Hr as [Hs1 Hactive].
  wp_step. wp_step.
  pose proof (request_step_length _ _ _ _ _ Hstep0) as Hn2.
  rewrite Hs1, Hn1.
  set (timers := delivered _).
  pose proof (step_gauges _ _ _ _ _ Hstep0) as Hg2.
  assert (Hw2 : wp
    (if Ultimate.has_items timers
      then
       timers0 <- deref timers;;
       gauge_set Ultimate.recordings_scheduled []
         (Qc_of_Z (default 0 (TotalRecordCount timers0)));;;
       gauge_set Ultimate.recording_series []
         (of_nat
            (length
               (filter
                  (λ timer : Timer, truthy (timer_SeriesTimerId timer) = true)
                  (default [] (Items timers0)))));;;
       ret (Some (default 0 (TotalRecordCount timers0)))
      else ret None)
    (returned (fun (scheduled_count : option Z) (w3 : Ultimate.state) =>
       sent w3 = sent w2 /\
       gauges w3 !! (Ultimate.recordings_active, []) =
         gauges w2 !! (Ultimate.recordings_active, []) /\
       match scheduled_count with
       | Some _ => Ultimate.has_items timers = true
       | None => Ultimate.has_items timers = false
       end /\
       forall q, timers = Some q -> Ultimate.has_items timers = true ->
         gauges w3 !! (Ultimate.recordings_scheduled, []) =
           Some (Qc_of_Z (default 0 (TotalRecordCount q))) /\
         gauges w3 !! (Ultimate.recording_series, []) =
           Some (of_nat (series_timers (default [] (Items q)))))) w2).
  { destruct timers as [qt|]; [|by wp_steps].
    destruct (Ultimate.has_items (Some qt)) eqn:Hi; [|by wp_steps].
    wp_steps. cbn [returned]. split; [done|]. split; [by look|].
    split; [done|]. intros q [= <-] _. split; by look. }
  wp_step. eapply wp_consequence; [exact Hw2|]. clear Hw2.
  intros [scheduled_count|e] w3 Hr; cbn [returned] in Hr; [|done].
  destruct Hr as (Hs3 & Hg3 & Hsc & Htimers).
  wp_step. wp_step.
  pose proof (request_step_length _ _ _ _ _ Hstep1) as Hn4.
  pose proof (step_gauges _ _ _ _ _ Hstep1) as Hg4.
  rewrite Hs3, Hn2, Hs1, Hn1.
  replace (length (sent w) + 1 + 1)%nat with (length (sent w) + 2)%nat by lia.
  set (all_recordings := delivered _).
  assert (Hlen : length (sent w4) = (length (sent w) + 3)%nat)
    by (rewrite Hn4, Hs3, Hn2, Hs1, Hn1; lia).
  assert (Hactive4 : forall q, active = Some q ->
            Ultimate.has_items active = true ->
            gauges w4 !! (Ultimate.recordings_active, []) =
            Some (Qc_of_Z (default 0 (TotalRecordCount q)))).
  { intros q Hq Hi. rewrite Hg4, Hg3, Hg2. by apply Hactive. }
  assert (Htimers4 : forall q, timers = Some q ->
            Ultimate.has_items timers = true ->
            gauges w4 !! (Ultimate.recordings_scheduled, []) =
              Some (Qc_of_Z (default 0 (TotalRecordCount q))) /\
            gauges w4 !! (Ultimate.recording_series, []) =
              Some (of_nat (series_timers (default [] (Items q))))).
  { intros q Hq Hi. rewrite Hg4. by apply Htimers. }
  clearbody active timers all_recordings.
  clear Hactive Htimers Hg4 Hg3 Hg2 Hn4 Hs3 Hn2 Hs1 Hn1 Hstep Hstep0 Hstep1.
  wp_step.
  destruct all_recordings as [qr|]; cbn [Ultimate.has_items].
  2:{ wp_steps. repeat (split; [done|]). intros; done. }
  destruct (truthy qr && has_key (Items qr))%bool eqn:Hir.
  2:{ wp_steps. repeat (split; [done|]). intros; done. }
  assert (Hfinal : forall (o : outcome unit),
    o = match active with
        | Some _ => if Ultimate.has_items timers then Return tt
                    else Raise UnboundLocalError
        | None => Raise AttributeError
        end ->
    let s := with_gauges
       (<[(Ultimate.recording_storage_gb, []) :=
            (Qc_of_Z (total_size_bytes (default [] (Items qr))) /
             Qc_of_Z (1024 * 1024 * 1024))%Qc]> (gauges w4)) w4 in
    length (sent s) = (length (sent w) + 3)%nat /\
    (forall q, active = Some q -> Ultimate.has_items active = true ->
       gauges s !! (Ultimate.recordings_active, []) =
       Some (Qc_of_Z (default 0 (TotalRecordCount q)))) /\
    (forall q, timers = Some q -> Ultimate.has_items timers = true ->
       gauges s !! (Ultimate.recordings_scheduled, []) =
         Some (Qc_of_Z (default 0 (TotalRecordCount q))) /\
       gauges s !! (Ultimate.recording_series, []) =
         Some (of_nat (series_timers (default [] (Items q))))) /\
    (true = false -> o = Return tt) /\
    (forall q, Some qr = Some q -> true = true ->
       gauges s !! (Ultimate.recording_storage_gb, []) =
         Some (Qc_of_Z (total_size_bytes (default [] (Items q)))
               / Qc_of_Z (1024 * 1024 * 1024))%Qc /\
       o = match active with
           | Some _ => if Ultimate.has_items timers then Return tt
                       else Raise UnboundLocalError
           | None => Raise AttributeError
           end)).
  { intros o Ho s. subst s. split; [done|].
    split; [intros q Hq Hi; look; by apply Hactive4|].
    split; [intros q Hq Hi; look; by apply Htimers4|].
    split; [done|]. intros q [= <-] _. split; [by look|done]. }
  wp_step. wp_step. wp_step. wp_step. wp_step.
  destruct active as [qa|]; [|by apply Hfinal].
  wp_step. wp_step.
  destruct scheduled_count as [n|]; wp_steps; apply Hfinal; by rewrite Hsc.
Qed.

Lemma recordings_outcomes_witness :
  let result := Ultimate.collect_recordings healthy Ultimate.boot in
  length (sent (snd result)) = 3%nat /\
  gauges (snd result) !! (Ultimate.recording_storage_gb, []) =
    Some (Qc_of_Z 1073741824 / Qc_of_Z (1024 * 1024 * 1024))%Qc /\
  fst result = Return tt.
Proof.
  destruct (recordings_outcomes healthy Ultimate.boot)
    as (Hsent & _ & _ & _ & Hall).
  split; [exact Hsent|].
  exact (Hall {| Items := Some [ {| recording_Size := Some 1073741824 |} ];
                 TotalRecordCount := Some 1 |} eq_refl eq_refl).
Defined.

(** ** After the server information *)

Lemma preserves_pair {W A X Y} (f : W -> X) (g : W -> Y) (m : M W A) :
  preserves f m -> preserves g m -> preserves (fun w => (f w, g w)) m.
Proof. intros Hf Hg w. by rewrite Hf, Hg. Qed.

(** Unfold the collectors of the ultimate exporter down to the primitives
    (the probe loop apart). *)
Ltac unfold_ultimate :=
  unfold Ultimate.collect_server_info, Ultimate.collect_channels,
    Ultimate.collect_sessions, Ultimate.collect_tuners,
    Ultimate.collect_recordings, Ultimate.collect_epg,
    Ultimate.session_body, Ultimate.publish_sessions,
    Ultimate.unpack_channel_key, Ultimate.track_channel_switches,
    Ultimate.track_watch_time, Ultimate.publish_current_program,
    Ultimate.publish_transcoding_info, Ultimate.tuner_body,
    Ultimate.program_body, Ultimate._make_request,
    parse_emby_datetime, standard_parse, truncated_parse.

Section AfterServerInfo.
Variable E : Env.

Lemma probe_days_keeps_server_up (max_days : Z) (remaining : nat) :
  forall days,
    preserves (fun w : Ultimate.state => gauges w !! (Ultimate.server_up, []))
      (Ultimate.probe_days E max_days remaining days).
Proof.
  induction remaining as [|remaining IH]; intros days; cbn [Ultimate.probe_days].
  - preserves_auto.
  - apply preserves_bind; [unfold Ultimate._make_request; preserves_auto|].
    intros future_programs.
    destruct (Ultimate.no_programs future_programs); [preserves_auto|apply IH].
Qed.

Lemma probe_days_keeps_livetv_enabled (max_days : Z) (remaining : nat) :
  forall days,
    preserves
      (fun w : Ultimate.state => gauges w !! (Ultimate.livetv_enabled, []))
      (Ultimate.probe_days E max_days remaining days).
Proof.
  induction remaining as [|remaining IH]; intros days; cbn [Ultimate.probe_days].
  - preserves_auto.
  - apply preserves_bind; [unfold Ultimate._make_request; preserves_auto|].
    intros future_programs.
    destruct (Ultimate.no_programs future_programs); [preserves_auto|apply IH].
Qed.

(** What follows [collect_server_info] in a cycle sets neither [server_up]
    nor [livetv_enabled]. *)
Lemma later_collectors_keep_server_up :
  preserves
    (fun w : Ultimate.state =>
       (gauges w !! (Ultimate.server_up, []),
        gauges w !! (Ultimate.livetv_enabled, [])))
    (Ultimate.collect_channels E ;;;
     Ultimate.collect_sessions E ;;;
     Ultimate.collect_tuners E ;;;
     Ultimate.collect_recordings E ;;;
     Ultimate.collect_epg E).
Proof.
  apply preserves_pair; unfold_ultimate;
    repeat lazymatch goal with
    | |- preserves _ (Ultimate.probe_days _ _ _ _) =>
        first [ apply probe_days_keeps_server_up
              | apply probe_days_keeps_livetv_enabled ]
    | |- _ => preserves_step
    end.
Qed.
End AfterServerInfo.

(** X4.  A collection cycle never raises, and neither does any number of
    cycles in a row.  When the /System/Info request of a cycle delivers
    nothing (or an empty object), the cycle ends with [server_up] and
    [livetv_enabled] both at 0, whatever the later sections of that cycle
    did. *)
Theorem server_down_is_reported (E : Env) (w : Ultimate.state) :
  (exists w',
     Ultimate.collect_all_metrics E w = (Return tt, w') /\
     (truthy (delivered (system_info E (length (sent w)) [])) = false ->
      gauges w' !! (Ultimate.server_up, []) = Some (Qc_of_Z 0) /\
      gauges w' !! (Ultimate.livetv_enabled, []) = Some (Qc_of_Z 0))) /\
  (forall cycles, exists w', Ultimate.run E cycles w = (Return tt, w')).
Proof.
  assert (Hcycle : forall w0,
    wp (Ultimate.collect_all_metrics E)
      (returned (fun _ w' =>
         truthy (delivered (system_info E (length (sent w0)) [])) = false ->
         gauges w' !! (Ultimate.server_up, []) = Some (Qc_of_Z 0) /\
         gauges w' !! (Ultimate.livetv_enabled, []) = Some (Qc_of_Z 0))) w0).
  { clear w. intros w. unfold Ultimate.collect_all_metrics.
    wp_step. wp_step. set (rest := bind (Ultimate.collect_channels E) _).
    unfold Ultimate.collect_server_info at 1.
    wp_step. wp_step.
    set (info := delivered (system_info E (length (sent w)) [])).
    destruct (truthy info) eqn:Hinfo.
    - wp_step. destruct info as [info|]; [|done].
      wp_steps.
      apply (wp_preserves (fun _ => tt)); [by intros ?|].
      intros [[]|e] w' _; [done|]. by wp_steps.
    - wp_steps.
      eapply wp_preserves; [apply later_collectors_keep_server_up|].
      intros [[]|e] w' [= Hup Hlive]; revert Hup Hlive; look; intros Hup Hlive.
      + done.
      + wp_steps. intros _. by look. }
  split.
  - destruct (wp_returns _ _ _ (Hcycle w)) as ([] & w' & Heq & HP). eauto.
  - intros cycles. revert w. induction cycles as [|cycles IH]; intros w.
    + by eexists.
    + cbn [Ultimate.run].
      destruct (wp_returns _ _ _ (Hcycle w)) as ([] & w1 & Heq & _).
      rewrite (bind_returns _ _ _ _ _ Heq). apply IH.
Qed.

Lemma server_down_is_reported_witness :
  exists w',
    Ultimate.collect_all_metrics offline Ultimate.boot = (Return tt, w') /\
    gauges w' !! (Ultimate.server_up, []) = Some (Qc_of_Z 0) /\
    gauges w' !! (Ultimate.livetv_enabled, []) = Some (Qc_of_Z 0).
Proof.
  destruct (proj1 (server_down_is_reported offline Ultimate.boot))
    as (w' & Hrun & Hdown).
  exists w'. split; [exact Hrun|]. apply Hdown. reflexivity.
Defined.

(** ** Dictionaries that count *)

Lemma dict_get_incr {V : Type} (succ : V -> V) (zero : V) (k k' : string)
  (d : list (string * V)) :
  dict_get k (dict_incr succ zero k' d) =
  if String.eqb k' k then Some (succ (default zero (dict_get k d)))
  else dict_get k d.
Proof.
  induction d as [|[k0 v] d IH]; cbn.
  - by destruct (String.eqb k' k).
  - destruct (String.eqb k0 k') eqn:H0; cbn.
    + apply String.eqb_eq in H0 as ->.
      by destruct (String.eqb k' k).
    + destruct (String.eqb k0 k) eqn:H1; [|apply IH].
      apply String.eqb_eq in H1 as ->. by rewrite String.eqb_sym, H0.
Qed.

Lemma dict_incr_keys {V : Type} (succ : V -> V) (zero : V) (k : string)
  (d : list (string * V)) :
  forall k', k' ∈ (dict_incr succ zero k d).*1 <-> k' = k \/ k' ∈ d.*1.
Proof.
  induction d as [|[k0 v] d IH]; cbn; intros k'.
  - rewrite elem_of_cons. reflexivity.
  - destruct (String.eqb k0 k) eqn:H0; cbn.
    + apply String.eqb_eq in H0 as ->. rewrite !elem_of_cons. tauto.
    + rewrite !elem_of_cons, IH. tauto.
Qed.

Lemma dict_incr_NoDup {V : Type} (succ : V -> V) (zero : V) (k : string)
  (d : list (string * V)) :
  NoDup d.*1 -> NoDup (dict_incr succ zero k d).*1.
Proof.
  induction d as [|[k0 v] d IH]; cbn; intros Hd.
  - apply NoDup_singleton.
  - apply NoDup_cons in Hd as [Hk0 Hd].
    destruct (String.eqb k0 k) eqn:H0; cbn.
    + by apply NoDup_cons.
    + apply String.eqb_neq in H0.
      apply NoDup_cons. split; [|by apply IH].
      rewrite dict_incr_keys. intros [->|?]; done.
Qed.

Lemma dict_get_elem_of {V : Type} (k : string) (v : V) (d : list (string * V)) :
  NoDup d.*1 -> (k, v) ∈ d <-> dict_get k d = Some v.
Proof.
  induction d as [|[k0 v0] d IH]; cbn; intros Hd.
  - split; [by intros ?%elem_of_nil|done].
  - apply NoDup_cons in Hd as [Hk0 Hd].
    destruct (String.eqb k0 k) eqn:H0.
    + apply String.eqb_eq in H0 as ->. split.
      * intros [[= ->]|Hin]%elem_of_cons; [done|].
        destruct Hk0. apply list_elem_of_fmap. by exists (k, v).
      * intros [= ->]. by left.
    + apply String.eqb_neq in H0. rewrite <- (IH Hd). split.
      * intros [[= -> ->]|Hin]%elem_of_cons; done.
      * intros Hin. by right.
Qed.

Lemma dict_get_None {V : Type} (k : string) (d : list (string * V)) :
  dict_get k d = None <-> k ∉ d.*1.
Proof.
  induction d as [|[k0 v0] d IH]; cbn.
  - split; [intros _; apply not_elem_of_nil|done].
  - rewrite not_elem_of_cons. destruct (String.eqb k0 k) eqn:H0.
    + apply String.eqb_eq in H0 as ->. split; [done|]. by intros [? _].
    + apply String.eqb_neq in H0. rewrite IH. split; [|tauto].
      intros Hk. split; [congruence|done].
Qed.

(** The tally of a list of keys, one increment per key. *)
Lemma tally_counts (keys : list string) :
  forall d : list (string * Z),
    NoDup d.*1 ->
    let d' := foldl (fun d k => incr_int k d) d keys in
    NoDup d'.*1 /\
    (forall k, k ∈ d'.*1 <-> k ∈ d.*1 \/ k ∈ keys) /\
    forall k, k ∈ d'.*1 ->
      dict_get k d' =
      Some (default 0 (dict_get k d) + count_where (String.eqb k) keys).
Proof.
  unfold count_where.
  induction keys as [|k0 keys IH]; intros d Hd; cbn.
  - split; [done|]. split.
    + intros k. rewrite elem_of_nil. tauto.
    + intros k Hk. rewrite Z.add_0_r.
      destruct (dict_get k d) eqn:Hg; [done|].
      by apply dict_get_None in Hg.
  - destruct (IH (incr_int k0 d)) as (Hnd & Hkeys & Hget).
    { by apply dict_incr_NoDup. }
    split; [done|]. split.
    + intros k. rewrite Hkeys. unfold incr_int. rewrite dict_incr_keys.
      rewrite elem_of_cons. tauto.
    + intros k Hk. rewrite (Hget k Hk). f_equal.
      unfold incr_int at 1. rewrite dict_get_incr.
      rewrite (String.eqb_sym k0 k).
      destruct (String.eqb k k0); cbn [default length]; unfold id; lia.
Qed.

(** ** The channel list *)

Lemma count_where_app {A : Type} (p : A -> bool) (l1 l2 : list A) :
  count_where p (l1 ++ l2) = count_where p l1 + count_where p l2.
Proof. unfold count_where. rewrite List.filter_app, length_app. lia. Qed.

Lemma count_where_one {A : Type} (p : A -> bool) (x : A) :
  count_where p [x] = if p x then 1 else 0.
Proof. unfold count_where. cbn. by destruct (p x). Qed.

Lemma count_where_fmap {A B : Type} (p : B -> bool) (f : A -> B) (l : list A) :
  count_where p (f <$> l) = count_where (fun x => p (f x)) l.
Proof.
  unfold count_where. induction l as [|x l IH]; [done|].
  cbn. destruct (p (f x)); cbn; lia.
Qed.

(** X5.  When the channel list is delivered with an [Items] key,
    [collect_channels] returns with [channels_total] at the reported
    [TotalRecordCount] (0 when missing), not at the length of the list; with
    the HD, available and favorite gauges at the number of listed channels
    that have "HD" in their upper-cased name or [IsHD] set, that have an id
    and are not disabled, and that are marked favorite; and with
    [channels_by_type], for every type that occurs, at the number of listed
    channels of that type.  When the list is not delivered or has no [Items]
    key, it sets [channels_total] to 0 and changes no other gauge. *)
Theorem channels_are_counted (E : Env) (w : Ultimate.state) :
  let channels := delivered (livetv_channels E (length (sent w)) []) in
  (forall q items,
     channels = Some q -> Items q = Some items ->
     exists w',
       Ultimate.collect_channels E w = (Return tt, w') /\
       gauges w' !! (Ultimate.channels_total, []) =
         Some (Qc_of_Z (default 0 (TotalRecordCount q))) /\
       gauges w' !! (Ultimate.channels_hd, []) =
         Some (Qc_of_Z (count_where is_hd items)) /\
       gauges w' !! (Ultimate.channels_available, []) =
         Some (Qc_of_Z (count_where is_available items)) /\
       gauges w' !! (Ultimate.channel_favorites, []) =
         Some (Qc_of_Z (count_where is_favorite items)) /\
       forall channel, channel ∈ items ->
         gauges w' !! (Ultimate.channels_by_type, [type_of_channel channel]) =
         Some (Qc_of_Z
                 (count_where
                    (fun c => String.eqb (type_of_channel channel)
                                (type_of_channel c)) items))) /\
  (channels = None \/ (exists q, channels = Some q /\ Items q = None) ->
   exists w',
     Ultimate.collect_channels E w = (Return tt, w') /\
     gauges w' = <[(Ultimate.channels_total, []) := Qc_of_Z 0]> (gauges w)).
Proof.
  intros channels. split.
  - intros q items Hq Hitems.
    cut (wp (Ultimate.collect_channels E)
           (returned (fun _ w' =>
       gauges w' !! (Ultimate.channels_total, []) =
         Some (Qc_of_Z (default 0 (TotalRecordCount q))) /\
       gauges w' !! (Ultimate.channels_hd, []) =
         Some (Qc_of_Z (count_where is_hd items)) /\
       gauges w' !! (Ultimate.channels_available, []) =
         Some (Qc_of_Z (count_where is_available items)) /\
       gauges w' !! (Ultimate.channel_favorites, []) =
         Some (Qc_of_Z (count_where is_favorite items)) /\
       forall channel, channel ∈ items ->
         gauges w' !! (Ultimate.channels_by_type, [type_of_channel channel]) =
         Some (Qc_of_Z
                 (count_where
                    (fun c => String.eqb (type_of_channel channel)
                                (type_of_channel c)) items)))) w).
    { intros H. destruct (wp_returns _ _ _ H) as ([] & w' & Heq & HP). eauto. }
    unfold Ultimate.collect_channels. wp_step. wp_step.
    fold channels. rewrite Hq. cbn [truthy truthy_option from_option].
    unfold truthy, truthy_QueryResult. rewrite Hitems. cbn [has_key orb negb].
    wp_step. wp_step. cbn [default]. wp_step. wp_step. wp_step.
    set (total := Qc_of_Z (default 0 (TotalRecordCount q))).
    eapply wp_consequence.
    { apply (wp_for_fold
        (fun done (acc : Z * Z * Z * list (string * Z)) (w' : Ultimate.state) =>
           acc = (count_where is_hd done, count_where is_available done,
                  count_where is_favorite done,
                  foldl (fun d k => incr_int k d) [] (type_of_channel <$> done)) /\
           gauges w' !! (Ultimate.channels_total, []) = Some total)) with (done := []).
      - intros done channel acc w1 [-> Hg]. wp_steps. cbn [returned].
        split; [|by look].
        rewrite !count_where_app, !count_where_one, fmap_app, foldl_app.
        unfold is_hd, is_available, is_favorite, type_of_channel. cbn.
        change (truthy_option (channel_Id channel))
          with (truthy (channel_Id channel)).
        repeat match goal with
               | |- (_, _) = (_, _) => apply pair_equal_spec; split
               end;
          try reflexivity;
          match goal with
          | |- (if ?b then _ else _) = _ => destruct b; lia
          end.
      - split; [done|]. by look. }
    intros [acc|e] w1 Hr; cbn [returned] in Hr; [|done].
    destruct Hr as [-> Hg]. rewrite Hitems. cbn [default app].
    cbv beta match. wp_step. wp_step. wp_step. wp_step. wp_step. wp_step.
    set (types := foldl _ _ _).
    destruct (tally_counts (type_of_channel <$> items) [])
      as (Hnd & Hkeys & Hget); [apply NoDup_nil_2|].
    fold types in Hnd, Hkeys, Hget.
    eapply wp_consequence.
    { apply (wp_for_each
        (fun done (w' : Ultimate.state) =>
           (gauges w' !! (Ultimate.channels_total, []) = Some total /\
            gauges w' !! (Ultimate.channels_hd, []) =
              Some (Qc_of_Z (count_where is_hd items)) /\
            gauges w' !! (Ultimate.channels_available, []) =
              Some (Qc_of_Z (count_where is_available items)) /\
            gauges w' !! (Ultimate.channel_favorites, []) =
              Some (Qc_of_Z (count_where is_favorite items))) /\
           (NoDup done.*1 ->
            forall k c, (k, c) ∈ done ->
              gauges w' !! (Ultimate.channels_by_type, [k]) =
              Some (Qc_of_Z c)))) with (done := []).
      - intros done [k c] w2 [(H1 & H2 & H3 & H4) Hdone]. wp_steps.
        cbn [returned]. split; [by look|].
        rewrite fmap_app. intros Hnd' k' c' Hin.
        apply NoDup_app in Hnd' as (Hnd1 & Hfresh & _).
        apply elem_of_app in Hin as [Hin|Hin].
        + look. rewrite lookup_insert_ne; [by apply Hdone|].
          intros [= ->]. apply (Hfresh k').
          * apply list_elem_of_fmap. by exists (k', c').
          * cbn. by left.
        + apply list_elem_of_singleton in Hin as [= -> ->]. by look.
      - split; [by look|]. intros _ k c Hin. by apply elem_of_nil in Hin. }
    intros [[]|e] w2 Hr; cbn [returned] in Hr |- *; [|done].
    destruct Hr as [(H1 & H2 & H3 & H4) Htypes].
    repeat (split; [done|]).
    intros channel Hin. cbn [app] in Htypes.
    rewrite <- (count_where_fmap (String.eqb (type_of_channel channel))
                  type_of_channel).
    apply (Htypes Hnd). apply (dict_get_elem_of _ _ _ Hnd).
    rewrite Hget; [done|]. apply Hkeys. right.
    apply list_elem_of_fmap. by exists channel.
  - intros Hcase.
    cut (wp (Ultimate.collect_channels E)
           (returned (fun _ w' =>
              gauges w' =
              <[(Ultimate.channels_total, []) := Qc_of_Z 0]> (gauges w))) w).
    { intros H. destruct (wp_returns _ _ _ H) as ([] & w' & Heq & HP). eauto. }
    unfold Ultimate.collect_channels. wp_step. wp_step. fold channels.
    assert (Hcond :
      (negb (truthy channels) ||
       negb (from_option (fun c => has_key (Items c)) false channels))%bool
      = true).
    { destruct Hcase as [->|(q & -> & Hq)]; [done|].
      cbn. rewrite Hq. apply orb_true_r. }
    rewrite Hcond. wp_steps. cbn [returned]. project.
    by rewrite (step_gauges _ _ _ _ _ Hstep).
Qed.

Lemma channels_are_counted_witness :
  exists w',
    Ultimate.collect_channels channels_online Ultimate.boot = (Return tt, w') /\
    gauges w' !! (Ultimate.channels_total, []) = Some (Qc_of_Z 120) /\
    gauges w' !! (Ultimate.channels_hd, []) = Some (Qc_of_Z 2) /\
    gauges w' !! (Ultimate.channels_available, []) = Some (Qc_of_Z 1) /\
    gauges w' !! (Ultimate.channel_favorites, []) = Some (Qc_of_Z 1) /\
    gauges w' !! (Ultimate.channels_by_type, ["Unknown"]) = Some (Qc_of_Z 1).
Proof.
  destruct (proj1 (channels_are_counted channels_online Ultimate.boot)
              {| Items := Some three_channels; TotalRecordCount := Some 120 |}
              three_channels eq_refl eq_refl)
    as (w' & Hrun & Htotal & Hhd & Havailable & Hfavorite & Htype).
  exists w'. repeat split; try assumption.
  apply (Htype {| channel_Id := None; channel_Name := Some "Sports1";
                  channel_ChannelNumber := None; channel_Number := None;
                  channel_IsHD := Some true; channel_IsDisabled := None;
                  channel_UserData := Some {| IsFavorite := None |};
                  channel_Type := None |}).
  do 2 apply list_elem_of_further. apply list_elem_of_here.
Defined.

(** ** The local variables of the session loop *)

Lemma wp_any {W A} (m : M W A) (Q : outcome A -> W -> Prop) (w : W) :
  (forall r w', Q r w') -> wp m Q w.
Proof. intros HQ. apply HQ. Qed.

Lemma session_body_counts (E : Env) (current_hour : nat) (s : Session)
  (L : Ultimate.Locals) (w : Ultimate.state) :
  wp (Ultimate.session_body E current_hour s L)
    (fun r _ => match r with
                | Return L' => counts_step s L L'
                | Raise _ => True
                end) w.
Proof.
  unfold Ultimate.session_body, counts_step, is_transcoded, is_live_tv,
    live_user, live_key, live_session.
  destruct (session_NowPlayingItem s) as [np|]; [|by wp_steps; rewrite !Z.add_0_r].
  destruct (truthy np && bool_decide (np_Type np = Some "TvChannel"))%bool;
    [|by wp_steps; rewrite !Z.add_0_r].
  wp_step. wp_step. wp_step. wp_step.
  wp_step. apply wp_any. intros [[]|e] w1; [|done].
  wp_step. apply wp_any. intros [[]|e] w2; [|done].
  wp_step. apply wp_any. intros [[]|e] w3; [|done].
  wp_step. apply wp_any. intros [bw_q|e] w4; [|done].
  wp_step. apply wp_any. intros [[]|e] w5; [|done].
  wp_step. cbn. repeat split.
  destruct (String.eqb _ "Transcode"); lia.
Qed.
Lemma count_where_cons {A : Type} (p : A -> bool) (x : A) (l : list A) :
  count_where p (x :: l) = (if p x then 1 else 0) + count_where p l.
Proof. unfold count_where. cbn. destruct (p x); cbn [length]; lia. Qed.

Lemma viewers_cons (s : Session) (l : list Session) :
  viewers (s :: l) =
  from_option (fun user => {[user]} ∪ viewers l) (viewers l) (live_user s).
Proof. unfold viewers. cbn. by destruct (live_user s). Qed.

Lemma live_keys_cons (s : Session) (l : list Session) :
  omap live_key (s :: l) =
  from_option (fun k => k :: omap live_key l) (omap live_key l) (live_key s).
Proof. cbn. by destruct (live_key s). Qed.

Lemma sessions_loop_counts (E : Env) (current_hour : nat) (l : list Session) :
  forall (L : Ultimate.Locals) (w : Ultimate.state),
    wp (for_fold l (Ultimate.session_body E current_hour) L)
      (fun r _ => match r with
                  | Return L' => counts_of l L L'
                  | Raise _ => True
                  end) w.
Proof.
  induction l as [|s l IH]; intros L w; cbn [for_fold].
  - apply wp_ret. unfold counts_of, viewers, count_where. cbn.
    rewrite !Z.add_0_r, (right_id_L ∅ (∪)). done.
  - apply wp_bind. eapply wp_consequence; [apply session_body_counts|].
    intros [L1|e] w1 H1; [|done].
    eapply wp_consequence; [apply IH|].
    intros [L'|e] w' H'; [|done]. cbv beta.
    destruct H1 as (A1 & B1 & C1 & D1), H' as (A2 & B2 & C2 & D2).
    unfold counts_of. rewrite !count_where_cons, viewers_cons, live_keys_cons.
    split; [lia|]. split; [|split; [lia|]].
    + rewrite B2, B1.
      destruct (live_user s) as [user|]; cbn [from_option]; [|done].
      rewrite (comm_L (∪) {[user]} (Ultimate.users_watching_set L)).
      by rewrite (assoc_L (∪)).
    + rewrite D2, D1. by destruct (live_key s).
Qed.
Lemma session_loop_keeps_peak (E : Env) (current_hour : nat)
  (l : list Session) (L : Ultimate.Locals) :
  preserves (fun w : Ultimate.state => Ultimate.peak_streams_24h (self w))
    (for_fold l (Ultimate.session_body E current_hour) L).
Proof.
  apply preserves_for_fold. intros s L0.
  unfold Ultimate.session_body, Ultimate.track_channel_switches,
    Ultimate.track_watch_time, Ultimate.publish_current_program,
    Ultimate.publish_transcoding_info.
  preserves_auto.
Qed.

(** On a delivered, non-empty list [collect_sessions] reaches what follows
    the loop, with the counts of the list in its local variables. *)
Lemma collect_sessions_counts (E : Env) (w : Ultimate.state)
  (l : list Session) :
  clock_monotone E ->
  anchors_in_past E (tracked w) ->
  delivered (sessions E (length (sent w)) []) = Some l ->
  l <> [] ->
  exists L' w2,
    Ultimate.collect_sessions E w = Ultimate.publish_sessions L' w2 /\
    counts_of l Ultimate.no_sessions_yet L' /\
    Ultimate.peak_streams_24h (self w2) = Ultimate.peak_streams_24h (self w).
Proof.
  intros Hmono Hpast Hresp Hne. unfold Ultimate.collect_sessions.
  destruct (ultimate_request_delivers E "/Sessions" [] (sessions E) w l Hresp)
    as (w1 & Heq1 & Hg1 & Hcs1 & Hself1 & Hticks1).
  rewrite (bind_returns _ _ _ _ _ Heq1).
  destruct l as [|s0 l0]; [done|]. set (l := s0 :: l0) in *.
  cbn [truthy truthy_option truthy_list negb l].
  unfold bind at 1. cbn [deref ret].
  unfold bind at 1, clock_hour at 1.
  match goal with
  | |- context [bind (for_fold l _ ?L0) _ ?w0] =>
      destruct (sessions_loop_tracks E Hmono (now_hour E (ticks w1)) l L0 w0)
        as (L' & w2 & Heq & _);
      [|pose proof (sessions_loop_counts E (now_hour E (ticks w1)) l L0 w0)
          as Hcounts;
        pose proof (session_loop_keeps_peak E (now_hour E (ticks w1)) l L0 w0)
          as Hpeak]
  end.
  { unfold tracked. cbn [counters ticks self with_ticks].
    rewrite Hself1.
    apply (anchors_later E (tracked w)); [done|done|]. cbn. lia. }
  rewrite (bind_returns _ _ _ _ _ Heq).
  unfold wp in Hcounts. rewrite Heq in Hcounts, Hpeak. cbn in Hcounts, Hpeak.
  exists L', w2. rewrite Hpeak, <- Hself1. done.
Qed.

(** ** The headline gauges of the sessions *)

(** X6.  When /Sessions delivers a non-empty list, [collect_sessions] leaves
    [streams_active] at the number of sessions that play a [TvChannel],
    [users_watching] at the number of distinct user names among them,
    [transcoding_active] at the number of them whose play method is
    "Transcode", and both the exporter's peak and the
    [peak_concurrent_streams] gauge at the larger of the old peak and the
    number of streams.  (The clock must not run backwards and no watch anchor
    may lie in the future, or the watch-time counter would refuse a negative
    increment inside the loop.) *)
Theorem sessions_headline_gauges (E : Env) (w : Ultimate.state)
  (l : list Session) :
  clock_monotone E ->
  anchors_in_past E (tracked w) ->
  delivered (sessions E (length (sent w)) []) = Some l ->
  l <> [] ->
  let w' := snd (Ultimate.collect_sessions E w) in
  let streams := count_where is_live_tv l in
  gauges w' !! (Ultimate.streams_active, []) = Some (Qc_of_Z streams) /\
  gauges w' !! (Ultimate.users_watching, []) =
    Some (of_nat (size (viewers l))) /\
  gauges w' !! (Ultimate.transcoding_active, []) =
    Some (Qc_of_Z (count_where is_transcoded l)) /\
  gauges w' !! (Ultimate.peak_concurrent_streams, []) =
    Some (Qc_of_Z (Z.max (Ultimate.peak_streams_24h (self w)) streams)) /\
  Ultimate.peak_streams_24h (self w') =
    Z.max (Ultimate.peak_streams_24h (self w)) streams.
Proof.
  intros Hmono Hpast Hresp Hne. cbv zeta.
  destruct (collect_sessions_counts E w l Hmono Hpast Hresp Hne)
    as (L' & w2 & -> & (Hn & Hu & Ht & _) & Hpeak).
  cbn in Hn, Hu, Ht. rewrite (left_id_L ∅ (∪)) in Hu.
  rewrite Z.add_0_l in Hn, Ht.
  rewrite <- Hpeak, <- Hn, <- Hu, <- Ht. clear.
  as_wp (Ultimate.publish_sessions L') w2.
  unfold Ultimate.publish_sessions.
  do 11 wp_next.
  wp_next.
  set (peak := Ultimate.peak_streams_24h (self w2)).
  set (n := Ultimate.livetv_stream_count L').
  assert (Hfinish : forall w3 : Ultimate.state,
    gauges w3 !! (Ultimate.streams_active, []) = Some (Qc_of_Z n) ->
    gauges w3 !! (Ultimate.users_watching, []) =
      Some (of_nat (size (Ultimate.users_watching_set L'))) ->
    gauges w3 !! (Ultimate.transcoding_active, []) =
      Some (Qc_of_Z (Ultimate.transcoding_count L')) ->
    Ultimate.peak_streams_24h (self w3) = Z.max peak n ->
    wp
      (me <- get_self;;
       gauge_set Ultimate.peak_concurrent_streams []
         (Qc_of_Z (Ultimate.peak_streams_24h me));;;
       for_each (Ultimate.channel_viewers L')
         (λ '(channel_key, count),
            name_number <- Ultimate.unpack_channel_key channel_key;;
            gauge_set Ultimate.streams_by_channel
              [name_number.1; name_number.2] (Qc_of_Z count));;;
       for_each (Ultimate.quality_counts L')
         (λ '(quality, count),
            gauge_set Ultimate.streams_by_quality [quality] (Qc_of_Z count));;;
       for_each (Ultimate.method_counts L')
         (λ '(method, count),
            gauge_set Ultimate.streams_by_method [method] (Qc_of_Z count));;;
       for_each (Ultimate.user_streams L')
         (λ '(user, count),
            gauge_set Ultimate.concurrent_streams_per_user [user]
              (Qc_of_Z count));;;
       me0 <- get_self;;
       for_each (Ultimate.channel_popularity_scores me0)
         (λ '(channel, score),
            gauge_set Ultimate.popular_channels [channel; "N/A"]
              (score /
               match Ultimate.channel_popularity_scores me0 with
               | [] => 1
               | (_, score0) :: rest => foldr Qc_max score0 rest.*2
               end * Qc_of_Z 100));;;
       for_each (seq 0 24)
         (λ hour : nat,
            gauge_set Ultimate.hourly_active_users [pretty hour]
              (of_nat (size (default ∅ (Ultimate.hourly_users me0 !! hour)))));;;
       when (negb (bool_decide (Ultimate.users_watching_set L' = ∅)))
         (gauge_set Ultimate.prime_time_usage []
            (of_nat
               (size
                  (⋃ ((λ hour : nat,
                         default ∅ (Ultimate.hourly_users me0 !! hour)) <$>
                      seq 18 5))) /
             of_nat (size (Ultimate.users_watching_set L')) * Qc_of_Z 100)))
      (λ (_ : outcome ()) (s : Ultimate.state),
         gauges s !! (Ultimate.streams_active, []) = Some (Qc_of_Z n)
         ∧ gauges s !! (Ultimate.users_watching, []) =
           Some (of_nat (size (Ultimate.users_watching_set L')))
         ∧ gauges s !! (Ultimate.transcoding_active, []) =
           Some (Qc_of_Z (Ultimate.transcoding_count L'))
         ∧ gauges s !! (Ultimate.peak_concurrent_streams, []) =
           Some (Qc_of_Z (Z.max peak n))
         ∧ Ultimate.peak_streams_24h (self s) = Z.max peak n) w3).
  { intros w3 H1 H2 H3 H4. wp_next. wp_next. wp_next. wp_next.
    match goal with
    | |- wp ?m _ ?w0 =>
        assert (Hrest :
          preserves
            (fun w : Ultimate.state =>
               (gauges w !! (Ultimate.streams_active, []),
                (gauges w !! (Ultimate.users_watching, []),
                 (gauges w !! (Ultimate.transcoding_active, []),
                  (gauges w !! (Ultimate.peak_concurrent_streams, []),
                   Ultimate.peak_streams_24h (self w)))))) m)
          by (repeat apply preserves_pair;
              unfold Ultimate.unpack_channel_key; preserves_auto)
    end.
    eapply wp_preserves; [exact Hrest|].
    intros r w' [= -> -> -> -> ->]. look. by rewrite H4. }
  destruct (Z.ltb_spec peak n).
  - wp_next. apply Hfinish; look; try done. cbn. lia.
  - apply Hfinish; look; try done. lia.
Qed.

Lemma sessions_headline_gauges_witness :
  let l := [alice_on_news; bob_on_film; dora_without_playstate] in
  let w' := snd (Ultimate.collect_sessions three_viewers Ultimate.boot) in
  let streams := count_where is_live_tv l in
  gauges w' !! (Ultimate.streams_active, []) = Some (Qc_of_Z streams) /\
  gauges w' !! (Ultimate.users_watching, []) =
    Some (of_nat (size (viewers l))) /\
  gauges w' !! (Ultimate.transcoding_active, []) =
    Some (Qc_of_Z (count_where is_transcoded l)) /\
  gauges w' !! (Ultimate.peak_concurrent_streams, []) =
    Some (Qc_of_Z (Z.max (Ultimate.peak_streams_24h (self Ultimate.boot))
                     streams)) /\
  Ultimate.peak_streams_24h (self w') =
    Z.max (Ultimate.peak_streams_24h (self Ultimate.boot)) streams.
Proof.
  apply (sessions_headline_gauges three_viewers Ultimate.boot
           [alice_on_news; bob_on_film; dora_without_playstate]).
  - by apply sample_clock_monotone.
  - apply boot_anchors_in_past.
  - reflexivity.
  - discriminate.
Defined.

Example three_viewers_counted :
  let l := [alice_on_news; bob_on_film; dora_without_playstate] in
  count_where is_live_tv l = 1 /\ size (viewers l) = 1%nat /\
  count_where is_transcoded l = 1.
Proof. by vm_compute. Qed.

(** ** Splitting a channel key *)

Lemma split_on_nonempty (sep : ascii) (s : string) : split_on sep s <> [].
Proof.
  destruct s as [|c s]; cbn; [done|].
  destruct (Ascii.eqb c sep); [done|]. by destruct (split_on sep s).
Qed.

Lemma split_on_no_sep (sep : ascii) (s : string) :
  has_char sep s = false -> split_on sep s = [s].
Proof.
  induction s as [|c s IH]; cbn; [done|].
  intros [Hc Hs]%orb_false_elim. by rewrite Hc, (IH Hs).
Qed.

Lemma split_on_app (sep : ascii) (a b : string) :
  split_on sep (a ++ String sep b) = (split_on sep a ++ split_on sep b)%list.
Proof.
  induction a as [|c a IH].
  - change ("" ++ String sep b) with (String sep b).
    cbn. by rewrite Ascii.eqb_refl.
  - rewrite append_cons. cbn [split_on].
    destruct (Ascii.eqb c sep); [by rewrite IH|].
    rewrite IH. pose proof (split_on_nonempty sep a).
    by destruct (split_on sep a).
Qed.

Lemma split_on_sep_length (sep : ascii) (s : string) :
  has_char sep s = true -> (2 <= length (split_on sep s))%nat.
Proof.
  induction s as [|c s IH]; cbn; [done|].
  destruct (Ascii.eqb c sep); cbn.
  - intros _. pose proof (split_on_nonempty sep s).
    destruct (split_on sep s); [done|cbn; lia].
  - intros Hs. specialize (IH Hs).
    destruct (split_on sep s); cbn in *; lia.
Qed.

(** The key of a channel unpacks to the name and the number exactly when
    neither holds the separator. *)
Lemma key_round_trip (channel_name channel_number : string) :
  if (has_char "|" channel_name || has_char "|" channel_number)%bool
  then key_unpacks (channel_name ++ "|" ++ channel_number) = false
  else split_on "|" (channel_name ++ "|" ++ channel_number)
       = [channel_name; channel_number].
Proof.
  unfold key_unpacks.
  change ("|" ++ channel_number) with (String "|" channel_number).
  rewrite split_on_app.
  pose proof (split_on_nonempty "|" channel_name) as Hn1.
  pose proof (split_on_nonempty "|" channel_number) as Hn2.
  destruct (has_char "|" channel_name) eqn:H1; cbn [orb].
  - apply split_on_sep_length in H1.
    destruct (split_on "|" channel_name) as [|a [|b la]]; cbn in *; try lia.
    destruct (split_on "|" channel_number); [done|]. by destruct la.
  - rewrite (split_on_no_sep _ _ H1).
    destruct (has_char "|" channel_number) eqn:H2.
    + apply split_on_sep_length in H2.
      destruct (split_on "|" channel_number) as [|a [|b la]]; cbn in *; lia || done.
    + by rewrite (split_on_no_sep _ _ H2).
Qed.

Lemma live_key_unpacks (s : Session) (k : string) :
  live_key s = Some k -> key_unpacks k = negb (key_is_ambiguous s).
Proof.
  unfold live_key, key_is_ambiguous.
  destruct (session_NowPlayingItem s) as [np|]; [|done].
  destruct (truthy np && bool_decide (np_Type np = Some "TvChannel"))%bool;
    [|done].
  intros [= <-]. cbn [andb].
  pose proof (key_round_trip (default "Unknown Channel" (np_Name np))
                (default "N/A" (np_ChannelNumber np))) as H.
  destruct (has_char "|" _ || has_char "|" _)%bool; [done|].
  unfold key_unpacks. by rewrite H.
Qed.

Lemma not_live_is_not_ambiguous (s : Session) :
  live_key s = None -> key_is_ambiguous s = false.
Proof.
  unfold live_key, key_is_ambiguous.
  destruct (session_NowPlayingItem s) as [np|]; [|done].
  by destruct (truthy np && bool_decide (np_Type np = Some "TvChannel"))%bool.
Qed.

(** ** Writing the session locals out *)

Lemma viewers_loop_outcome (d : list (string * Z)) :
  forall w : Ultimate.state,
    fst (for_each d
           (fun '(channel_key, count) =>
              name_number <- Ultimate.unpack_channel_key channel_key ;;
              gauge_set Ultimate.streams_by_channel
                [name_number.1; name_number.2] (Qc_of_Z count)) w) =
    if forallb key_unpacks d.*1 then Return tt else Raise ValueError.
Proof.
  induction d as [|[k c] d IH]; intros w; [done|].
  cbn [for_each fmap list_fmap forallb fst].
  unfold bind at 1, bind at 1, Ultimate.unpack_channel_key, key_unpacks.
  destruct (split_on "|" k) as [|a [|b [|x l]]]; try done.
  cbn. apply IH.
Qed.

Lemma after_viewers_loop_returns (L : Ultimate.Locals) :
  returns_keeping (fun _ : Ultimate.state => tt)
    (for_each (Ultimate.quality_counts L)
       (fun '(quality, count) =>
          gauge_set Ultimate.streams_by_quality [quality] (Qc_of_Z count)) ;;;
     for_each (Ultimate.method_counts L)
       (fun '(method, count) =>
          gauge_set Ultimate.streams_by_method [method] (Qc_of_Z count)) ;;;
     for_each (Ultimate.user_streams L)
       (fun '(user, count) =>
          gauge_set Ultimate.concurrent_streams_per_user [user] (Qc_of_Z count)) ;;;
     me <- get_self ;;
     let max_popularity :=
       match Ultimate.channel_popularity_scores me with
       | [] => 1%Qc
       | (_, score) :: rest => foldr Qc_max score (snd <$> rest)
       end in
     for_each (Ultimate.channel_popularity_scores me)
       (fun '(channel, score) =>
          let normalized_score := (score / max_popularity * Qc_of_Z 100)%Qc in
          gauge_set Ultimate.popular_channels [channel; "N/A"] normalized_score) ;;;
     for_each (seq 0 24)
       (fun hour =>
          gauge_set Ultimate.hourly_active_users [pretty hour]
            (of_nat (size (default ∅ (Ultimate.hourly_users me !! hour))))) ;;;
     let prime_time_users : gset string :=
       ⋃ ((fun hour => default ∅ (Ultimate.hourly_users me !! hour)) <$> seq 18 5) in
     when (negb (bool_decide (Ultimate.users_watching_set L = ∅)))
       (gauge_set Ultimate.prime_time_usage []
          (of_nat (size prime_time_users) /
           of_nat (size (Ultimate.users_watching_set L)) * Qc_of_Z 100)%Qc)).
Proof. repeat first [returns_step | progress cbv zeta]. Qed.

Lemma publish_sessions_outcome (L : Ultimate.Locals) (w : Ultimate.state) :
  fst (Ultimate.publish_sessions L w) =
  if forallb key_unpacks (Ultimate.channel_viewers L).*1
  then Return tt else Raise ValueError.
Proof.
  as_wp (Ultimate.publish_sessions L) w.
  unfold Ultimate.publish_sessions.
  do 11 wp_next.
  assert (Hrest : forall w3 : Ultimate.state,
    wp
      (me <- get_self;;
       gauge_set Ultimate.peak_concurrent_streams []
         (Qc_of_Z (Ultimate.peak_streams_24h me));;;
       for_each (Ultimate.channel_viewers L)
         (λ '(channel_key, count),
            name_number <- Ultimate.unpack_channel_key channel_key;;
            gauge_set Ultimate.streams_by_channel
              [name_number.1; name_number.2] (Qc_of_Z count));;;
       for_each (Ultimate.quality_counts L)
         (λ '(quality, count),
            gauge_set Ultimate.streams_by_quality [quality] (Qc_of_Z count));;;
       for_each (Ultimate.method_counts L)
         (λ '(method, count),
            gauge_set Ultimate.streams_by_method [method] (Qc_of_Z count));;;
       for_each (Ultimate.user_streams L)
         (λ '(user, count),
            gauge_set Ultimate.concurrent_streams_per_user [user]
              (Qc_of_Z count));;;
       me0 <- get_self;;
       for_each (Ultimate.channel_popularity_scores me0)
         (λ '(channel, score),
            gauge_set Ultimate.popular_channels [channel; "N/A"]
              (score /
               match Ultimate.channel_popularity_scores me0 with
               | [] => 1
               | (_, score0) :: rest => foldr Qc_max score0 rest.*2
               end * Qc_of_Z 100));;;
       for_each (seq 0 24)
         (λ hour : nat,
            gauge_set Ultimate.hourly_active_users [pretty hour]
              (of_nat (size (default ∅ (Ultimate.hourly_users me0 !! hour)))));;;
       when (negb (bool_decide (Ultimate.users_watching_set L = ∅)))
         (gauge_set Ultimate.prime_time_usage []
            (of_nat
               (size
                  (⋃ ((λ hour : nat,
                         default ∅ (Ultimate.hourly_users me0 !! hour)) <$>
                      seq 18 5))) /
             of_nat (size (Ultimate.users_watching_set L)) * Qc_of_Z 100)))
      (λ (o : outcome ()) (_ : Ultimate.state),
         o = if forallb key_unpacks (Ultimate.channel_viewers L).*1
             then Return tt else Raise ValueError) w3).
  { intros w3. do 5 wp_next.
    match goal with
    | |- wp ?m _ ?w0 =>
        pose proof (viewers_loop_outcome (Ultimate.channel_viewers L) w0) as Hloop;
        unfold wp; destruct (m w0) as [[[]|e] w4]; cbn [fst snd] in *
    end.
    - rewrite <- Hloop.
      destruct (after_viewers_loop_returns L w4) as ([] & w5 & Heq & _).
      unfold wp. cbv zeta in Heq. by rewrite Heq.
    - done. }
  wp_next. destruct (_ <? _); [wp_next|]; apply Hrest.
Qed.

(** ** A separator inside a channel name *)

Lemma live_keys_unpack (l : list Session) :
  forallb key_unpacks (omap live_key l) = negb (existsb key_is_ambiguous l).
Proof.
  induction l as [|s l IH]; [done|].
  rewrite live_keys_cons. cbn [existsb].
  destruct (live_key s) as [k|] eqn:Hk; cbn [from_option forallb].
  - rewrite (live_key_unpacks s k Hk), IH. by rewrite negb_orb.
  - by rewrite (not_live_is_not_ambiguous s Hk), IH.
Qed.

Lemma forallb_same_elements {A : Type} (p : A -> bool) (l1 l2 : list A) :
  (forall x, x ∈ l1 <-> x ∈ l2) -> forallb p l1 = forallb p l2.
Proof.
  intros Hsame. apply eq_true_iff_eq. rewrite !forallb_forall.
  setoid_rewrite <- list_elem_of_In. by setoid_rewrite Hsame.
Qed.

(** X7.  The viewers per channel are keyed by the channel name and number
    joined with "|", and the key is split again when the gauges are written.
    So, for a non-empty session list, [collect_sessions] raises [ValueError]
    exactly when some Live TV session has a "|" in its channel name or
    number, and returns otherwise.  (Clock and anchors as above; the
    popularity scores are positive, as they are in every state reached from
    [boot], so that the normalisation has a non-zero divisor.) *)
Theorem ambiguous_channel_key_aborts (E : Env) (w : Ultimate.state)
  (l : list Session) :
  clock_monotone E ->
  anchors_in_past E (tracked w) ->
  scores_positive (self w) ->
  delivered (sessions E (length (sent w)) []) = Some l ->
  l <> [] ->
  fst (Ultimate.collect_sessions E w) =
  if existsb key_is_ambiguous l then Raise ValueError else Return tt.
Proof.
  intros Hmono Hpast _ Hresp Hne.
  destruct (collect_sessions_counts E w l Hmono Hpast Hresp Hne)
    as (L' & w2 & -> & (_ & _ & _ & Hkeys) & _).
  rewrite publish_sessions_outcome, Hkeys.
  destruct (tally_counts (omap live_key l) []) as (_ & Hsame & _);
    [apply NoDup_nil_2|].
  cbn [Ultimate.channel_viewers Ultimate.no_sessions_yet].
  rewrite (forallb_same_elements key_unpacks _ (omap live_key l)).
  - rewrite live_keys_unpack. by destruct (existsb key_is_ambiguous l).
  - intros k. rewrite Hsame. cbn. rewrite elem_of_nil. tauto.
Qed.

Lemma ambiguous_channel_key_aborts_witness :
  fst (Ultimate.collect_sessions erin_on_film_drama Ultimate.boot)
  = Raise ValueError.
Proof.
  apply (ambiguous_channel_key_aborts erin_on_film_drama Ultimate.boot
           [live "s5" "erin" "Film|Drama"]).
  - by apply sample_clock_monotone.
  - apply boot_anchors_in_past.
  - apply Forall_nil_2.
  - reflexivity.
  - discriminate.
Defined.

(** ** The fallback of the fixed parser *)

Lemma has_char_app (c : ascii) (a b : string) :
  has_char c (a ++ b) = (has_char c a || has_char c b)%bool.
Proof.
  induction a as [|c' a IH]; [done|].
  rewrite append_cons. cbn [has_char]. by rewrite IH, orb_assoc.
Qed.

Lemma endswith_Z_has_Z (s : string) : endswith_Z s = true -> has_char "Z" s = true.
Proof.
  induction s as [|c s IH]; [done|]. cbn [endswith_Z has_char].
  destruct s as [|c' s].
  - intros ->. done.
  - intros H. rewrite (IH H). apply orb_true_r.
Qed.

Lemma append_empty (s : string) : s ++ "" = s.
Proof. induction s as [|c s IH]; [done|]. by rewrite append_cons, IH. Qed.

Lemma free_of_cons (c : ascii) (cs : list ascii) (s : string) :
  free_of (c :: cs) s = true -> has_char c s = false /\ free_of cs s = true.
Proof.
  cbn [free_of forallb]. intros [Hc Hcs]%andb_prop.
  by apply negb_true_iff in Hc.
Qed.

(** X11.  The last fallback of the fixed exporter's parser.  Take a timestamp
    [base.fraction+hh:mm] or [base.fraction-hh:mm] that the library rejects
    and that the regular expression does not match (the fraction has fewer
    than six digits).  The parser of the ultimate exporter returns [None].
    The fixed parser drops the fraction and asks the library again: with the
    offset when its sign is "+", but with the base time alone when the sign
    is "-", so a negative offset is lost and the result, if any, is a naive
    datetime.  Neither parser raises or touches the state. *)
Theorem fixed_fallback_keeps_only_positive_offsets (E : Env) {W : Type}
  (base_time fraction offset : string) (negative : bool) (w : W) :
  let date_string := with_offset base_time fraction negative offset in
  free_of ["."; "+"; "Z"]%char base_time = true ->
  free_of ["+"; "Z"]%char fraction = true ->
  free_of ["+"; "Z"]%char offset = true ->
  fromisoformat E date_string = Raise ValueError ->
  re_match date_string = None ->
  parse_emby_datetime_fixed E (Some date_string) w =
    (Return (parsed_or_None
               (fromisoformat E
                  (if negative then base_time
                   else base_time ++ "+" ++ offset))), w) /\
  parse_emby_datetime E (Some date_string) w = (Return None, w).
Proof.
  intros date_string Hbase Hfraction Hoffset Hlibrary Hregex.
  apply free_of_cons in Hbase as (Hb_dot & (Hb_plus & (Hb_Z & _)%free_of_cons)%free_of_cons).
  apply free_of_cons in Hfraction as (Hf_plus & (Hf_Z & _)%free_of_cons).
  apply free_of_cons in Hoffset as (Ho_plus & (Ho_Z & _)%free_of_cons).
  set (sign := (if negative then "-" else "+")%char) in *.
  assert (Hsign_Z : Ascii.eqb sign "Z" = false) by (by destruct negative).
  assert (HZ : has_char "Z" date_string = false).
  { unfold date_string, with_offset. rewrite !has_char_app. cbn [has_char].
    fold sign. by rewrite Hb_Z, Hf_Z, Ho_Z, Hsign_Z. }
  assert (Hends : endswith_Z date_string = false).
  { destruct (endswith_Z date_string) eqn:H; [|done].
    apply endswith_Z_has_Z in H. congruence. }
  assert (Hstandard : @standard_parse E W date_string w = (Raise ValueError, w)).
  { unfold standard_parse. rewrite Hends. unfold bind, lift. by rewrite Hlibrary. }
  assert (Hdot : has_char "." date_string = true).
  { unfold date_string, with_offset. rewrite has_char_app.
    change ("." ++ ?x) with (String "."%char x). cbn [has_char].
    apply orb_true_r. }
  assert (Htruthy : truthy date_string = true).
  { destruct date_string; [discriminate Hdot|done]. }
  assert (Hpiece : split_on "." date_string !! 0%nat = Some base_time).
  { unfold date_string, with_offset.
    change ("." ++ ?x) with (String "."%char x).
    by rewrite split_on_app, (split_on_no_sep _ _ Hb_dot). }
  split.
  - unfold parse_emby_datetime_fixed. cbn [truthy truthy_option default].
    rewrite Htruthy. cbn [negb]. unfold id.
    unfold try_catch. rewrite Hstandard. cbn [is_ValueError].
    unfold try_except, truncated_parse. rewrite Hregex, Hdot.
    unfold bind at 1. unfold index at 1. rewrite Hpiece. cbn [ret].
    destruct negative.
    + assert (Hplus : has_char "+" date_string = false).
      { unfold date_string, with_offset. rewrite !has_char_app. cbn [has_char].
        by rewrite Hb_plus, Hf_plus, Ho_plus. }
      rewrite Hplus, HZ. unfold bind, ret, lift.
      rewrite append_empty. by destruct (fromisoformat E base_time).
    + assert (Hplus : has_char "+" date_string = true).
      { unfold date_string, with_offset. rewrite !has_char_app. cbn [has_char].
        by rewrite !orb_true_r. }
      assert (Hpieces : split_on "+" date_string !! 1%nat = Some offset).
      { unfold date_string, with_offset. rewrite <- !append_assoc.
        rewrite split_on_app, (split_on_no_sep _ _ Ho_plus).
        rewrite split_on_no_sep; [done|].
        rewrite !has_char_app. cbn [has_char]. by rewrite Hb_plus, Hf_plus. }
      rewrite Hplus. unfold bind at 2. unfold index. rewrite Hpieces.
      unfold bind, ret, lift.
      by destruct (fromisoformat E (base_time ++ "+" ++ offset)).
  - unfold parse_emby_datetime. cbn [truthy truthy_option default].
    rewrite Htruthy. cbn [negb]. unfold id.
    unfold try_catch. rewrite Hstandard. cbn [is_ValueError].
    unfold try_except, truncated_parse. by rewrite Hregex.
Qed.

Lemma fixed_fallback_keeps_only_positive_offsets_witness :
  parse_emby_datetime_fixed whole_seconds_parser
    (Some "2025-07-20T01:16:29.57-05:00") tt
    = (Return (Some july_20_naive), tt) /\
  parse_emby_datetime whole_seconds_parser
    (Some "2025-07-20T01:16:29.57-05:00") tt
    = (Return None, tt).
Proof.
  apply (fixed_fallback_keeps_only_positive_offsets whole_seconds_parser
           "2025-07-20T01:16:29" "57" "05:00" true tt); reflexivity.
Defined.

(** ** What the exporter remembers *)

Section SelfInvariant.
Variable E : Env.
Variable P : Ultimate.Exporter -> Prop.
Hypothesis P_hour : forall x h u,
  P x ->
  P (Ultimate.set_hourly_users
       (fun m => <[h := {[u]} ∪ default ∅ (m !! h)]> m) x).
Hypothesis P_popularity : forall x c,
  P x -> P (Ultimate.set_channel_popularity_scores (incr_float c) x).
Hypothesis P_last : forall x u v,
  P x -> P (Ultimate.set_last_channel_switch (<[u := v]>) x).
Hypothesis P_anchor : forall x i a,
  Ultimate.channel_watch_start x !! i = None ->
  P x -> P (Ultimate.set_channel_watch_start (<[i := a]>) x).
Hypothesis P_peak : forall x n,
  Ultimate.peak_streams_24h x < n ->
  P x -> P (Ultimate.set_peak_streams_24h n x).

Lemma self_frame {A} (m : M Ultimate.state A) :
  preserves self m -> maintains (fun w => P (self w)) m.
Proof. intros Hm w Hw. by rewrite (Hm w). Qed.

(** Break a computation down to pieces that leave the exporter's attributes
    alone. *)
Ltac self_step :=
  lazymatch goal with
  | |- maintains _ (ret _) => apply maintains_ret
  | |- maintains _ (bind _ _) => apply maintains_bind; [|intros ?]
  | |- maintains _ (when _ _) => apply maintains_when
  | |- maintains _ (for_each _ _) => apply maintains_for_each; intros ?
  | |- maintains _ (for_fold _ _ _) => apply maintains_for_fold; intros ? ?
  | |- maintains _ (try_catch _ _ _) => apply maintains_try_catch; [|intros ?]
  | |- maintains _ (try_except _ _) => apply maintains_try_except; [|intros ?]
  | |- maintains _ (parse_emby_datetime _ _) =>
      apply self_frame, parse_emby_datetime_preserves
  | |- maintains _ (Ultimate._make_request _ _ _ _) =>
      unfold Ultimate._make_request
  | |- maintains _ (match ?x with _ => _ end) => destruct x
  | |- maintains _ _ => apply self_frame; preserves_auto
  end.

Ltac self_auto := repeat self_step.

Lemma track_channel_switches_remembers (user channel_name : string) :
  maintains (fun w => P (self w))
    (Ultimate.track_channel_switches E user channel_name).
Proof.
  unfold Ultimate.track_channel_switches.
  apply maintains_bind; [self_auto|intros me].
  apply maintains_bind; [self_auto|intros _].
  apply maintains_bind; [self_auto|intros now].
  intros w Hw. by apply P_last.
Qed.

Lemma track_watch_time_remembers (session_id user channel_name : string) :
  maintains (fun w => P (self w))
    (Ultimate.track_watch_time E session_id user channel_name).
Proof.
  intros w Hw. unfold Ultimate.track_watch_time, bind, get_self.
  destruct (Ultimate.channel_watch_start (self w) !! session_id)
    as [[[old_user old_channel] start_time]|] eqn:Hanchor.
  - destruct (String.eqb old_channel channel_name); cbn [when]; [|done].
    unfold clock_read at 1, counter_inc at 1. cbn.
    by destruct (decide _).
  - cbn. by apply P_anchor.
Qed.

Lemma session_body_remembers (current_hour : nat) (s : Session)
  (L : Ultimate.Locals) :
  maintains (fun w => P (self w)) (Ultimate.session_body E current_hour s L).
Proof.
  unfold Ultimate.session_body.
  destruct (session_NowPlayingItem s) as [np|]; [|apply maintains_ret].
  destruct (_ && _)%bool; [|apply maintains_ret].
  apply maintains_bind; [intros w Hw; by apply P_hour|intros _].
  apply maintains_bind; [intros w Hw; by apply P_popularity|intros _].
  apply maintains_bind; [apply track_channel_switches_remembers|intros _].
  apply maintains_bind; [apply track_watch_time_remembers|intros _].
  unfold Ultimate.publish_current_program, Ultimate.publish_transcoding_info.
  self_auto.
Qed.

Lemma publish_sessions_remembers (L : Ultimate.Locals) :
  maintains (fun w => P (self w)) (Ultimate.publish_sessions L).
Proof.
  intros w Hw.
  change (wp (Ultimate.publish_sessions L) (fun _ w' => P (self w')) w).
  unfold Ultimate.publish_sessions.
  do 11 wp_next. wp_next.
  assert (Hrest : forall (w3 : Ultimate.state) (m : M Ultimate.state unit),
    P (self w3) -> preserves self m ->
    wp m (fun _ w' => P (self w')) w3).
  { intros w3 m H3 Hm. exact (eq_ind_r P H3 (Hm w3)). }
  destruct (Z.ltb_spec (Ultimate.peak_streams_24h (self w))
              (Ultimate.livetv_stream_count L)); [wp_next|];
    lazymatch goal with
    | |- wp ?m _ ?s => refine (Hrest s m _ _)
    end;
    try (unfold Ultimate.unpack_channel_key; preserves_auto).
  - project. by apply P_peak.
  - done.
Qed.

Lemma probe_days_keeps_self (max_days : Z) (remaining : nat) :
  forall days, preserves self (Ultimate.probe_days E max_days remaining days).
Proof.
  induction remaining as [|remaining IH]; intros days; cbn [Ultimate.probe_days].
  - preserves_auto.
  - apply preserves_bind; [unfold Ultimate._make_request; preserves_auto|].
    intros future_programs.
    destruct (Ultimate.no_programs future_programs); [preserves_auto|apply IH].
Qed.

Lemma collect_all_metrics_remembers :
  maintains (fun w => P (self w)) (Ultimate.collect_all_metrics E).
Proof.
  unfold Ultimate.collect_all_metrics.
  apply maintains_try_except; [|intros e; self_auto].
  apply maintains_bind;
    [unfold Ultimate.collect_server_info; self_auto|intros _].
  apply maintains_bind;
    [unfold Ultimate.collect_channels; self_auto|intros _].
  apply maintains_bind.
  { unfold Ultimate.collect_sessions.
    apply maintains_bind; [self_auto|intros sessions].
    destruct (negb (truthy sessions)); [apply maintains_ret|].
    apply maintains_bind; [self_auto|intros l].
    apply maintains_bind; [self_auto|intros current_hour].
    apply maintains_bind.
    - apply maintains_for_fold. intros s L. apply session_body_remembers.
    - intros L. apply publish_sessions_remembers. }
  intros _.
  apply maintains_bind;
    [unfold Ultimate.collect_tuners, Ultimate.tuner_body; self_auto|intros _].
  apply maintains_bind;
    [unfold Ultimate.collect_recordings; self_auto|intros _].
  unfold Ultimate.collect_epg, Ultimate.program_body.
  repeat lazymatch goal with
  | |- maintains _ (Ultimate.probe_days _ _ _ _) =>
      apply self_frame, probe_days_keeps_self
  | |- _ => self_step
  end.
Qed.

Lemma run_remembers (cycles : nat) :
  maintains (fun w => P (self w)) (Ultimate.run E cycles).
Proof.
  induction cycles as [|cycles IH]; cbn [Ultimate.run].
  - apply maintains_ret.
  - apply maintains_bind; [apply collect_all_metrics_remembers|by intros _].
Qed.
End SelfInvariant.

(** ** Accumulators that only grow *)

(** X8.  Nothing ever lowers the exporter's accumulators: over any number of
    cycles [peak_streams_24h] does not decrease (it is an all-time peak, not
    one of the last 24 hours), and every channel that has a popularity score
    keeps one that is at least as large. *)
Theorem peak_is_all_time (E : Env) (cycles : nat) (w : Ultimate.state) :
  let w' := snd (Ultimate.run E cycles w) in
  Ultimate.peak_streams_24h (self w) <= Ultimate.peak_streams_24h (self w') /\
  forall channel score,
    dict_get channel (Ultimate.channel_popularity_scores (self w)) = Some score ->
    exists score',
      dict_get channel (Ultimate.channel_popularity_scores (self w'))
        = Some score' /\
      (score <= score')%Qc.
Proof.
  cbv zeta. split.
  - apply (run_remembers E
             (fun x => Ultimate.peak_streams_24h (self w)
                       <= Ultimate.peak_streams_24h x)); try done.
    intros x n Hn Hx. cbn. lia.
  - intros channel score Hscore.
    apply (run_remembers E
             (fun x => exists score',
                dict_get channel (Ultimate.channel_popularity_scores x)
                  = Some score' /\ (score <= score')%Qc)); try done.
    + intros x c (score' & Hget & Hle). cbn. unfold incr_float.
      rewrite dict_get_incr, Hget.
      destruct (String.eqb c channel); [|by eexists].
      eexists. split; [done|]. cbn.
      apply Qcle_trans with score'; [done|].
      rewrite <- (Qcplus_0_r score') at 1.
      by apply Qcplus_le_compat; [apply Qcle_refl|].
    + exists score. split; [done|apply Qcle_refl].
Qed.

(** X9.  The tracking dictionaries only grow.  Over any number of cycles a
    stored watch anchor stays exactly as it is, also when its session has
    ended or changed channel; a user with a last channel keeps one; and a user
    recorded under an hour of the day stays recorded under it. *)
Theorem tracking_is_never_pruned (E : Env) (cycles : nat)
  (w : Ultimate.state) :
  let w' := snd (Ultimate.run E cycles w) in
  (forall session_id anchor,
     Ultimate.channel_watch_start (self w) !! session_id = Some anchor ->
     Ultimate.channel_watch_start (self w') !! session_id = Some anchor) /\
  (forall user,
     is_Some (Ultimate.last_channel_switch (self w) !! user) ->
     is_Some (Ultimate.last_channel_switch (self w') !! user)) /\
  (forall hour user,
     user ∈ default ∅ (Ultimate.hourly_users (self w) !! hour) ->
     user ∈ default ∅ (Ultimate.hourly_users (self w') !! hour)).
Proof.
  cbv zeta. split; [|split].
  - intros session_id anchor Hanchor.
    apply (run_remembers E
             (fun x => Ultimate.channel_watch_start x !! session_id
                       = Some anchor)); try done.
    intros x i a Hnone Hx. cbn. rewrite lookup_insert_ne; [done|].
    intros ->. congruence.
  - intros user Huser.
    apply (run_remembers E
             (fun x => is_Some (Ultimate.last_channel_switch x !! user)));
      try done.
    intros x u v Hx. cbn. rewrite lookup_insert_is_Some.
    destruct (decide (u = user)); [by left|by right].
  - intros hour user Huser.
    apply (run_remembers E
             (fun x => user ∈ default ∅ (Ultimate.hourly_users x !! hour)));
      try done.
    intros x h u Hx. cbn.
    destruct (decide (h = hour)) as [->|Hne].
    + rewrite lookup_insert_eq. cbn. apply elem_of_union. by right.
    + by rewrite lookup_insert_ne.
Qed.

Lemma tracking_is_never_pruned_witness :
  let w := carol_after_first_cycle in
  let w' := snd (Ultimate.run carol_zaps 2 w) in
  exists start_time,
    Ultimate.channel_watch_start (self w) !! "kitchen"
      = Some ("carol", "News24", start_time) /\
    Ultimate.channel_watch_start (self w') !! "kitchen"
      = Some ("carol", "News24", start_time).
Proof.
  cbv zeta. eexists. split.
  - vm_compute. reflexivity.
  - apply (proj1 (tracking_is_never_pruned carol_zaps 2 carol_after_first_cycle)).
    vm_compute. reflexivity.
Defined.

Lemma peak_is_all_time_witness :
  let w := carol_after_first_cycle in
  let w' := snd (Ultimate.run offline 3 w) in
  Ultimate.peak_streams_24h (self w) = 2 /\
  2 <= Ultimate.peak_streams_24h (self w').
Proof.
  cbv zeta. split.
  - reflexivity.
  - exact (proj1 (peak_is_all_time offline 3 carol_after_first_cycle)).
Defined.

(** ** Sessions, streams and transcodes in the fixed and the debug exporter *)

Lemma debug_loop_counts (l : list Session) :
  forall (i : nat) (streaming transcoding total : Z) (w : Debug.state),
  exists total' w',
    for_fold l Debug.session_body (i, streaming, transcoding, total) w =
    (Return ((i + length l)%nat, streaming + count_where is_streaming l,
             transcoding + count_where is_transcoding l, total'), w') /\
    forall name labels,
      name <> Debug.session_bandwidth ->
      gauges w' !! (name, labels) = gauges w !! (name, labels).
Proof.
  induction l as [|s l IH]; intros i streaming transcoding total w.
  - exists total, w. cbn. by rewrite Nat.add_0_r, !Z.add_0_r.
  - cbn [for_fold]. rewrite !count_where_cons.
    set (streams := count_where is_streaming l) in *.
    set (transcodes := count_where is_transcoding l) in *.
    unfold bind at 1, Debug.session_body at 1, is_transcoding, is_streaming.
    replace (i + length (s :: l))%nat with (S i + length l)%nat by (cbn; lia).
    destruct (session_NowPlayingItem s) as [np|] eqn:Hnp;
      cbn [truthy truthy_option].
    + destruct (truthy np) eqn:Htruthy; cbn [andb].
      * destruct (0 <? Debug.bandwidth_of s);
          unfold bind at 1, gauge_set at 1; cbn [ret];
          edestruct IH as (total' & w' & -> & Hframe); exists total', w';
          (split;
           [ destruct (String.eqb _ "Transcode");
             by rewrite ?Z.add_assoc, ?Z.add_0_r
           | intros name labels Hname; rewrite Hframe by done; cbn;
             rewrite lookup_insert_ne; [done|congruence] ]).
      * cbn [ret]. edestruct IH as (total' & w' & -> & Hframe).
        exists total', w'. by rewrite ?Z.add_assoc, ?Z.add_0_r.
    + cbn [ret]. edestruct IH as (total' & w' & -> & Hframe).
      exists total', w'. by rewrite ?Z.add_assoc, ?Z.add_0_r.
Qed.

Lemma fixed_loop_counts (l : list Session) :
  forall (streaming transcoding total : Z) (w : Fixed.state),
  exists total' w',
    for_fold l Fixed.session_body (streaming, transcoding, total) w =
    (Return (streaming + count_where is_streaming l,
             transcoding + count_where is_transcoding l, total'), w') /\
    forall name labels,
      name <> Fixed.session_bandwidth ->
      gauges w' !! (name, labels) = gauges w !! (name, labels).
Proof.
  induction l as [|s l IH]; intros streaming transcoding total w.
  - exists total, w. cbn. by rewrite !Z.add_0_r.
  - cbn [for_fold]. rewrite !count_where_cons.
    set (streams := count_where is_streaming l) in *.
    set (transcodes := count_where is_transcoding l) in *.
    unfold bind at 1, Fixed.session_body at 1, is_transcoding, is_streaming.
    destruct (truthy (session_NowPlayingItem s)); cbn [andb].
    + destruct (session_PlayState s) as [play_state|]; cbn [from_option default].
      * unfold bind at 1, gauge_set at 1. cbn [ret].
        edestruct IH as (total' & w' & -> & Hframe). exists total', w'.
        split.
        -- destruct (String.eqb _ "Transcode");
             by rewrite ?Z.add_assoc, ?Z.add_0_r.
        -- intros name labels Hname. rewrite Hframe by done. cbn.
           rewrite lookup_insert_ne; [done|congruence].
      * cbn [ret]. edestruct IH as (total' & w' & -> & Hframe).
        exists total', w'. by rewrite ?Z.add_assoc, ?Z.add_0_r.
    + cbn [ret]. edestruct IH as (total' & w' & -> & Hframe).
      exists total', w'. by rewrite ?Z.add_assoc, ?Z.add_0_r.
Qed.

(** X12.  The fixed and the debug exporter count the same things.  For a
    delivered session list (not empty, for the fixed exporter)
    [collect_sessions] returns with [active_sessions] at the length of the
    list, [active_streams] at the number of sessions that have a non-empty
    [NowPlayingItem], and [active_transcodes] at the number of those whose
    play method is "Transcode".  The debug exporter repeats the first two in
    its debug gauges; when the request delivers nothing it sets only these
    two, to 0, and leaves every other gauge as it was. *)
Theorem sessions_are_counted (E : Env) (l : list Session)
  (wd : Debug.state) (wf : Fixed.state) :
  let sessions_total := Qc_of_Z (Z.of_nat (length l)) in
  let streams := Qc_of_Z (count_where is_streaming l) in
  let transcodes := Qc_of_Z (count_where is_transcoding l) in
  (delivered (sessions E (length (sent wd)) []) = Some l ->
   exists w',
     Debug.collect_sessions E wd = (Return tt, w') /\
     gauges w' !! (Debug.active_sessions, []) = Some sessions_total /\
     gauges w' !! (Debug.active_streams, []) = Some streams /\
     gauges w' !! (Debug.active_transcodes, []) = Some transcodes /\
     gauges w' !! (Debug.debug_sessions_found, []) = Some sessions_total /\
     gauges w' !! (Debug.debug_streams_found, []) = Some streams) /\
  (delivered (sessions E (length (sent wd)) []) = None ->
   exists w',
     Debug.collect_sessions E wd = (Return tt, w') /\
     gauges w' = <[(Debug.debug_streams_found, []) := Qc_of_Z 0]>
                   (<[(Debug.debug_sessions_found, []) := Qc_of_Z 0]>
                      (gauges wd))) /\
  (delivered (sessions E (length (sent wf)) []) = Some l ->
   l <> [] ->
   exists w',
     Fixed.collect_sessions E wf = (Return tt, w') /\
     gauges w' !! (Fixed.active_sessions, []) = Some sessions_total /\
     gauges w' !! (Fixed.active_streams, []) = Some streams /\
     gauges w' !! (Fixed.active_transcodes, []) = Some transcodes).
Proof.
  cbv zeta. split; [|split].
  - intros Hresp. unfold Debug.collect_sessions.
    destruct (debug_request_runs E "/Sessions" [] (sessions E) wd)
      as (w1 & Heq1 & Hg1).
    rewrite (bind_returns _ _ _ _ _ Heq1), Hresp.
    unfold bind at 1, gauge_set at 1.
    match goal with
    | |- context [bind (for_fold l _ ?acc) _ ?w0] =>
        destruct (debug_loop_counts l 0 0 0 0 w0)
          as (total' & w2 & Hloop & Hframe)
    end.
    rewrite (bind_returns _ _ _ _ _ Hloop).
    eexists. split; [reflexivity|]. cbn.
    rewrite !Z.add_0_l.
    repeat split;
      repeat first [ done
                   | rewrite lookup_insert_eq
                   | rewrite lookup_insert_ne by discriminate ].
    rewrite Hframe by discriminate. cbn. by rewrite lookup_insert_eq.
  - intros Hresp. unfold Debug.collect_sessions.
    destruct (debug_request_runs E "/Sessions" [] (sessions E) wd)
      as (w1 & Heq1 & Hg1).
    rewrite (bind_returns _ _ _ _ _ Heq1), Hresp.
    eexists. split; [reflexivity|]. cbn. by rewrite Hg1.
  - intros Hresp Hne. unfold Fixed.collect_sessions.
    destruct (fixed_request_runs E "/Sessions" [] (sessions E) wf)
      as (w1 & Heq1 & Hg1).
    rewrite (bind_returns _ _ _ _ _ Heq1), Hresp.
    destruct l as [|s0 l0]; [done|]. set (l := s0 :: l0) in *.
    cbn [truthy truthy_option truthy_list negb l].
    unfold bind at 1. cbn [deref ret].
    destruct (fixed_loop_counts l 0 0 0 w1) as (total' & w2 & Hloop & Hframe).
    rewrite (bind_returns _ _ _ _ _ Hloop).
    eexists. split; [reflexivity|]. cbn -[l].
    rewrite !Z.add_0_l.
    repeat split;
      repeat first [ done
                   | rewrite lookup_insert_eq
                   | rewrite lookup_insert_ne by discriminate ].
Qed.

Lemma sessions_are_counted_witness :
  let l := [alice_on_news; bob_on_film; dora_without_playstate] in
  (exists w',
     Debug.collect_sessions three_viewers Debug.boot = (Return tt, w') /\
     gauges w' !! (Debug.active_sessions, []) = Some (Qc_of_Z 3) /\
     gauges w' !! (Debug.active_streams, []) = Some (Qc_of_Z 3) /\
     gauges w' !! (Debug.active_transcodes, []) = Some (Qc_of_Z 1) /\
     gauges w' !! (Debug.debug_sessions_found, []) = Some (Qc_of_Z 3) /\
     gauges w' !! (Debug.debug_streams_found, []) = Some (Qc_of_Z 3)) /\
  (exists w',
     Fixed.collect_sessions three_viewers Fixed.boot = (Return tt, w') /\
     gauges w' !! (Fixed.active_sessions, []) = Some (Qc_of_Z 3) /\
     gauges w' !! (Fixed.active_streams, []) = Some (Qc_of_Z 3) /\
     gauges w' !! (Fixed.active_transcodes, []) = Some (Qc_of_Z 1)).
Proof.
  destruct (sessions_are_counted three_viewers
              [alice_on_news; bob_on_film; dora_without_playstate]
              Debug.boot Fixed.boot) as (Hdebug & _ & Hfixed).
  split.
  - exact (Hdebug eq_refl).
  - apply (Hfixed eq_refl). discriminate.
Defined.

(** ** The guide section *)

Lemma probe_days_bounds (E : Env) (max_days : Z) (remaining : nat) :
  forall (days : Z) (w : Ultimate.state),
    days + Z.of_nat remaining = max_days + 1 ->
    wp (Ultimate.probe_days E max_days remaining days)
      (returned (fun _ w' =>
         (exists d, gauges w' !! (Ultimate.epg_days_available, [])
                      = Some (Qc_of_Z d) /\
                    days - 1 <= d <= max_days) /\
         forall k, k <> (Ultimate.epg_days_available, []) ->
                   gauges w' !! k = gauges w !! k)) w.
Proof.
  induction remaining as [|remaining IH]; intros days w Hdays;
    cbn [Ultimate.probe_days].
  - wp_next. cbn [returned]. split.
    + exists max_days. split; [by look|lia].
    + intros k Hk. project. by rewrite lookup_insert_ne.
  - wp_next. wp_next.
    pose proof (step_gauges _ _ _ _ _ Hstep) as Hg.
    destruct (Ultimate.no_programs _).
    + wp_next. cbn [returned]. split.
      * exists (days - 1). split; [by look|lia].
      * intros k Hk. project. by rewrite lookup_insert_ne, Hg.
    + eapply wp_consequence; [apply IH; lia|].
      intros [[]|e] w' Hr; [|done]. destruct Hr as ((d & Hd & Hle) & Hk).
      split.
      * exists d. split; [done|lia].
      * intros k Hne. by rewrite (Hk k Hne), Hg.
Qed.

(** X10.  When the request for today's programs delivers nothing,
    [collect_epg] still asks for the upcoming programs and probes the days
    ahead, setting [epg_days_available] to a value between 0 and 14, and then
    raises [AttributeError] at its final log line; [epg_programs_today] keeps
    the value of the previous cycle. *)
Theorem failed_guide_request_raises (E : Env) (w : Ultimate.state) :
  delivered
    (livetv_programs E (length (sent w))
       [("MinStartDate", PDate TodayStart); ("MaxStartDate", PDate TodayEnd);
        ("Limit", PInt 1000)]) = None ->
  exists w' d,
    Ultimate.collect_epg E w = (Raise AttributeError, w') /\
    gauges w' !! (Ultimate.epg_days_available, []) = Some (Qc_of_Z d) /\
    0 <= d <= 14 /\
    gauges w' !! (Ultimate.epg_programs_today, []) =
      gauges w !! (Ultimate.epg_programs_today, []).
Proof.
  intros Htoday.
  cut (wp (Ultimate.collect_epg E)
         (fun r w' =>
            r = Raise AttributeError /\
            exists d,
              gauges w' !! (Ultimate.epg_days_available, []) = Some (Qc_of_Z d) /\
              0 <= d <= 14 /\
              gauges w' !! (Ultimate.epg_programs_today, []) =
                gauges w !! (Ultimate.epg_programs_today, [])) w).
  { unfold wp. destruct (Ultimate.collect_epg E w) as [r w']. cbn.
    intros (-> & d & H). by exists w', d. }
  unfold Ultimate.collect_epg.
  wp_next. wp_next. wp_next. wp_next. rewrite Htoday.
  wp_next. cbn [Ultimate.has_items]. wp_next. wp_next.
  pose proof (step_gauges _ _ _ _ _ Hstep) as Hg0. clear Hstep.
  wp_next.
  pose proof (step_gauges _ _ _ _ _ Hstep) as Hg1. clear Hstep.
  apply wp_bind.
  set (upcoming := delivered _).
  eapply (wp_consequence _ (returned (fun _ w2 =>
       gauges w2 !! (Ultimate.epg_programs_today, []) =
       gauges w !! (Ultimate.epg_programs_today, [])))).
  { destruct (truthy upcoming) eqn:Hup; cbn [when].
    - destruct upcoming as [q|]; [|done].
      do 3 wp_next. cbn [returned]. look. by rewrite Hg1, Hg0.
    - wp_next. cbn [returned]. by rewrite Hg1, Hg0. }
  intros [[]|e] w2 Hw2; cbn [returned] in Hw2; [|done].
  apply wp_bind.
  eapply wp_consequence; [by apply (probe_days_bounds E 14 (Z.to_nat 14) 1)|].
  intros [[]|e] w3 Hw3; cbn [returned] in Hw3; [|done].
  destruct Hw3 as ((d & Hd & Hle) & Hframe).
  apply wp_bind, wp_deref. split; [done|].
  exists d. split; [done|]. split; [lia|].
  by rewrite Hframe, Hw2.
Qed.

Lemma failed_guide_request_raises_witness :
  exists w' d,
    Ultimate.collect_epg offline Ultimate.boot = (Raise AttributeError, w') /\
    gauges w' !! (Ultimate.epg_days_available, []) = Some (Qc_of_Z d) /\
    0 <= d <= 14 /\
    gauges w' !! (Ultimate.epg_programs_today, []) =
      gauges Ultimate.boot !! (Ultimate.epg_programs_today, []).
Proof.
  apply (failed_guide_request_raises offline Ultimate.boot). reflexivity.
Defined.

(** ** The verdict of a cycle *)

Section CollectionErrors.
Variable E : Env.

Lemma probe_days_keeps_collection_errors (max_days : Z) (remaining : nat) :
  forall days,
    preserves collection_errors (Ultimate.probe_days E max_days remaining days).
Proof.
  induction remaining as [|remaining IH]; intros days; cbn [Ultimate.probe_days].
  - preserves_auto.
  - apply preserves_bind; [unfold Ultimate._make_request; preserves_auto|].
    intros future_programs.
    destruct (Ultimate.no_programs future_programs); [preserves_auto|apply IH].
Qed.

(** No section of a cycle counts a collection error: only the handler of
    [collect_all_metrics] does. *)
Lemma sections_keep_collection_errors :
  preserves collection_errors
    (Ultimate.collect_server_info E ;;;
     Ultimate.collect_channels E ;;;
     Ultimate.collect_sessions E ;;;
     Ultimate.collect_tuners E ;;;
     Ultimate.collect_recordings E ;;;
     Ultimate.collect_epg E).
Proof.
  unfold_ultimate;
    repeat lazymatch goal with
    | |- preserves _ (Ultimate.probe_days _ _ _ _) =>
        apply probe_days_keeps_collection_errors
    | |- _ => preserves_step
    end.
Qed.
End CollectionErrors.

(** X13.  What [server_up] says after a cycle.  It is 1 exactly when
    /System/Info was answered with a non-empty object and none of the six
    sections raised; it is 0 otherwise, also when the server answered every
    request and a later section raised.  The [collection_error] child of
    [stream_errors] goes up by one exactly when a section raised, and is
    left alone by the sections themselves. *)
Theorem server_up_means_clean_cycle (E : Env) (w : Ultimate.state) :
  let sections :=
    Ultimate.collect_server_info E ;;;
    Ultimate.collect_channels E ;;;
    Ultimate.collect_sessions E ;;;
    Ultimate.collect_tuners E ;;;
    Ultimate.collect_recordings E ;;;
    Ultimate.collect_epg E in
  let clean := is_Return (fst (sections w)) in
  let answered := truthy (delivered (system_info E (length (sent w)) [])) in
  let w' := snd (Ultimate.collect_all_metrics E w) in
  gauges w' !! (Ultimate.server_up, []) =
    Some (Qc_of_Z (if (answered && clean)%bool then 1 else 0)) /\
  counter_value w' Ultimate.stream_errors ["collection_error"] =
    (counter_value w Ultimate.stream_errors ["collection_error"]
     + if clean then 0 else 1)%Qc.
Proof.
  cbv zeta.
  set (sections := bind (Ultimate.collect_server_info E) _).
  set (answered := truthy _).
  assert (Hup : gauges (snd (sections w)) !! (Ultimate.server_up, [])
                = Some (Qc_of_Z (if answered then 1 else 0))).
  { assert (Hinfo : wp (Ultimate.collect_server_info E)
                      (returned (fun _ w0 =>
                         gauges w0 !! (Ultimate.server_up, [])
                         = Some (Qc_of_Z (if answered then 1 else 0)))) w).
    { unfold Ultimate.collect_server_info. wp_step. wp_step.
      fold answered. destruct answered eqn:Hanswered.
      - wp_step. destruct (delivered _) as [info|]; [|done].
        wp_steps. cbn [returned]. by look.
      - wp_steps. cbn [returned]. by look. }
    destruct (wp_returns _ _ _ Hinfo) as ([] & w0 & Heq & Hw0).
    unfold sections. rewrite (bind_returns _ _ _ _ _ Heq).
    rewrite <- Hw0.
    exact (f_equal fst (later_collectors_keep_server_up E w0)). }
  pose proof (sections_keep_collection_errors E w) as Herrors.
  fold sections in Herrors. unfold collection_errors in Herrors.
  unfold Ultimate.collect_all_metrics, try_except. fold sections.
  destruct (sections w) as [[[]|e] w1]; cbn [fst snd is_Return] in *.
  - split; [by rewrite Hup, andb_true_r|].
    rewrite Qcplus_0_r. exact (f_equal (default (Qc_of_Z 0)) Herrors).
  - unfold bind, gauge_set. rewrite counter_inc_1. cbn.
    split; [by rewrite lookup_insert_eq, andb_false_r|].
    unfold counter_value at 1. cbn. rewrite lookup_insert_eq. cbn.
    f_equal. exact (f_equal (default (Qc_of_Z 0)) Herrors).
Qed.

Lemma server_up_means_clean_cycle_witness :
  let w' := snd (Ultimate.collect_all_metrics healthy_with_erin Ultimate.boot) in
  truthy (delivered (system_info healthy_with_erin 0%nat [])) = true /\
  gauges w' !! (Ultimate.server_up, []) = Some (Qc_of_Z 0) /\
  counter_value w' Ultimate.stream_errors ["collection_error"] =
    (counter_value Ultimate.boot Ultimate.stream_errors ["collection_error"]
     + 1)%Qc.
Proof.
  split; [reflexivity|].
  exact (server_up_means_clean_cycle healthy_with_erin Ultimate.boot).
Defined.

(** ** Requests of the general exporters *)

Lemma debug_request_step (E : Env) {A : Type} (endpoint : string)
  (ps : params) (r : route A) (w : Debug.state) :
  exists w',
    Debug._make_request E endpoint ps r w =
      (Return (delivered (r (length (sent w)) ps)), w') /\
    general_step endpoint ps
      (match r (length (sent w)) ps with Some _ => 2 | None => 1 end) w w'.
Proof.
  unfold delivered, Debug._make_request, bind, try_catch, clock_read,
    session_get, raise_for_status.
  cbn. destruct (r (length (sent w)) ps) as [resp|]; cbn.
  - rewrite counter_inc_1. cbn.
    destruct (status_code resp =? 404) eqn:H404.
    + apply Z.eqb_eq in H404. rewrite H404. cbn.
      rewrite counter_inc_1. cbn. rewrite counter_inc_1.
      eexists. split; [reflexivity|]. split; cbn; try done. lia.
    + cbn. destruct ((400 <=? status_code resp) && (status_code resp <? 600))%bool;
        cbn.
      * rewrite counter_inc_1. cbn. rewrite counter_inc_1.
        eexists. split; [reflexivity|]. split; cbn; try done. lia.
      * eexists. split; [reflexivity|]. split; cbn; try done. lia.
  - rewrite counter_inc_1. cbn. rewrite counter_inc_1.
    eexists. split; [reflexivity|]. split; cbn; done.
Qed.

Lemma fixed_request_step (E : Env) {A : Type} (endpoint : string)
  (ps : params) (r : route A) (w : Fixed.state) :
  exists w',
    Fixed._make_request E endpoint ps r w =
      (Return (delivered (r (length (sent w)) ps)), w') /\
    general_step endpoint ps
      (match delivered (r (length (sent w)) ps) with Some _ => 2 | None => 1 end) w w'.
Proof.
  unfold delivered, Fixed._make_request, bind, try_catch, clock_read,
    session_get, raise_for_status.
  cbn. destruct (r (length (sent w)) ps) as [resp|]; cbn.
  - destruct (status_code resp =? 404) eqn:H404.
    + apply Z.eqb_eq in H404. rewrite H404. cbn.
      rewrite counter_inc_1.
      eexists. split; [reflexivity|]. split; cbn; done.
    + cbn. destruct ((400 <=? status_code resp) && (status_code resp <? 600))%bool;
        cbn.
      * rewrite counter_inc_1.
        eexists. split; [reflexivity|]. split; cbn; done.
      * eexists. split; [reflexivity|]. split; cbn; try done. lia.
  - rewrite counter_inc_1.
    eexists. split; [reflexivity|]. split; cbn; done.
Qed.

Lemma wp_debug_request (E : Env) {A : Type} (endpoint : string)
  (ps : params) (r : route A) (Q : outcome (option A) -> Debug.state -> Prop)
  (w : Debug.state) :
  (forall w1,
     general_step endpoint ps (match r (length (sent w)) ps with Some _ => 2 | None => 1 end) w w1 ->
     Q (Return (delivered (r (length (sent w)) ps))) w1) ->
  wp (Debug._make_request E endpoint ps r) Q w.
Proof.
  intros HQ. unfold wp.
  destruct (debug_request_step E endpoint ps r w) as (w1 & -> & Hstep).
  by apply HQ.
Qed.

Lemma wp_fixed_request (E : Env) {A : Type} (endpoint : string)
  (ps : params) (r : route A) (Q : outcome (option A) -> Fixed.state -> Prop)
  (w : Fixed.state) :
  (forall w1,
     general_step endpoint ps
       (match delivered (r (length (sent w)) ps) with Some _ => 2 | None => 1 end) w w1 ->
     Q (Return (delivered (r (length (sent w)) ps))) w1) ->
  wp (Fixed._make_request E endpoint ps r) Q w.
Proof.
  intros HQ. unfold wp.
  destruct (fixed_request_step E endpoint ps r w) as (w1 & -> & Hstep).
  by apply HQ.
Qed.

Lemma wp_datetime_now {S : Type} (G : GeneralEnv) (tz : option Z)
  (Q : outcome datetime -> World S -> Prop) (w : World S) :
  Q (Return
       match tz with
       | Some offset => {| timestamp := time_time G (ticks w);
                           utcoffset := Some offset |}
       | None => {| timestamp := now_local G (ticks w); utcoffset := None |}
       end)
    (with_ticks (ticks w + 1)%nat w) ->
  wp (datetime_now G tz) Q w.
Proof. done. Qed.

(** One step of a computation of the general exporters. *)
Ltac general_step :=
  lazymatch goal with
  | |- wp (Debug._make_request _ _ _ _) _ _ =>
      apply wp_debug_request;
      let w1 := fresh "w" in let H := fresh "Hstep" in intros w1 H
  | |- wp (Fixed._make_request _ _ _ _) _ _ =>
      apply wp_fixed_request;
      let w1 := fresh "w" in let H := fresh "Hstep" in intros w1 H
  | |- wp (datetime_now _ _) _ _ => apply wp_datetime_now; cbv beta match
  | |- _ => wp_step
  end; project.

(** ** Users of the debug exporter *)

Lemma debug_user_body_outcome (G : GeneralEnv) (user : User)
  (active_count : Z) (w : Debug.state) :
  exists w',
    Debug.user_body G user active_count w =
      (Return (active_count +
               if debug_is_active G (ticks w) user then 1 else 0), w') /\
    gauges w' = gauges w /\
    (ticks w <= ticks w' <= ticks w + 1)%nat.
Proof.
  unfold Debug.user_body, debug_is_active, debug_last_activity.
  destruct (truthy (user_LastActivityDate user)).
  - unfold try_except, bind, lift.
    destruct (fromisoformat G _) as [last|e]; cbn [parsed_or_None].
    + unfold datetime_now, days_between, total_seconds_between, within_days.
      destruct (utcoffset last) as [offset|]; cbn;
        destruct (_ <? 1); unfold ret; rewrite ?Z.add_0_r;
        eexists; (split; [reflexivity|]); cbn; (split; [done|lia]).
    + exists w. rewrite Z.add_0_r. cbn. split; [done|]. split; [done|lia].
  - exists w. rewrite Z.add_0_r. cbn. split; [done|]. split; [done|lia].
Qed.

Lemma debug_user_loop (G : GeneralEnv) (verdict : User -> bool)
  (users : list User) :
  forall (active_count : Z) (w : Debug.state),
    (forall user k,
       user ∈ users -> (ticks w <= k < ticks w + length users)%nat ->
       debug_is_active G k user = verdict user) ->
    exists w',
      for_fold users (Debug.user_body G) active_count w =
        (Return (active_count + count_where verdict users), w') /\
      gauges w' = gauges w.
Proof.
  induction users as [|user users IH]; intros active_count w Hsettled.
  - exists w. cbn. by rewrite Z.add_0_r.
  - cbn [for_fold]. unfold bind at 1.
    destruct (debug_user_body_outcome G user active_count w)
      as (w1 & -> & Hg1 & Ht1).
    rewrite (Hsettled user (ticks w)); [|apply list_elem_of_here|cbn; lia].
    destruct (IH (active_count + if verdict user then 1 else 0) w1)
      as (w2 & -> & Hg2).
    { intros u k Hu Hk. apply Hsettled; [by apply list_elem_of_further|].
      cbn. lia. }
    exists w2. rewrite count_where_cons, Z.add_assoc. split; [done|congruence].
Qed.


(** X14.  The users of the debug exporter.  When /Users delivers a non-empty
    list, [collect_users] returns with [total_users] at the length of the
    list and [active_users] at the number of users whose [LastActivityDate]
    is present, not empty, accepted by [datetime.fromisoformat] once every
    "Z" is written "+00:00", and less than one whole day before the clock
    reading taken for them (a date in the future counts).  A date the
    library rejects, such as one with seven fractional digits before Python
    3.11, never counts.  (The clock readings of the loop, at most one per
    user, all fall on the same side of every user's mark.) *)
Theorem debug_counts_active_users (G : GeneralEnv) (w : Debug.state)
  (l : list User) :
  let start := (ticks w + 2)%nat in
  delivered (users G (length (sent w)) []) = Some l ->
  l <> [] ->
  (forall user k,
     user ∈ l -> (start <= k < start + length l)%nat ->
     debug_is_active G k user = debug_is_active G start user) ->
  exists w',
    Debug.collect_users G w = (Return tt, w') /\
    gauges w' !! (Debug.total_users, []) = Some (of_nat (length l)) /\
    gauges w' !! (Debug.active_users, []) =
      Some (Qc_of_Z (count_where (debug_is_active G start) l)).
Proof.
  intros start Hresp Hne Hsettled.
  unfold Debug.collect_users.
  destruct (debug_request_step G "/Users" [] (users G) w)
    as (w1 & Heq1 & Hstep).
  rewrite (bind_returns _ _ _ _ _ Heq1), Hresp.
  assert (Hticks : ticks w1 = start).
  { rewrite (gstep_ticks _ _ _ _ _ Hstep).
    unfold delivered in Hresp. by destruct (users G _ _). }
  destruct l as [|user0 l0]; [done|]. set (l := user0 :: l0) in *.
  cbn [truthy truthy_option truthy_list negb l].
  unfold bind at 1. cbn [deref ret].
  unfold bind at 1, gauge_set at 1.
  match goal with
  | |- context [bind (for_fold l _ _) _ ?w0] =>
      destruct (debug_user_loop G (debug_is_active G start) l 0 w0)
        as (w2 & Hloop & Hg2)
  end.
  { cbn [ticks with_gauges]. rewrite Hticks. exact Hsettled. }
  rewrite (bind_returns _ _ _ _ _ Hloop).
  eexists. split; [reflexivity|]. cbn -[l].
  rewrite Z.add_0_l, lookup_insert_eq.
  rewrite lookup_insert_ne by discriminate.
  rewrite Hg2. cbn -[l]. by rewrite lookup_insert_eq.
Qed.

Lemma debug_counts_active_users_witness :
  exists w',
    Debug.collect_users household Debug.boot = (Return tt, w') /\
    gauges w' !! (Debug.total_users, []) = Some (of_nat 4) /\
    gauges w' !! (Debug.active_users, []) = Some (Qc_of_Z 1).
Proof.
  apply (debug_counts_active_users household Debug.boot [ann; ben; cat; dan]).
  - reflexivity.
  - discriminate.
  - intros user k Huser Hk. cbn in Hk.
    assert (k = 2 \/ k = 3 \/ k = 4 \/ k = 5)%nat as Hcases by lia.
    repeat (apply elem_of_cons in Huser as [->|Huser]);
      [| | | |by apply elem_of_nil in Huser];
      destruct Hcases as [->|[->|[->| ->]]]; reflexivity.
Defined.

(** ** A cycle of the debug exporter *)





(** ** Users of the fixed exporter *)

Lemma fixed_parse_is_pure (E : Env) {W : Type} (date : option string) (w : W) :
  raises_only_ValueError E ->
  parse_emby_datetime_fixed E date w = (Return (fixed_parsed E date), w).
Proof.
  intros Hlib. unfold fixed_parsed, parse_emby_datetime_fixed.
  destruct (truthy date); cbn [negb]; [|done].
  cbv zeta. set (s := default "" date).
  set (fallback := fun W' : Type =>
    try_except (W := W')
      (truncated_parse E s
         (if has_char "." s then
            date_part <- index (split_on "." s) 0 ;;
            tz_part <-
              (if has_char "+" s then
                 tz <- index (split_on "+" s) 1 ;; ret ("+" ++ tz)
               else if has_char "Z" s then ret "+00:00"
               else ret "") ;;
            d <- lift (fromisoformat E (date_part ++ tz_part)) ;;
            ret (Some d)
          else ret None))
      (fun _ => ret None)).
  assert (Hrest : forall (W' : Type) (w' : W'),
    fallback W' w'
    = (Return (match fst (fallback unit tt) with
               | Return parsed => parsed
               | Raise _ => None
               end), w')).
  { intros W' w'.
    unfold fallback, try_except, truncated_parse, bind, lift, ret, index, raise.
    destruct (re_match s) as [[[base_time microseconds] group3]|].
    - by case_fromisoformat.
    - destruct (has_char "." s); [|done].
      destruct (split_on "." s !! 0%nat); [|done].
      destruct (has_char "+" s).
      + destruct (split_on "+" s !! 1%nat); [|done].
        cbn. by case_fromisoformat.
      + destruct (has_char "Z" s); cbn; by case_fromisoformat. }
  change (try_catch is_ValueError (standard_parse E s) (fun _ => fallback W) w
          = (Return
               match fst (try_catch is_ValueError (standard_parse E s)
                            (fun _ => fallback unit) tt) with
               | Return parsed => parsed
               | Raise _ => None
               end, w)).
  unfold try_catch, standard_parse, bind, lift, ret.
  destruct (endswith_Z s).
  - destruct (fromisoformat E (replace_Z s)) as [d|e] eqn:Hd; [done|].
    rewrite (Hlib _ _ Hd). cbn [is_ValueError fst]. by rewrite Hrest.
  - destruct (fromisoformat E s) as [d|e] eqn:Hd; [done|].
    rewrite (Hlib _ _ Hd). cbn [is_ValueError fst]. by rewrite Hrest.
Qed.

Lemma wp_fixed_parse (E : Env) {W : Type} (date : option string)
  (Q : outcome (option datetime) -> W -> Prop) (w : W) :
  raises_only_ValueError E ->
  Q (Return (fixed_parsed E date)) w ->
  wp (parse_emby_datetime_fixed E date) Q w.
Proof. intros Hlib HQ. unfold wp. by rewrite (fixed_parse_is_pure E date w Hlib). Qed.

Lemma fixed_parsed_falsy (E : Env) (date : option string) :
  truthy date = false -> fixed_parsed E date = None.
Proof.
  intros Hdate. unfold fixed_parsed, parse_emby_datetime_fixed.
  by rewrite Hdate.
Qed.

Lemma fixed_user_body_outcome (G : GeneralEnv) (user : User)
  (active_count : Z) (w : Fixed.state) :
  raises_only_ValueError G ->
  exists w',
    Fixed.user_body G user active_count w =
      (Return (active_count +
               if fixed_is_active G (ticks w) user then 1 else 0), w') /\
    gauges w' =
      apply_writes (gauges w)
        (stats_writes user (stats_answer G (length (sent w)) user)) /\
    sent w' = (sent w ++ [stats_request user])%list /\
    (ticks w <= ticks w' <= ticks w + 3)%nat.
Proof.
  intros Hlib.
  cut (wp (Fixed.user_body G user active_count)
         (returned (fun n w' =>
            n = active_count + (if fixed_is_active G (ticks w) user then 1 else 0) /\
            gauges w' =
              apply_writes (gauges w)
                (stats_writes user (stats_answer G (length (sent w)) user)) /\
            sent w' = (sent w ++ [stats_request user])%list /\
            (ticks w <= ticks w' <= ticks w + 3)%nat)) w).
  { intros H. destruct (wp_returns _ _ _ H) as (n & w' & Heq & -> & H').
    by exists w'. }
  unfold Fixed.user_body. cbv zeta. apply wp_bind.
  apply (wp_consequence _ (returned (fun n w1 =>
           n = active_count + (if fixed_is_active G (ticks w) user then 1 else 0) /\
           gauges w1 = gauges w /\ sent w1 = sent w /\
           (ticks w <= ticks w1 <= ticks w + 1)%nat))).
  { unfold fixed_is_active.
    destruct (truthy (user_LastActivityDate user)) eqn:Hdate.
    - apply wp_bind, wp_fixed_parse; [done|].
      destruct (fixed_parsed G (user_LastActivityDate user)) as [last|].
      + apply wp_try_except, wp_bind, wp_datetime_now. cbv beta match.
        unfold days_between, total_seconds_between, within_days.
        destruct (utcoffset last) as [offset|]; cbn [utcoffset timestamp];
          apply wp_bind, wp_lift; cbv beta match;
          destruct (_ <? 1); apply wp_ret; cbn;
          rewrite ?Z.add_0_r; repeat split; lia.
      + apply wp_ret. cbn. rewrite Z.add_0_r. repeat split; lia.
    - rewrite (fixed_parsed_falsy _ _ Hdate).
      apply wp_ret. cbn. rewrite Z.add_0_r. repeat split; lia. }
  intros [n|e] w1 Hw1; cbn [returned] in Hw1; [|done].
  destruct Hw1 as (-> & Hg1 & Hs1 & Ht1).
  apply wp_bind, wp_try_except, wp_bind. general_step.
  pose proof (gstep_gauges _ _ _ _ _ Hstep) as Hg2.
  pose proof (gstep_sent _ _ _ _ _ Hstep) as Hs2.
  pose proof (gstep_ticks _ _ _ _ _ Hstep) as Ht2.
  rewrite Hs1 in *.
  unfold stats_answer, stats_request. cbn [fst].
  set (stats := delivered _) in *.
  assert (Hreadings : (ticks w0 <= ticks w1 + 2)%nat) by (destruct stats; lia).
  destruct stats as [stats|]; cbn [truthy truthy_option stats_writes].
  - destruct (truthy stats); cbn [when].
    + repeat general_step. cbn [returned]. project.
      rewrite Hg2, Hg1, Hs2. repeat split; try done; lia.
    + repeat general_step. cbn [returned]. project.
      rewrite Hg2, Hg1, Hs2. repeat split; try done; lia.
  - repeat general_step. cbn [returned]. project.
    rewrite Hg2, Hg1, Hs2. repeat split; try done; lia.
Qed.

Lemma fixed_user_loop (G : GeneralEnv) (users : list User) :
  raises_only_ValueError G ->
  forall (active_count : Z) (w : Fixed.state),
    exists n w',
      for_fold users (Fixed.user_body G) active_count w = (Return n, w') /\
      gauges w' =
        apply_writes (gauges w) (users_writes G (length (sent w)) users) /\
      sent w' = (sent w ++ (stats_request <$> users))%list /\
      forall verdict : User -> bool,
        (forall user k,
           user ∈ users -> (ticks w <= k < ticks w + 3 * length users)%nat ->
           fixed_is_active G k user = verdict user) ->
        n = active_count + count_where verdict users.
Proof.
  intros Hlib.
  induction users as [|user users IH]; intros active_count w.
  - exists active_count, w. cbn. rewrite app_nil_r.
    repeat split. intros verdict _. by rewrite Z.add_0_r.
  - cbn [for_fold]. unfold bind at 1.
    destruct (fixed_user_body_outcome G user active_count w Hlib)
      as (w1 & -> & Hg1 & Hs1 & Ht1).
    destruct (IH (active_count + if fixed_is_active G (ticks w) user
                                 then 1 else 0) w1)
      as (n & w2 & -> & Hg2 & Hs2 & Hcount).
    exists n, w2. split; [done|]. split; [|split].
    + rewrite Hg2, Hs1, Hg1. cbn [users_writes].
      rewrite apply_writes_app, length_app. cbn [length].
      by rewrite Nat.add_1_r.
    + rewrite Hs2, Hs1, <- app_assoc. done.
    + intros verdict Hsettled.
      rewrite (Hcount verdict).
      * rewrite (Hsettled user (ticks w));
          [|apply list_elem_of_here|cbn [length]; lia].
        by rewrite count_where_cons, Z.add_assoc.
      * intros u k Hu Hk. apply Hsettled; [by apply list_elem_of_further|].
        cbn [length]. lia.
Qed.

Lemma fixed_collect_users_outcome (G : GeneralEnv) (w : Fixed.state)
  (l : list User) :
  let start := (ticks w + 2)%nat in
  raises_only_ValueError G ->
  delivered (users G (length (sent w)) []) = Some l ->
  l <> [] ->
  exists n w',
    Fixed.collect_users G w = (Return tt, w') /\
    gauges w' =
      <[(Fixed.active_users, []) := Qc_of_Z n]>
        (apply_writes
           (<[(Fixed.total_users, []) := of_nat (length l)]> (gauges w))
           (users_writes G (length (sent w) + 1) l)) /\
    sent w' = (sent w ++ ("/Users", []) :: (stats_request <$> l))%list /\
    ((forall user k,
        user ∈ l -> (start <= k < start + 3 * length l)%nat ->
        fixed_is_active G k user = fixed_is_active G start user) ->
     n = count_where (fixed_is_active G start) l).
Proof.
  intros start Hlib Hresp Hne.
  unfold Fixed.collect_users.
  destruct (fixed_request_step G "/Users" [] (users G) w)
    as (w1 & Heq1 & Hstep).
  rewrite (bind_returns _ _ _ _ _ Heq1), Hresp.
  assert (Hticks : ticks w1 = start).
  { rewrite (gstep_ticks _ _ _ _ _ Hstep). by rewrite Hresp. }
  pose proof (gstep_gauges _ _ _ _ _ Hstep) as Hg1.
  pose proof (gstep_sent _ _ _ _ _ Hstep) as Hs1.
  destruct l as [|user0 l0]; [done|]. set (l := user0 :: l0) in *.
  cbn [truthy truthy_option truthy_list negb l].
  unfold bind at 1. cbn [deref ret].
  unfold bind at 1, gauge_set at 1.
  match goal with
  | |- context [bind (for_fold l _ _) _ ?w0] =>
      destruct (fixed_user_loop G l Hlib 0 w0)
        as (n & w2 & Hloop & Hg2 & Hs2 & Hcount)
  end.
  rewrite (bind_returns _ _ _ _ _ Hloop).
  exists n. eexists. split; [reflexivity|]. cbn -[l users_writes].
  cbn -[l users_writes] in Hg2, Hs2, Hcount.
  rewrite Hg2, Hs2, Hg1, Hs1, length_app, <- app_assoc.
  repeat split. intros Hsettled.
  rewrite (Hcount (fixed_is_active G start)); [done|].
  rewrite Hticks. exact Hsettled.
Qed.

Lemma users_writes_app (G : GeneralEnv) (l1 l2 : list User) :
  forall n,
    users_writes G n (l1 ++ l2) =
    (users_writes G n l1 ++ users_writes G (n + length l1) l2)%list.
Proof.
  induction l1 as [|user l1 IH]; intros n; cbn [users_writes app length].
  - by rewrite Nat.add_0_r.
  - rewrite IH, <- app_assoc. by rewrite Nat.add_succ_r.
Qed.

Lemma stats_writes_keys (user : User) (stats : option PlayStats) (k : series) :
  k ∈ (stats_writes user stats).*1 ->
  k.2 = [default "unknown" (user_Name user)] /\
  (k.1 = Fixed.user_play_count \/ k.1 = Fixed.user_play_time).
Proof.
  unfold stats_writes. destruct stats as [stats|]; [|by intros ?%elem_of_nil].
  destruct (truthy stats); [|by intros ?%elem_of_nil].
  cbn. intros [->|[->|?%elem_of_nil]%elem_of_cons]%elem_of_cons; cbn; auto.
  done.
Qed.

Lemma users_writes_keys (G : GeneralEnv) (l : list User) (k : series) :
  forall n,
    k ∈ (users_writes G n l).*1 ->
    (exists user, user ∈ l /\ k.2 = [default "unknown" (user_Name user)]) /\
    (k.1 = Fixed.user_play_count \/ k.1 = Fixed.user_play_time).
Proof.
  induction l as [|user l IH]; intros n; cbn [users_writes].
  - by intros ?%elem_of_nil.
  - rewrite fmap_app, elem_of_app. intros [Hk|Hk].
    + destruct (stats_writes_keys _ _ _ Hk) as [Hlabels Hname].
      split; [|done]. exists user. split; [apply list_elem_of_here|done].
    + destruct (IH _ Hk) as [(u & Hu & Hlabels) Hname].
      split; [|done]. exists u. split; [by apply list_elem_of_further|done].
Qed.

(** X16.  The users of the fixed exporter.  Let the library raise nothing
    but ValueError and let /Users deliver a non-empty list.  Then
    [collect_users] returns, with [total_users] at the length of the list and
    [active_users] at the number of users whose [LastActivityDate], as
    [parse_emby_datetime] reads it (so with a long fraction cut to six
    digits), is less than one whole day before the clock reading taken for
    them.  It sends one request after /Users for each user, in the order of
    the list, to /Users/{Id}/PlayedItems/Stats, and to /Users/None/... for a
    user without an [Id].  (The clock readings of the loop, at most three
    per user, all fall on the same side of every user's mark.) *)
Theorem fixed_counts_active_users (G : GeneralEnv) (w : Fixed.state)
  (l : list User) :
  let start := (ticks w + 2)%nat in
  raises_only_ValueError G ->
  delivered (users G (length (sent w)) []) = Some l ->
  l <> [] ->
  (forall user k,
     user ∈ l -> (start <= k < start + 3 * length l)%nat ->
     fixed_is_active G k user = fixed_is_active G start user) ->
  exists w',
    Fixed.collect_users G w = (Return tt, w') /\
    gauges w' !! (Fixed.total_users, []) = Some (of_nat (length l)) /\
    gauges w' !! (Fixed.active_users, []) =
      Some (Qc_of_Z (count_where (fixed_is_active G start) l)) /\
    sent w' = (sent w ++ ("/Users", []) :: (stats_request <$> l))%list.
Proof.
  intros start Hlib Hresp Hne Hsettled.
  destruct (fixed_collect_users_outcome G w l Hlib Hresp Hne)
    as (n & w' & Heq & Hg & Hs & Hcount).
  exists w'. split; [done|]. rewrite Hg, (Hcount Hsettled).
  split; [|split; [apply lookup_insert_eq|done]].
  rewrite lookup_insert_ne by discriminate.
  rewrite apply_writes_untouched; [apply lookup_insert_eq|].
  intros [_ [Hname|Hname]]%users_writes_keys; discriminate Hname.
Qed.

Lemma household_keeps_contract : raises_only_ValueError household.
Proof.
  intros s e. cbn. unfold library_310.
  repeat destruct (String.eqb s _); congruence.
Qed.

Lemma fixed_counts_active_users_witness :
  exists w',
    Fixed.collect_users household Fixed.boot = (Return tt, w') /\
    gauges w' !! (Fixed.total_users, []) = Some (of_nat 4) /\
    gauges w' !! (Fixed.active_users, []) = Some (Qc_of_Z 2) /\
    sent w' =
      [("/Users", []);
       ("/Users/u1/PlayedItems/Stats", []);
       ("/Users/u2/PlayedItems/Stats", []);
       ("/Users/None/PlayedItems/Stats", []);
       ("/Users/u4/PlayedItems/Stats", [])].
Proof.
  apply (fixed_counts_active_users household Fixed.boot [ann; ben; cat; dan]).
  - apply household_keeps_contract.
  - reflexivity.
  - discriminate.
  - intros user k Huser Hk. cbn in Hk.
    assert (exists i, (i < 12)%nat /\ k = (2 + i)%nat) as (i & Hi & ->)
      by (exists (k - 2)%nat; lia).
    repeat (apply elem_of_cons in Huser as [->|Huser]);
      [| | | |by apply elem_of_nil in Huser];
      do 12 (destruct i as [|i]; [reflexivity|]); lia.
Defined.

(** X17.  The play statistics of a user.  If the request for the statistics
    of the [i]-th user is answered with a non-empty object, and no later
    user of the list has the same name ("unknown" standing for a missing
    name), then after [collect_users] the gauge [user_play_count] of that
    name holds the [PlayCount] of the answer (0 when missing) and
    [user_play_time] holds [PlaybackDurationTicks / 600000000], or 0 when the
    ticks are zero or missing. *)
Theorem play_statistics_are_published (G : GeneralEnv) (w : Fixed.state)
  (l : list User) (i : nat) (user : User) (stats : PlayStats) :
  let w' := snd (Fixed.collect_users G w) in
  let username := default "unknown" (user_Name user) in
  raises_only_ValueError G ->
  delivered (users G (length (sent w)) []) = Some l ->
  l !! i = Some user ->
  stats_answer G (length (sent w) + 1 + i) user = Some stats ->
  truthy stats = true ->
  (forall j later,
     (i < j)%nat -> l !! j = Some later ->
     default "unknown" (user_Name later) <> username) ->
  gauges w' !! (Fixed.user_play_count, [username]) =
    Some (Qc_of_Z (default 0 (PlayCount stats))) /\
  gauges w' !! (Fixed.user_play_time, [username]) =
    Some (play_time_minutes stats).
Proof.
  intros w' username Hlib Hresp Hi Hstats Htruthy Hlater.
  assert (Hne : l <> []) by (intros ->; done).
  destruct (fixed_collect_users_outcome G w l Hlib Hresp Hne)
    as (n & w1 & Heq & Hg & _).
  unfold w'. rewrite Heq. cbn [snd]. rewrite Hg.
  rewrite !lookup_insert_ne by discriminate.
  rewrite <- (take_drop_middle l i user Hi), users_writes_app.
  cbn [users_writes]. rewrite length_take_le by (apply lookup_lt_Some in Hi; lia).
  rewrite Hstats. unfold stats_writes. rewrite Htruthy. fold username.
  assert (Hrest : forall name,
    (name, [username]) ∉ (users_writes G (S (length (sent w) + 1 + i))
                            (drop (S i) l)).*1).
  { intros name [(later & Hin & Hlabels) _]%users_writes_keys.
    apply list_elem_of_lookup in Hin as (j & Hj).
    rewrite lookup_drop in Hj. cbn in Hlabels.
    apply (Hlater (S i + j)%nat later); [lia|done|congruence]. }
  split.
  - rewrite !apply_writes_app. cbn [apply_writes foldl fst snd].
    rewrite apply_writes_untouched by apply Hrest.
    rewrite lookup_insert_ne by discriminate. apply lookup_insert_eq.
  - rewrite !apply_writes_app. cbn [apply_writes foldl fst snd].
    rewrite apply_writes_untouched by apply Hrest.
    apply lookup_insert_eq.
Qed.

Lemma play_statistics_are_published_witness :
  let w' := snd (Fixed.collect_users household Fixed.boot) in
  gauges w' !! (Fixed.user_play_count, ["ann"]) = Some (Qc_of_Z 12) /\
  gauges w' !! (Fixed.user_play_time, ["ann"]) =
    Some (Qc_of_Z 36000000000 / Qc_of_Z 600000000)%Qc.
Proof.
  apply (play_statistics_are_published household Fixed.boot
           [ann; ben; cat; dan] 0 ann
           {| PlayCount := Some 12;
              PlaybackDurationTicks := Some 36000000000 |}).
  - apply household_keeps_contract.
  - reflexivity.
  - reflexivity.
  - reflexivity.
  - reflexivity.
  - intros j later Hj Hlater.
    do 4 (destruct j as [|j]; [first [lia | by inversion Hlater]|]).
    done.
Defined.

(** ** Devices of the fixed exporter *)

Lemma count_where_filter {A : Type} (p q : A -> bool) (l : list A) :
  count_where p (List.filter q l) = count_where (fun x => (q x && p x)%bool) l.
Proof.
  unfold count_where. induction l as [|x l IH]; [done|].
  cbn. destruct (q x); cbn; [destruct (p x); cbn; lia|done].
Qed.

(** Writing a tally out, one gauge child per key. *)
Lemma wp_publish_tally {S : Type} (name : string) (d : list (string * Z))
  (w : World S) :
  NoDup d.*1 ->
  wp (for_each d (fun '(k, c) => gauge_set name [k] (Qc_of_Z c)))
    (returned (fun _ w' =>
       (forall k c, (k, c) ∈ d ->
          gauges w' !! (name, [k]) = Some (Qc_of_Z c)) /\
       (forall key, (forall k, k ∈ d.*1 -> key <> (name, [k])) ->
          gauges w' !! key = gauges w !! key))) w.
Proof.
  intros Hnd.
  eapply wp_consequence.
  { apply (wp_for_each
      (fun done (w' : World S) =>
         (NoDup done.*1 ->
          forall k c, (k, c) ∈ done ->
            gauges w' !! (name, [k]) = Some (Qc_of_Z c)) /\
         (forall key, (forall k, k ∈ done.*1 -> key <> (name, [k])) ->
            gauges w' !! key = gauges w !! key))) with (done := []).
    - intros done [k c] w1 [Hdone Hframe]. wp_steps. cbn [returned].
      rewrite fmap_app. split.
      + intros Hnd' k' c' Hin.
        apply NoDup_app in Hnd' as (Hnd1 & Hfresh & _).
        apply elem_of_app in Hin as [Hin|Hin].
        * look. rewrite lookup_insert_ne; [by apply Hdone|].
          intros [= ->]. apply (Hfresh k').
          -- apply list_elem_of_fmap. by exists (k', c').
          -- cbn. by left.
        * apply list_elem_of_singleton in Hin as [= -> ->]. by look.
      + intros key Hkey. project. rewrite lookup_insert_ne.
        * apply Hframe. intros k' Hk'. apply Hkey, elem_of_app. by left.
        * intros <-. apply (Hkey k); [|done]. apply elem_of_app. right.
          cbn. by left.
    - split; [|done]. intros _ k c Hin. by apply elem_of_nil in Hin. }
  intros [[]|e] w' Hr; cbn [returned] in Hr |- *; [|done].
  destruct Hr as [Hdone Hframe]. rewrite app_nil_l in *. split; [|done].
  by apply Hdone.
Qed.

Lemma device_body_outcome (G : GeneralEnv) (device : Device)
  (device_types : list (string * Z)) (w : Fixed.state) :
  raises_only_ValueError G ->
  exists w',
    Fixed.device_body G device device_types w =
      (Return (if device_is_active G (ticks w) device
               then incr_int (device_type device) device_types
               else device_types), w') /\
    gauges w' = gauges w /\
    (ticks w <= ticks w' <= ticks w + 1)%nat.
Proof.
  intros Hlib. unfold Fixed.device_body, device_is_active, device_type.
  destruct (truthy (device_DateLastActivity device)) eqn:Hdate.
  - unfold bind at 1. rewrite (fixed_parse_is_pure G _ w Hlib).
    destruct (fixed_parsed G (device_DateLastActivity device)) as [last|].
    + unfold try_except, bind, datetime_now, days_between,
        total_seconds_between, within_days, lift.
      destruct (utcoffset last) as [offset|]; cbn;
        destruct (_ <? 7); unfold ret;
        eexists; (split; [reflexivity|]); cbn; (split; [done|lia]).
    + exists w. cbn. split; [done|]. split; [done|lia].
  - rewrite (fixed_parsed_falsy _ _ Hdate).
    exists w. cbn. split; [done|]. split; [done|lia].
Qed.

Lemma device_loop (G : GeneralEnv) (verdict : Device -> bool)
  (devices : list Device) :
  raises_only_ValueError G ->
  forall (device_types : list (string * Z)) (w : Fixed.state),
    (forall device k,
       device ∈ devices -> (ticks w <= k < ticks w + length devices)%nat ->
       device_is_active G k device = verdict device) ->
    exists w',
      for_fold devices (Fixed.device_body G) device_types w =
        (Return (foldl (fun d k => incr_int k d) device_types
                   (device_type <$> List.filter verdict devices)), w') /\
      gauges w' = gauges w.
Proof.
  intros Hlib.
  induction devices as [|device devices IH]; intros device_types w Hsettled.
  - by exists w.
  - cbn [for_fold]. unfold bind at 1.
    destruct (device_body_outcome G device device_types w Hlib)
      as (w1 & -> & Hg1 & Ht1).
    rewrite (Hsettled device (ticks w)); [|apply list_elem_of_here|cbn; lia].
    edestruct IH as (w2 & -> & Hg2).
    { intros d k Hd Hk. apply Hsettled; [by apply list_elem_of_further|].
      cbn [length]. lia. }
    exists w2. split; [|congruence].
    cbn [List.filter]. by destruct (verdict device).
Qed.

(** X18.  The devices of the fixed exporter.  When /Devices is answered with
    a non-empty object (and the library raises nothing but ValueError),
    [collect_devices] returns with [device_count] at the number of [Items]
    (0 without the key) and, for every app that has a device used less than
    seven whole days ago, [device_active] of that app at the number of such
    devices.  The gauge of an app without such a device is not written: it
    keeps the value of an earlier cycle.  When the request delivers nothing,
    a list, or an empty object, no gauge changes at all.  (The clock
    readings of the loop, at most one per device, all fall on the same side
    of every device's mark.) *)
Theorem devices_are_counted (G : GeneralEnv) (w : Fixed.state) :
  let answer := delivered (devices G (length (sent w)) []) in
  let start := (ticks w + 2)%nat in
  (forall q,
     let items := default [] (Items q) in
     raises_only_ValueError G ->
     answer = Some (DevicesObject q) ->
     truthy q = true ->
     (forall device k,
        device ∈ items -> (start <= k < start + length items)%nat ->
        device_is_active G k device = device_is_active G start device) ->
     exists w',
       Fixed.collect_devices G w = (Return tt, w') /\
       gauges w' !! (Fixed.device_count, []) = Some (of_nat (length items)) /\
       (forall device,
          device ∈ items -> device_is_active G start device = true ->
          gauges w' !! (Fixed.device_active, [device_type device]) =
          Some (Qc_of_Z
                  (count_where
                     (fun d => (device_is_active G start d &&
                                String.eqb (device_type device)
                                  (device_type d))%bool) items))) /\
       (forall app,
          (forall device,
             device ∈ items -> device_is_active G start device = true ->
             device_type device <> app) ->
          gauges w' !! (Fixed.device_active, [app]) =
          gauges w !! (Fixed.device_active, [app]))) /\
  (answer = None \/ (exists l, answer = Some (DevicesList l)) \/
   (exists q, answer = Some (DevicesObject q) /\ truthy q = false) ->
   exists w',
     Fixed.collect_devices G w = (Return tt, w') /\ gauges w' = gauges w).
Proof.
  intros answer start. split.
  - intros q items Hlib Hanswer Hq Hsettled.
    unfold Fixed.collect_devices.
    destruct (fixed_request_step G "/Devices" [] (devices G) w)
      as (w1 & Heq1 & Hstep).
    rewrite (bind_returns _ _ _ _ _ Heq1). fold answer. rewrite Hanswer, Hq.
    cbn [negb]. cbv zeta. fold items.
    assert (Hticks : ticks w1 = start).
    { rewrite (gstep_ticks _ _ _ _ _ Hstep). fold answer. by rewrite Hanswer. }
    pose proof (gstep_gauges _ _ _ _ _ Hstep) as Hg1.
    unfold bind at 1, gauge_set at 1.
    match goal with
    | |- context [bind (for_fold items _ _) _ ?w0] =>
        destruct (device_loop G (device_is_active G start) items Hlib [] w0)
          as (w2 & Hloop & Hg2)
    end.
    { cbn [ticks with_gauges]. rewrite Hticks. exact Hsettled. }
    rewrite (bind_returns _ _ _ _ _ Hloop).
    set (keys := device_type <$> List.filter (device_is_active G start) items).
    destruct (tally_counts keys []) as (Hnd & Hkeys & Hget);
      [apply NoDup_nil_2|].
    cbv zeta in Hnd, Hkeys, Hget.
    set (device_types := foldl _ _ keys) in *.
    destruct (wp_returns _ _ _
                (wp_publish_tally Fixed.device_active device_types w2 Hnd))
      as ([] & w3 & Heq3 & Hset & Hframe).
    exists w3. split; [exact Heq3|]. split; [|split].
    + rewrite Hframe by (intros k _; discriminate).
      rewrite Hg2. cbn. apply lookup_insert_eq.
    + intros device Hin Hactive.
      assert (Hkey : device_type device ∈ device_types.*1).
      { apply Hkeys. right. apply list_elem_of_fmap. exists device.
        split; [done|]. apply list_elem_of_In, filter_In.
        split; [by apply list_elem_of_In|done]. }
      rewrite (Hset (device_type device)
                 (count_where (String.eqb (device_type device)) keys)).
      * unfold keys. by rewrite count_where_fmap, count_where_filter.
      * apply (dict_get_elem_of _ _ _ Hnd). by rewrite (Hget _ Hkey).
    + intros app Happ. rewrite Hframe.
      * rewrite Hg2. cbn. rewrite lookup_insert_ne by discriminate.
        by rewrite Hg1.
      * intros k Hk [= <-]. apply Hkeys in Hk as [Hk|Hk];
          [by apply elem_of_nil in Hk|].
        apply list_elem_of_fmap in Hk as (device & Htype & Hin).
        apply list_elem_of_In, filter_In in Hin as [Hin Hactive].
        apply (Happ device); [by apply list_elem_of_In|done|done].
  - intros Hcase. unfold Fixed.collect_devices.
    destruct (fixed_request_step G "/Devices" [] (devices G) w)
      as (w1 & Heq1 & Hstep).
    rewrite (bind_returns _ _ _ _ _ Heq1). fold answer.
    pose proof (gstep_gauges _ _ _ _ _ Hstep) as Hg1.
    exists w1. split; [|done].
    destruct Hcase as [->|[(l & ->)|(q & -> & Hq)]]; [done|done|].
    by rewrite Hq.
Qed.

Lemma household_devices_settled (device : Device) (k : nat) :
  device ∈ three_devices -> (2 <= k < 2 + 3)%nat ->
  device_is_active household k device = device_is_active household 2 device.
Proof.
  intros Hdevice Hk.
  assert (k = 2 \/ k = 3 \/ k = 4)%nat as Hcases by lia.
  repeat (apply elem_of_cons in Hdevice as [->|Hdevice]);
    [| | |by apply elem_of_nil in Hdevice];
    destruct Hcases as [->|[->| ->]]; reflexivity.
Qed.

Lemma household_browser_is_idle (device : Device) :
  device ∈ three_devices -> device_is_active household 2 device = true ->
  device_type device <> "Emby Web".
Proof.
  intros Hdevice Hactive.
  repeat (apply elem_of_cons in Hdevice as [->|Hdevice]);
    [discriminate|discriminate|discriminate Hactive
    |by apply elem_of_nil in Hdevice].
Qed.

Lemma devices_are_counted_witness :
  exists w',
    Fixed.collect_devices household Fixed.boot = (Return tt, w') /\
    gauges w' !! (Fixed.device_count, []) = Some (of_nat 3) /\
    gauges w' !! (Fixed.device_active, ["Emby for Android"]) =
      Some (Qc_of_Z 1) /\
    gauges w' !! (Fixed.device_active, ["Emby Web"]) = None.
Proof.
  destruct (proj1 (devices_are_counted household Fixed.boot)
              {| Items := Some three_devices; TotalRecordCount := Some 3 |}
              household_keeps_contract eq_refl eq_refl
              household_devices_settled)
    as (w' & Hrun & Hcount & Hactive & Hstale).
  exists w'. split; [exact Hrun|]. split; [exact Hcount|]. split.
  - apply (Hactive {| device_DateLastActivity :=
                        Some "2025-07-20T01:16:29.5706488Z";
                      device_AppName := Some "Emby for Android" |});
      [apply list_elem_of_here|reflexivity].
  - rewrite (Hstale "Emby Web"); [reflexivity|].
    exact household_browser_is_idle.
Defined.

(** ** Server information in the fixed exporter *)

(** X19.  [collect_server_info] of the fixed exporter always returns.  When
    /System/Info is answered with a non-empty object it sets [server_up] to
    1, the info metric to the version, the server name, the operating system
    and the architecture ("unknown" where missing), and, if the answer has a
    [CachePath], the gauge [process_threads] to the [WebSocketPortNumber] of
    the answer (0 when missing): a port number, not a number of threads.
    Otherwise it sets [server_up] to 0 and changes nothing else: the info
    metric keeps what an earlier cycle wrote. *)
Theorem process_threads_is_a_port_number (G : GeneralEnv) (w : Fixed.state) :
  let answer := delivered (general_info G (length (sent w)) []) in
  exists w',
    Fixed.collect_server_info G w = (Return tt, w') /\
    match answer with
    | Some info =>
        if truthy info then
          gauges w' !! (Fixed.server_up, []) = Some (Qc_of_Z 1) /\
          infos w' !! Fixed.server_info =
            Some [("version", default "unknown" (ginfo_Version info));
                  ("server_name", default "unknown" (ginfo_ServerName info));
                  ("operating_system",
                   default "unknown" (ginfo_OperatingSystem info));
                  ("architecture",
                   default "unknown" (ginfo_SystemArchitecture info))] /\
          gauges w' !! (Fixed.process_threads, []) =
            if has_key (ginfo_CachePath info)
            then Some (Qc_of_Z (default 0 (ginfo_WebSocketPortNumber info)))
            else gauges w !! (Fixed.process_threads, [])
        else
          gauges w' = <[(Fixed.server_up, []) := Qc_of_Z 0]> (gauges w) /\
          infos w' = infos w
    | None =>
        gauges w' = <[(Fixed.server_up, []) := Qc_of_Z 0]> (gauges w) /\
        infos w' = infos w
    end.
Proof.
  intros answer.
  cut (wp (Fixed.collect_server_info G)
         (returned (fun _ w' =>
    match answer with
    | Some info =>
        if truthy info then
          gauges w' !! (Fixed.server_up, []) = Some (Qc_of_Z 1) /\
          infos w' !! Fixed.server_info =
            Some [("version", default "unknown" (ginfo_Version info));
                  ("server_name", default "unknown" (ginfo_ServerName info));
                  ("operating_system",
                   default "unknown" (ginfo_OperatingSystem info));
                  ("architecture",
                   default "unknown" (ginfo_SystemArchitecture info))] /\
          gauges w' !! (Fixed.process_threads, []) =
            if has_key (ginfo_CachePath info)
            then Some (Qc_of_Z (default 0 (ginfo_WebSocketPortNumber info)))
            else gauges w !! (Fixed.process_threads, [])
        else
          gauges w' = <[(Fixed.server_up, []) := Qc_of_Z 0]> (gauges w) /\
          infos w' = infos w
    | None =>
        gauges w' = <[(Fixed.server_up, []) := Qc_of_Z 0]> (gauges w) /\
        infos w' = infos w
    end)) w).
  { intros H. destruct (wp_returns _ _ _ H) as ([] & w' & Heq & HP). eauto. }
  unfold Fixed.collect_server_info. general_step. general_step.
  fold answer.
  pose proof (gstep_gauges _ _ _ _ _ Hstep) as Hg.
  pose proof (gstep_infos _ _ _ _ _ Hstep) as Hi.
  destruct answer as [info|]; cbn [truthy truthy_option].
  - destruct (truthy info).
    + do 6 general_step.
      destruct (has_key (ginfo_CachePath info)); cbn [when].
      * general_step. cbn [returned]. by look.
      * general_step. cbn [returned]. look. by rewrite Hg.
    + general_step. cbn [returned]. project. by rewrite Hg, Hi.
  - general_step. cbn [returned]. project. by rewrite Hg, Hi.
Qed.

Lemma process_threads_is_a_port_number_witness :
  exists w',
    Fixed.collect_server_info household Fixed.boot = (Return tt, w') /\
    gauges w' !! (Fixed.server_up, []) = Some (Qc_of_Z 1) /\
    infos w' !! Fixed.server_info =
      Some [("version", "4.8.0.0"); ("server_name", "emby");
            ("operating_system", "Linux"); ("architecture", "X64")] /\
    gauges w' !! (Fixed.process_threads, []) = Some (Qc_of_Z 8096).
Proof. exact (process_threads_is_a_port_number household Fixed.boot). Defined.

(** ** The cache of the fixed exporter *)

(** X20.  The cache of the fixed exporter, which no method of the class
    uses.  When there is no entry for a key that is younger than the
    lifetime, [_get_cached] runs the fetch and stores what it returns under
    the clock reading taken before the fetch started.  The next call for the
    key returns the stored data without running its fetch, provided its own
    clock reading is less than the lifetime after that one.  A [ttl] of 0 is
    the same as none: the lifetime is then [cache_ttl], 60 seconds. *)
Theorem cached_data_is_served_again (G : GeneralEnv) {A : Type} (key : string)
  (fetch_func other : M (World (Fixed.Cache A)) (option A)) (ttl : option Z)
  (w w1 : World (Fixed.Cache A)) (data : A) :
  let lifetime :=
    Qc_of_Z (if truthy ttl then default 0 ttl else Fixed.cache_ttl) in
  let now := time_time G (ticks w) in
  let after := with_self (<[key := (data, now)]> (self w1)) w1 in
  (forall entry, self w !! key = Some entry -> ~ (now - entry.2 < lifetime)%Qc) ->
  fetch_func (with_ticks (ticks w + 1) w) = (Return (Some data), w1) ->
  (time_time G (ticks w1) - now < lifetime)%Qc ->
  Fixed._get_cached G key fetch_func ttl w = (Return (Some data), after) /\
  Fixed._get_cached G key other ttl after =
    (Return (Some data), with_ticks (ticks w1 + 1) after) /\
  Fixed._get_cached G key fetch_func (Some 0) w =
    Fixed._get_cached G key fetch_func None w.
Proof.
  intros lifetime now after Hstale Hfetch Hfresh. split; [|split].
  - unfold Fixed._get_cached, bind at 1, clock_read. cbv zeta.
    unfold bind at 1, get_self. cbn [self with_ticks].
    fold now lifetime.
    assert (Hrun :
      bind fetch_func
        (fun data0 : option A =>
           match data0 with
           | Some fetched =>
               bind (modify_self (insert key (fetched, now)))
                 (fun _ => ret data0)
           | None => ret data0
           end) (with_ticks (ticks w + 1) w)
      = (Return (Some data), after)).
    { unfold bind at 1. by rewrite Hfetch. }
    destruct (self w !! key) as [[cached timestamp]|] eqn:Hentry; [|exact Hrun].
    rewrite bool_decide_eq_false_2; [exact Hrun|].
    exact (Hstale _ eq_refl).
  - unfold Fixed._get_cached, bind at 1, clock_read. cbv zeta.
    unfold bind at 1, get_self. cbn [self with_ticks with_self ticks after].
    rewrite (lookup_insert_eq (self w1 : gmap string (A * Qc))). fold lifetime.
    by rewrite bool_decide_eq_true_2.
  - reflexivity.
Qed.

Lemma cached_data_is_served_again_witness :
  let after :=
    with_self (<[("users" : string) := (4, time_time household 0)]> ∅)
      (with_ticks 2 nothing_cached) in
  Fixed._get_cached household "users" count_users None nothing_cached
    = (Return (Some 4), after) /\
  Fixed._get_cached household "users" failing_fetch None after
    = (Return (Some 4), with_ticks 3 after) /\
  Fixed._get_cached household "users" count_users (Some 0) nothing_cached =
    Fixed._get_cached household "users" count_users None nothing_cached.
Proof.
  apply (cached_data_is_served_again household "users" count_users
           failing_fetch None nothing_cached (with_ticks 2 nothing_cached) 4).
  - intros entry Hentry. discriminate Hentry.
  - reflexivity.
  - vm_compute. reflexivity.
Defined.
